(** * pricetracker: extraction, scheduling and notification dedup

    A shallow embedding of the price tracker's services
    ([src/services/scraper.ts], [src/services/scheduler.ts],
    [src/services/notifications.ts]) and the properties its specification
    states about them.

    Conventions of the embedding.
    - A JavaScript string is a [string]: a sequence of code units below 256.
    - A JavaScript number is a [JS.number]: NaN, the two infinities, or a
      finite value kept as the exact rational it denotes; binary rounding of
      decimal literals is not modelled.
    - A thrown exception is the [Throw] outcome of a computation.
    - The database is a record of tables, each table a list of rows in
      insertion order; every operation takes the state and returns the new
      one.  [new Date()] is the [now] argument of the operation.
    - What the code leaves to its environment is an argument of the
      operation: the order in which a query without [ORDER BY] returns its
      rows, the order in which the statements of concurrent checks reach
      the database, the date ninety days before now, whether the
      selector engine of a page accepts a selector, and the text the
      database connection sends for a parameter that is not a string. *)

From Stdlib Require Import ZArith QArith Qreduction String Ascii List Bool Lia Arith Permutation.
Import ListNotations.

Close Scope Q_scope.
Set Warnings "-register-all".

(** ** Outcomes of computations that may throw *)

Inductive outcome (A : Type) : Type :=
| Ok (a : A)
| Throw.
Arguments Ok {A} a.
Arguments Throw {A}.

Definition bindO {A B : Type} (m : outcome A) (f : A -> outcome B) : outcome B :=
  match m with
  | Ok a => f a
  | Throw => Throw
  end.

Notation "x <- m ;; k" := (bindO m (fun x => k))
  (at level 61, m at next level, right associativity).

(** ** JavaScript numbers, strings and values *)

Module JS.

(** *** Numbers *)

Inductive number : Type :=
| NaN
| PInf
| NInf
| Fin (q : Q).

Definition Qltb (x y : Q) : bool := negb (Qle_bool y x).

(** [a < b]; every comparison with NaN is false. *)
Definition lt (a b : number) : bool :=
  match a, b with
  | NaN, _ | _, NaN => false
  | PInf, _ => false
  | _, NInf => false
  | NInf, _ => true
  | Fin _, PInf => true
  | Fin x, Fin y => Qltb x y
  end.

Definition gt (a b : number) : bool := lt b a.

(** [a <= b] as JavaScript evaluates it. *)
Definition le (a b : number) : bool :=
  match a, b with
  | NaN, _ | _, NaN => false
  | NInf, _ => true
  | _, PInf => true
  | PInf, _ => false
  | Fin _, NInf => false
  | Fin x, Fin y => Qle_bool x y
  end.

Definition isNaN (a : number) : bool :=
  match a with NaN => true | _ => false end.

(** ToBoolean on a number: false for NaN and zero. *)
Definition truthyNum (a : number) : bool :=
  match a with
  | NaN => false
  | Fin q => negb (Qeq_bool q 0%Q)
  | _ => true
  end.

Definition ofZ (z : Z) : number := Fin (inject_Z z).

(** *** Characters and strings *)

Definition code (c : ascii) : nat := nat_of_ascii c.

Definition isDigit (c : ascii) : bool :=
  (48 <=? code c) && (code c <=? 57).

(** White space and line terminators below 256: TAB, LF, VT, FF, CR, SP and
    NBSP.  This is the [\s] class, what [trim] removes and what [parseFloat]
    skips. *)
Definition isSpace (c : ascii) : bool :=
  ((9 <=? code c) && (code c <=? 13)) || (code c =? 32) || (code c =? 160).

Definition isChar (a c : ascii) : bool := Ascii.eqb a c.

Definition lowerChar (c : ascii) : ascii :=
  let n := code c in
  if ((65 <=? n) && (n <=? 90))
     || ((192 <=? n) && (n <=? 222) && negb (n =? 215))
  then ascii_of_nat (n + 32) else c.

Fixpoint toLowerCase (s : string) : string :=
  match s with
  | EmptyString => EmptyString
  | String c r => String (lowerChar c) (toLowerCase r)
  end.

Fixpoint startsWith (p s : string) : bool :=
  match p, s with
  | EmptyString, _ => true
  | String a p', String b s' => Ascii.eqb a b && startsWith p' s'
  | String _ _, EmptyString => false
  end.

(** [s.includes(p)] *)
Fixpoint includes (s p : string) : bool :=
  startsWith p s ||
  match s with
  | EmptyString => false
  | String _ r => includes r p
  end.

Fixpoint filterStr (keep : ascii -> bool) (s : string) : string :=
  match s with
  | EmptyString => EmptyString
  | String c r => if keep c then String c (filterStr keep r) else filterStr keep r
  end.

Fixpoint trimStart (s : string) : string :=
  match s with
  | String c r => if isSpace c then trimStart r else s
  | EmptyString => EmptyString
  end.

Fixpoint trimEnd (s : string) : string :=
  match s with
  | EmptyString => EmptyString
  | String c r =>
      let r' := trimEnd r in
      if isSpace c && String.eqb r' EmptyString then EmptyString else String c r'
  end.

Definition trim (s : string) : string := trimEnd (trimStart s).

(** *** parseFloat *)

Fixpoint span (p : ascii -> bool) (s : string) : string * string :=
  match s with
  | String c r =>
      if p c then let (a, b) := span p r in (String c a, b)
      else (EmptyString, s)
  | EmptyString => (EmptyString, EmptyString)
  end.

Definition digitVal (c : ascii) : Z := Z.of_nat (code c - 48).

Fixpoint digitsValue (acc : Z) (s : string) : Z :=
  match s with
  | EmptyString => acc
  | String c r => digitsValue (10 * acc + digitVal c) r
  end.

(** [m * 10^e] as a reduced fraction. *)
Definition scale10 (m e : Z) : Q :=
  if (0 <=? e)%Z then inject_Z (m * 10 ^ e)
  else Qred (m # Pos.pow 10 (Z.to_pos (- e))).

Definition takeSign (s : string) : bool * string :=
  match s with
  | String "-" r => (true, r)
  | String "+" r => (false, r)
  | _ => (false, s)
  end.

(** The exponent part [e[+-]digits] at the head of [s], when there is one. *)
Definition exponentPart (s : string) : Z :=
  match s with
  | String c r =>
      if isChar "e" c || isChar "E" c then
        let (neg, r1) := takeSign r in
        let (ds, _) := span isDigit r1 in
        match ds with
        | EmptyString => 0%Z
        | _ => if neg then (- digitsValue 0 ds)%Z else digitsValue 0 ds
        end
      else 0%Z
  | EmptyString => 0%Z
  end.

(** [parseFloat(s)]: skip leading white space, read the longest prefix that
    is a decimal literal ([Infinity], digits with an optional fraction and
    exponent, each with an optional sign); NaN when there is none. *)
Definition parseFloat (s : string) : number :=
  let (neg, s1) := takeSign (trimStart s) in
  if startsWith "Infinity" s1 then (if neg then NInf else PInf)
  else
    let (ip, s2) := span isDigit s1 in
    let (fp, s3) :=
      match s2 with
      | String "." r => span isDigit r
      | _ => (EmptyString, s2)
      end in
    match ip, fp with
    | EmptyString, EmptyString => NaN
    | _, _ =>
        let m := digitsValue (digitsValue 0 ip) fp in
        let e := (exponentPart s3 - Z.of_nat (String.length fp))%Z in
        Fin (scale10 (if neg then (- m)%Z else m) e)
    end.

(** *** Values: what [JSON.parse] returns, and [undefined] *)

Inductive value : Type :=
| Undef
| Null
| Bool (b : bool)
| Num (n : number)
| Str (s : string)
| Arr (xs : list value)
| Obj (kvs : list (string * value)).

(** ToBoolean *)
Definition truthy (v : value) : bool :=
  match v with
  | Undef | Null => false
  | Bool b => b
  | Num n => truthyNum n
  | Str s => negb (String.eqb s EmptyString)
  | Arr _ | Obj _ => true
  end.

Fixpoint lookup (k : string) (kvs : list (string * value)) : value :=
  match kvs with
  | [] => Undef
  | (k', v) :: r => if String.eqb k k' then v else lookup k r
  end.

(** [v[k]] for the property names the scraper reads ([@type], [@graph],
    [offers], [price], [lowPrice], [priceCurrency], [name], [availability]):
    a TypeError on [null] and [undefined], [undefined] on a primitive or an
    array (none of these names is an index or [length]), the own property of
    an object.  The entries of an [Obj] are its own properties in
    enumeration order, with distinct names. *)
Definition get (v : value) (k : string) : outcome value :=
  match v with
  | Undef | Null => Throw
  | Obj kvs => Ok (lookup k kvs)
  | _ => Ok Undef
  end.

(** [a || b] *)
Definition orElse (a b : value) : value := if truthy a then a else b.

Definition isStr (s : string) (v : value) : bool :=
  match v with Str t => String.eqb s t | _ => false end.

(** [typeof v === 'object' && v !== null] *)
Definition isObjectLike (v : value) : bool :=
  match v with Arr _ | Obj _ => true | _ => false end.

(** [parseFloat(v)]: [parseFloat] of the string [v] converts to.  A number
    prints to a literal that reads back as itself; an array joins its
    elements with commas, so only its first element is read, and [null] or
    [undefined] there prints as the empty string. *)
Fixpoint parseFloatOf (v : value) : number :=
  match v with
  | Num n => n
  | Str s => parseFloat s
  | Arr (x :: _) =>
      match x with
      | Null | Undef => NaN
      | _ => parseFloatOf x
      end
  | _ => NaN
  end.

End JS.

(** ** Regular expressions of the scraper

    The price patterns are sequences of character classes, each taken once,
    optionally, or repeated greedily.  [matchAt] is the backtracking matcher
    of the language on that fragment: a quantified class first takes all it
    can and gives characters back until the rest of the pattern matches. *)

Module Regex.

Inductive quant : Type := One | Opt | Star | Plus.

Definition item : Type := ((ascii -> bool) * quant)%type.
Definition regex : Type := list item.

Fixpoint greedy (p : ascii -> bool) (k : string -> option string) (s : string)
  : option string :=
  match s with
  | String c r =>
      if p c then
        match greedy p k r with
        | Some e => Some e
        | None => k s
        end
      else k s
  | EmptyString => k s
  end.

(** The input left after the first way [re] matches a prefix of [s]. *)
Fixpoint matchAt (re : regex) (s : string) : option string :=
  match re with
  | [] => Some s
  | (p, q) :: re' =>
      let k := matchAt re' in
      match q with
      | One =>
          match s with
          | String c r => if p c then k r else None
          | EmptyString => None
          end
      | Opt =>
          match s with
          | String c r =>
              if p c then
                match k r with
                | Some e => Some e
                | None => k s
                end
              else k s
          | EmptyString => k s
          end
      | Star => greedy p k s
      | Plus =>
          match s with
          | String c r => if p c then greedy p k r else None
          | EmptyString => None
          end
      end
  end.

(** [s.match(re)] for a pattern with the [g] flag: the matched substrings
    from left to right, the search resuming where the last match ended (one
    further on after an empty match).  No match is the empty list, where
    the language gives [null]. *)
Fixpoint matchAllFrom (re : regex) (s : string) (skip : nat) : list string :=
  match s with
  | EmptyString =>
      match skip, matchAt re EmptyString with
      | O, Some _ => [EmptyString]
      | _, _ => []
      end
  | String _ r =>
      match skip with
      | S n => matchAllFrom re r n
      | O =>
          match matchAt re s with
          | Some rest =>
              let len := String.length s - String.length rest in
              substring 0 len s :: matchAllFrom re r (len - 1)
          | None => matchAllFrom re r 0
          end
      end
  end.

Definition matchAll (re : regex) (s : string) : list string :=
  matchAllFrom re s 0.

End Regex.

(** ** The scraper ([src/services/scraper.ts]) *)

Module Scraper.
Import JS.

(** *** Documents

    The scraper reads a page through selector queries only.  [select d sel]
    stands for the elements [sel] matches, in document order, each with its
    text, its attributes and its [disabled] property; [parses d sel] says
    whether the selector engine of the page takes [sel] or throws on it
    (it takes the selectors the scraper writes itself); [jsonLd d] holds,
    for each [application/ld+json] script in document order, what
    [JSON.parse] makes of its text. *)

Record element : Type := {
  text : string;
  attrs : list (string * string);
  disabled : bool
}.

Record document : Type := {
  select : string -> list element;
  parses : string -> bool;
  jsonLd : list (outcome value)
}.

(** [productName] and [imageUrl] are left out of the result: they are
    computed after the price and nothing else depends on them. *)
Record ScrapeResult : Type := {
  price : option number;
  currency : value;
  isAvailable : bool;
  error : option string
}.

Definition dq : string := String (ascii_of_nat 34) EmptyString.

(** [[a="v"]] *)
Definition attrSel (a v : string) : string :=
  ("[" ++ a ++ "=" ++ dq ++ v ++ dq ++ "]")%string.

(** [[a*="v"]] *)
Definition attrHas (a v : string) : string :=
  ("[" ++ a ++ "*=" ++ dq ++ v ++ dq ++ "]")%string.

Fixpoint assoc (k : string) (l : list (string * string)) : option string :=
  match l with
  | [] => None
  | (k', v) :: r => if String.eqb k k' then Some v else assoc k r
  end.

(** [$(sel).attr(name)]: the attribute of the first matched element. *)
Definition attr (d : document) (sel name : string) : option string :=
  match select d sel with
  | e :: _ => assoc name (attrs e)
  | [] => None
  end.

(** [a || b] on strings that may be undefined. *)
Definition orStr (a b : option string) : option string :=
  match a with
  | Some s => if String.eqb s EmptyString then b else a
  | None => b
  end.

(** *** findProductInJsonLd *)

Definition isProductType (t : value) : bool :=
  isStr "Product" t ||
  match t with
  | Arr ts => existsb (isStr "Product") ts
  | _ => false
  end.

Definition productInfo (p c n : value) : value :=
  Obj [("price"%string, p);
       ("currency"%string, orElse c (Str "AUD"));
       ("name"%string, n)].

(** The loop over the offers of a Product: the first offer with a truthy
    [price] or [lowPrice].  Reading a property of a [null] offer throws. *)
Fixpoint scanOffers (name : value) (offers : list value) : outcome (option value) :=
  match offers with
  | [] => Ok None
  | offer :: rest =>
      p <- get offer "price" ;;
      lp <- get offer "lowPrice" ;;
      if truthy (orElse p lp) then
        c <- get offer "priceCurrency" ;;
        Ok (Some (productInfo (orElse p lp) c name))
      else scanOffers name rest
  end.

(** The [Product] branch on an object or primitive [d] that is truthy and
    not an array: [Some] result when it returns, [None] when control falls
    through to the [@graph] test. *)
Definition productBranch (d : value) : outcome (option value) :=
  t <- get d "@type" ;;
  if isProductType t then
    offers <- get d "offers" ;;
    name <- get d "name" ;;
    found <- (if truthy offers then
                scanOffers name (match offers with Arr l => l | o => [o] end)
              else Ok None) ;;
    match found with
    | Some r => Ok (Some r)
    | None =>
        p <- get d "price" ;;
        if truthy p then
          c <- get d "priceCurrency" ;;
          Ok (Some (productInfo p c name))
        else Ok None
    end
  else Ok None.

(** The loop over the items of an array: the first truthy result. *)
Definition firstTruthy (rec : value -> outcome value) : list value -> outcome value :=
  fix each (l : list value) : outcome value :=
    match l with
    | [] => Ok Null
    | item :: rest =>
        r <- rec item ;;
        if truthy r then Ok r else each rest
    end.

(** The [for ... in] loop over the properties of an object: the first
    truthy result among the values that are objects or arrays. *)
Definition searchNested (rec : value -> outcome value)
  : list (string * value) -> outcome value :=
  fix each (l : list (string * value)) : outcome value :=
    match l with
    | [] => Ok Null
    | (_, v) :: rest =>
        if isObjectLike v then
          r <- rec v ;;
          if truthy r then Ok r else each rest
        else each rest
    end.

(** [if (jsonData['@graph']) return rec(jsonData['@graph'])], and
    [nested] otherwise. *)
Definition searchGraph (rec : value -> outcome value) (nested : outcome value)
  : list (string * value) -> outcome value :=
  fix graph (l : list (string * value)) : outcome value :=
    match l with
    | [] => nested
    | (k, v) :: rest =>
        if String.eqb "@graph" k then
          if truthy v then rec v else nested
        else graph rest
    end.

(** The result is [Null] or an object with the properties [price],
    [currency] and [name]. *)
Fixpoint findProductInJsonLd (d : value) : outcome value :=
  match d with
  | Arr items => firstTruthy findProductInJsonLd items
  | Obj kvs =>
      found <- productBranch d ;;
      match found with
      | Some r => Ok r
      | None =>
          searchGraph findProductInJsonLd
            (searchNested findProductInJsonLd kvs) kvs
      end
  | _ => Ok Null
  end.

(** *** Price: structured data, meta tags, selector fallback *)

(** One pass of the callback over a JSON-LD script: the price and currency
    it sets, [None] when it leaves them alone. *)
Definition jsonLdStep (script : outcome value) : outcome (option (number * value)) :=
  jsonData <- script ;;
  product <- findProductInJsonLd jsonData ;;
  if truthy product then
    p <- get product "price" ;;
    if truthy p then
      c <- get product "currency" ;;
      Ok (Some (parseFloatOf p, c))
    else Ok None
  else Ok None.

(** The [each] loop over the scripts; a throw inside the callback is caught
    and the loop goes on. *)
Fixpoint jsonLdPrice (scripts : list (outcome value)) : option (number * value) :=
  match scripts with
  | [] => None
  | script :: rest =>
      match jsonLdStep script with
      | Ok (Some r) => Some r
      | Ok None | Throw => jsonLdPrice rest
      end
  end.

Definition metaProperty (d : document) (p : string) : option string :=
  attr d ("meta" ++ attrSel "property" p)%string "content".

Definition metaName (d : document) (n : string) : option string :=
  attr d ("meta" ++ attrSel "name" n)%string "content".

Definition ogPriceAmount (d : document) : option string :=
  orStr (metaProperty d "og:price:amount")
  (orStr (metaProperty d "product:price:amount")
  (orStr (metaName d "price")
  (orStr (metaProperty d "product:price")
         (metaName d "twitter:data1")))).

Definition ogPriceCurrency (d : document) : option string :=
  orStr (metaProperty d "og:price:currency")
  (orStr (metaProperty d "product:price:currency")
  (orStr (metaName d "currency")
         (metaProperty d "product:currency"))).

Definition isComma (c : ascii) : bool := isChar "," c.

Definition stripCommas (s : string) : string :=
  filterStr (fun c => negb (isComma c)) s.

(** The meta-tag strategy: the price and, when one is given, the currency. *)
Definition metaPrice (d : document) : option (number * option string) :=
  match orStr (ogPriceAmount d) None with
  | Some amount =>
      let numericPrice := parseFloat (stripCommas amount) in
      if negb (isNaN numericPrice) && gt numericPrice (ofZ 0) then
        Some (numericPrice, orStr (ogPriceCurrency d) None)
      else None
  | None => None
  end.

Definition digitOrComma (c : ascii) : bool := isDigit c || isComma c.
Definition isDot (c : ascii) : bool := isChar "." c.
Definition isDollar (c : ascii) : bool := isChar "$" c.

(** A letter of a pattern with the [i] flag. *)
Definition letter (u l : ascii) (c : ascii) : bool := isChar u c || isChar l c.

Definition numberPart : Regex.regex :=
  [(digitOrComma, Regex.Plus); (isDot, Regex.Opt); (isDigit, Regex.Star)].

(** The four patterns, in the order of the source:
    [/\$[\d,]+\.?\d*/g], [/[\d,]+\.?\d*\s*\$/g],
    [/AUD?\s*[\d,]+\.?\d*/gi] and [/[\d,]+\.?\d*/g]. *)
Definition pricePatterns : list Regex.regex :=
  [ (isDollar, Regex.One) :: numberPart;
    numberPart ++ [(isSpace, Regex.Star); (isDollar, Regex.One)];
    [(letter "A" "a", Regex.One); (letter "U" "u", Regex.One);
     (letter "D" "d", Regex.Opt); (isSpace, Regex.Star)] ++ numberPart;
    numberPart ].

(** [match.replace(/[^\d.,]/g, '')] *)
Definition keepNumeric (m : string) : string :=
  filterStr (fun c => isDigit c || isDot c || isComma c) m.

Definition candidate (m : string) : number :=
  parseFloat (stripCommas (keepNumeric m)).

Definition inBounds (n : number) : bool :=
  negb (isNaN n) && gt n (ofZ 0) && lt n (ofZ 1000000).

Fixpoint scanMatches (ms : list string) : option number :=
  match ms with
  | [] => None
  | m :: rest =>
      let numericPrice := candidate m in
      if inBounds numericPrice then Some numericPrice else scanMatches rest
  end.

Fixpoint scanPatterns (ps : list Regex.regex) (t : string) : option number :=
  match ps with
  | [] => None
  | pattern :: rest =>
      match scanMatches (Regex.matchAll pattern t) with
      | Some n => Some n
      | None => scanPatterns rest t
      end
  end.

(** The [each] loop over the elements the price selector matches. *)
Fixpoint selectorPrice (els : list element) : option number :=
  match els with
  | [] => None
  | e :: rest =>
      match scanPatterns pricePatterns (trim (text e)) with
      | Some n => Some n
      | None => selectorPrice rest
      end
  end.

(** *** Availability *)

Definition offerList (offers : value) : list value :=
  match offers with
  | Arr l => l
  | o => [o]
  end.

(** The loop over the offers: the first offer whose availability names a
    stock state decides.  [toLowerCase] exists on strings only. *)
Fixpoint offerAvailability (offers : list value) : outcome (option bool) :=
  match offers with
  | [] => Ok None
  | offer :: rest =>
      a <- get offer "availability" ;;
      if truthy a then
        match a with
        | Str s =>
            let availability := toLowerCase s in
            if includes availability "instock" || includes availability "in_stock"
            then Ok (Some true)
            else if includes availability "outofstock"
                    || includes availability "out_of_stock"
            then Ok (Some false)
            else offerAvailability rest
        | _ => Throw
        end
      else offerAvailability rest
  end.

(** One pass of the availability callback of [scrapeWithCheerio]: it reads
    [offers] from what [findProductInJsonLd] returned. *)
Definition availabilityStep (script : outcome value) : outcome (option bool) :=
  jsonData <- script ;;
  product <- findProductInJsonLd jsonData ;;
  if truthy product then
    offers <- get product "offers" ;;
    if truthy offers then offerAvailability (offerList offers) else Ok None
  else Ok None.

Fixpoint availabilityFromJsonLD (step : outcome value -> outcome (option bool))
  (scripts : list (outcome value)) : option bool :=
  match scripts with
  | [] => None
  | script :: rest =>
      match step script with
      | Ok (Some b) => Some b
      | Ok None | Throw => availabilityFromJsonLD step rest
      end
  end.

Definition addToCartSelector : string :=
  ("button" ++ attrSel "type" "submit" ++ ", .add-to-cart, .buy-now, "
   ++ attrHas "class" "add-cart")%string.

Definition hasActiveAddToCart (d : document) : bool :=
  existsb
    (fun button =>
       let buttonText := toLowerCase (text button) in
       (includes buttonText "add to cart" || includes buttonText "buy now")
       && negb (disabled button))
    (select d addToCartSelector).

Definition productAreaSelectors : list string :=
  [".product-info"; ".product-details"; ".product-main"; ".product-form";
   ".availability"; ".stock-status"; attrHas "class" "stock";
   attrHas "class" "available"]%string.

Definition productAreaText (d : document) : string :=
  toLowerCase
    (fold_left
       (fun acc sel =>
          fold_left (fun acc' e => (acc' ++ " " ++ text e)%string) (select d sel) acc)
       productAreaSelectors EmptyString).

Definition unavailableIndicators : list string :=
  ["out of stock"; "sold out"; "currently unavailable";
   "temporarily unavailable"]%string.

(** The part of the classifier after the structured data. *)
Definition availabilityFromPage (d : document) : bool :=
  if hasActiveAddToCart d then true
  else negb (existsb (fun indicator => includes (productAreaText d) indicator)
                     unavailableIndicators).

(** The classifier of the static path ([scrapeWithCheerio]). *)
Definition classify (d : document) : bool :=
  match availabilityFromJsonLD availabilityStep (jsonLd d) with
  | Some b => b
  | None => availabilityFromPage d
  end.

(** [findProductInBrowser], the search the rendered path declares inside the
    page: it returns the Product object itself. *)
Fixpoint findProductInBrowser (d : value) : outcome value :=
  match d with
  | Arr items => firstTruthy findProductInBrowser items
  | Obj kvs =>
      if isProductType (lookup "@type" kvs) then Ok d
      else
        searchGraph findProductInBrowser
          (searchNested findProductInBrowser kvs) kvs
  | _ => Ok Null
  end.

Definition availabilityStepRendered (script : outcome value) : outcome (option bool) :=
  jsonData <- script ;;
  product <- findProductInBrowser jsonData ;;
  if truthy product then
    offers <- get product "offers" ;;
    if truthy offers then offerAvailability (offerList offers) else Ok None
  else Ok None.

(** The classifier of the rendered path ([scrapeWithPuppeteer]). *)
Definition classifyRendered (d : document) : bool :=
  match availabilityFromJsonLD availabilityStepRendered (jsonLd d) with
  | Some b => b
  | None => availabilityFromPage d
  end.

(** *** Selectors and [scrapeWithCheerio] *)

Definition domainSelectors : list (string * string) :=
  [("amazon.com.au", ".a-price .a-offscreen, .a-price-whole");
   ("amazon.com", ".a-price .a-offscreen, .a-price-whole");
   ("ebay.com.au", ".u-flL.condensedfont, .price .notranslate");
   ("ebay.com", ".u-flL.condensedfont, .price .notranslate");
   ("jbhifi.com.au", ".price, .current-price");
   ("harveynorman.com.au", ".price, .product-price");
   ("woolworths.com.au", ".price, .shelfProductTile-price");
   ("coles.com.au", ".price, .product-price")]%string.

Definition genericSelector : string :=
  String.concat ", "
    [(".price, " ++ attrHas "class" "price" ++ ", " ++ attrHas "id" "price");
     (".cost, " ++ attrHas "class" "cost" ++ ", " ++ attrHas "id" "cost");
     (".amount, " ++ attrHas "class" "amount" ++ ", " ++ attrHas "id" "amount");
     (attrHas "class" "dollar" ++ ", " ++ attrHas "class" "currency");
     ".sale-price, .current-price, .product-price";
     ".value, [data-price], [data-cost]"]%string.

Definition getDefaultSelector (domain : string) : string :=
  match orStr (assoc domain domainSelectors) None with
  | Some sel => sel
  | None => genericSelector
  end.

(** The price and currency of [scrapeWithCheerio]: each strategy runs only
    while [price] is still [null]; [$(selector)] is evaluated by the third
    strategy only, and throws on a selector the engine does not take. *)
Definition extractPrice (d : document) (selector : string)
  : outcome (option number * value) :=
  let '(price0, currency0) :=
    match jsonLdPrice (jsonLd d) with
    | Some (n, c) => (Some n, if truthy c then c else Str "AUD")
    | None => (None, Str "AUD")
    end in
  let '(price1, currency1) :=
    match price0 with
    | None =>
        match metaPrice d with
        | Some (n, Some c) => (Some n, Str c)
        | Some (n, None) => (Some n, currency0)
        | None => (None, currency0)
        end
    | Some _ => (price0, currency0)
    end in
  match price1 with
  | None =>
      if parses d selector then Ok (selectorPrice (select d selector), currency1)
      else Throw
  | Some _ => Ok (price1, currency1)
  end.

(** [response] is the page [axios.get] fetched, or its failure;
    [storeSelector] is what [URLParser.getDefaultSelector] found for the
    domain in the stores table. *)
Definition scrapeWithCheerio (response : outcome document)
  (customSelector storeSelector : option string) (domain : string)
  : outcome ScrapeResult :=
  d <- response ;;
  match orStr customSelector (orStr storeSelector (Some (getDefaultSelector domain))) with
  | None | Some EmptyString => Throw
  | Some selector =>
      found <- extractPrice d selector ;;
      Ok {| price := fst found; currency := snd found; isAvailable := classify d;
            error := None |}
  end.

(** *** The rendered path

    [scrapeWithPuppeteer] runs the same three strategies inside the page,
    after [document.querySelectorAll(sel)], which throws on a selector the
    page does not take.  Its structured-data loop calls [findProductInJsonLd] by its bare name;
    that is a method of the scraper class, and no binding of the name is in
    scope in the function the page evaluates, so the call throws a
    ReferenceError once the script text is parsed, and the [catch] of the
    loop goes on to the next script. *)

Definition jsonLdStepRendered (script : outcome value)
  : outcome (option (number * value)) :=
  jsonData <- script ;;
  Throw.

Fixpoint jsonLdPriceRendered (scripts : list (outcome value))
  : option (number * value) :=
  match scripts with
  | [] => None
  | script :: rest =>
      match jsonLdStepRendered script with
      | Ok (Some r) => Some r
      | Ok None | Throw => jsonLdPriceRendered rest
      end
  end.

(** The loop over the elements; an element without text is passed over. *)
Fixpoint selectorPriceRendered (els : list element) : option number :=
  match els with
  | [] => None
  | e :: rest =>
      let t := trim (text e) in
      if String.eqb t EmptyString then selectorPriceRendered rest
      else
        match scanPatterns pricePatterns t with
        | Some n => Some n
        | None => selectorPriceRendered rest
        end
  end.

Definition extractPriceRendered (d : document) (selector : string)
  : option number * value :=
  let '(price0, currency0) :=
    match jsonLdPriceRendered (jsonLd d) with
    | Some (n, c) => (Some n, if truthy c then c else Str "AUD")
    | None => (None, Str "AUD")
    end in
  let '(price1, currency1) :=
    match price0 with
    | None =>
        match metaPrice d with
        | Some (n, Some c) => (Some n, Str c)
        | Some (n, None) => (Some n, currency0)
        | None => (None, currency0)
        end
    | Some _ => (price0, currency0)
    end in
  let price2 :=
    match price1 with
    | None => selectorPriceRendered (select d selector)
    | Some _ => price1
    end in
  (price2, currency1).

(** [page] is the document the browser rendered, or the failure to get
    one. *)
Definition scrapeWithPuppeteer (page : outcome document)
  (customSelector storeSelector : option string) (domain : string)
  : outcome ScrapeResult :=
  d <- page ;;
  match orStr customSelector (orStr storeSelector (Some (getDefaultSelector domain))) with
  | None | Some EmptyString => Throw
  | Some selector =>
      if parses d selector then
        let (p, c) := extractPriceRendered d selector in
        Ok {| price := p; currency := c; isAvailable := classifyRendered d;
              error := None |}
      else Throw
  end.

(** *** scrapePrice *)

Record ParsedProduct : Type := {
  cleanUrl : string;
  domain : string;
  store : string
}.

Inductive method : Type := Rendered | Static.

Definition noPrice : ScrapeResult :=
  {| price := None; currency := Str "AUD"; isAvailable := false;
     error := Some "Unable to extract price with any method"%string |}.

(** The loop over the methods: the first result with a price, and the
    methods that were run. *)
Fixpoint tryMethods (methods : list (method * (unit -> outcome ScrapeResult)))
  : option ScrapeResult * list method :=
  match methods with
  | [] => (None, [])
  | (m, run) :: rest =>
      match run tt with
      | Ok result =>
          match price result with
          | Some _ => (Some result, [m])
          | None => let (r, ran) := tryMethods rest in (r, m :: ran)
          end
      | Throw => let (r, ran) := tryMethods rest in (r, m :: ran)
      end
  end.

Section Orchestrator.

Variable parseURL : string -> outcome ParsedProduct.
Variable scrapeWithPuppeteer scrapeStatic :
  string -> option string -> string -> outcome ScrapeResult.

(** The result, and the methods that were run to get it. *)
Definition scrapePrice (url : string) (customSelector : option string)
  : outcome ScrapeResult * list method :=
  match parseURL url with
  | Throw => (Throw, [])
  | Ok parsed =>
      let methods :=
        [(Rendered,
          fun _ : unit => scrapeWithPuppeteer (cleanUrl parsed) customSelector (domain parsed));
         (Static,
          fun _ : unit => scrapeStatic (cleanUrl parsed) customSelector (domain parsed))] in
      match tryMethods methods with
      | (Some result, ran) => (Ok result, ran)
      | (None, ran) => (Ok noPrice, ran)
      end
  end.

End Orchestrator.

End Scraper.

(** ** The tables ([src/db/schema.ts])

    A [decimal(10,2)] column holds what [decimal] makes of the number
    written to it: the number rounded to two places, half away from zero,
    or NaN; an infinity, or a number that rounds to 10^8 or more in size,
    makes the statement fail.  The column is read back as the number
    [parseFloat] reads from it; it is never the empty string, so it is
    truthy exactly when it is not [null].  A [varchar(n)] column takes a
    text of at most [n] characters.  Columns no operation reads
    ([createdAt] of a product, the id of a price history row) are left out;
    [store] is checked when a product is inserted.  Timestamps are
    milliseconds. *)

Module Store.
Import JS.

Definition time : Type := Z.

Inductive kind : Type := price_drop | target_reached | back_in_stock.

Definition kind_eqb (a b : kind) : bool :=
  match a, b with
  | price_drop, price_drop => true
  | target_reached, target_reached => true
  | back_in_stock, back_in_stock => true
  | _, _ => false
  end.

(** The message templates of the scheduler, with their arguments; [Text] is
    a message given as a string. *)
Inductive message : Type :=
| PriceDropMsg (name : string) (currentPrice newPrice : number)
| TargetReachedMsg (name : string) (newPrice targetPrice : number)
| OutOfStockMsg (name : string)
| BackInStockMsg (name : string) (newPrice : number)
| Text (s : string).

Record product : Type := {
  id : nat;
  name : string;
  url : string;
  selector : option string;
  currentPrice : option number;
  targetPrice : option number;
  isActive : bool;
  lastChecked : option time;
  updatedAt : time
}.

Record priceRow : Type := {
  phProductId : nat;
  phPrice : number;
  phCurrency : value;
  scrapedAt : time;
  phIsAvailable : bool
}.

Record notification : Type := {
  nId : nat;
  nProductId : nat;
  nType : kind;
  nMessage : message;
  sent : bool;
  sentAt : option time;
  createdAt : time
}.

(** [nextId] is the sequence behind the serial key of [notifications].
    [sends] is the connection: the text it sends for a parameter that is
    not a string, [None] when the statement fails on it. *)
Record db : Type := {
  products : list product;
  priceHistory : list priceRow;
  notifications : list notification;
  nextId : nat;
  sends : value -> option string
}.

(** [q] in hundredths, rounded half away from zero. *)
Definition cents (q : Q) : Z :=
  let a := (Z.abs (Qnum q) * 100)%Z in
  let m := ((2 * a + Z.pos (Qden q)) / (2 * Z.pos (Qden q)))%Z in
  if (Qnum q <? 0)%Z then (- m)%Z else m.

(** What a [decimal(10,2)] column stores for [n]. *)
Definition decimal (n : number) : option number :=
  match n with
  | NaN => Some NaN
  | PInf | NInf => None
  | Fin q =>
      let c := cents q in
      if (Z.abs c <? 10000000000)%Z then Some (Fin (Qred (c # 100))) else None
  end.

Definition fits (n : nat) (s : string) : option string :=
  if String.length s <=? n then Some s else None.

(** What a [varchar(n)] column stores for [v]. *)
Definition varchar (n : nat) (d : db) (v : value) : option string :=
  match v with
  | Str s => fits n s
  | _ =>
      match sends d v with
      | Some s => fits n s
      | None => None
      end
  end.

(** [ORDER BY key DESC] *)
Fixpoint insertDesc {A : Type} (key : A -> Z) (x : A) (l : list A) : list A :=
  match l with
  | [] => [x]
  | y :: r => if (key y <? key x)%Z then x :: l else y :: insertDesc key x r
  end.

Definition sortDesc {A : Type} (key : A -> Z) (l : list A) : list A :=
  fold_right (insertDesc key) [] l.

Definition appendPriceRow (row : priceRow) (d : db) : db :=
  {| products := products d;
     priceHistory := priceHistory d ++ [row];
     notifications := notifications d;
     nextId := nextId d;
     sends := sends d |}.

(** [db.insert(priceHistory).values({ productId, price, currency,
    isAvailable, scrapedAt })]: the statement fails when the price does not
    fit [decimal(10,2)] or the currency does not fit [varchar(3)]. *)
Definition insertPriceHistory (productId : nat) (price : number) (currency : value)
  (isAvailable : bool) (scrapedAt : time) (d : db) : outcome db :=
  match decimal price, varchar 3 d currency with
  | Some stored, Some text =>
      Ok (appendPriceRow
            {| phProductId := productId; phPrice := stored; phCurrency := Str text;
               scrapedAt := scrapedAt; phIsAvailable := isAvailable |} d)
  | _, _ => Throw
  end.

Definition updateProducts (f : product -> product) (d : db) : db :=
  {| products := map f (products d);
     priceHistory := priceHistory d;
     notifications := notifications d;
     nextId := nextId d;
     sends := sends d |}.

Definition insertNotification (now : time) (productId : nat) (type : kind)
  (msg : message) (d : db) : db :=
  {| products := products d;
     priceHistory := priceHistory d;
     notifications :=
       notifications d ++
       [{| nId := nextId d; nProductId := productId; nType := type;
           nMessage := msg; sent := false; sentAt := None; createdAt := now |}];
     nextId := S (nextId d);
     sends := sends d |}.

Definition updateNotifications (f : notification -> notification) (d : db) : db :=
  {| products := products d;
     priceHistory := priceHistory d;
     notifications := map f (notifications d);
     nextId := nextId d;
     sends := sends d |}.

(** [.set({ sent: true, sentAt: new Date() })] on the rows [where] selects. *)
Definition delivered (now : time) (n : notification) : notification :=
  {| nId := nId n; nProductId := nProductId n; nType := nType n;
     nMessage := nMessage n; sent := true; sentAt := Some now;
     createdAt := createdAt n |}.

Definition markSent (now : time) (where_ : notification -> bool) (d : db) : db :=
  updateNotifications (fun n => if where_ n then delivered now n else n) d.

End Store.

(** ** The scheduler ([src/services/scheduler.ts]) *)

Module Scheduler.
Import JS Store.

Definition createNotification (now : time) (productId : nat) (type : kind)
  (msg : message) (d : db) : db :=
  insertNotification now productId type msg d.

Definition isTargetReachedOf (productId : nat) (n : notification) : bool :=
  (nProductId n =? productId) && kind_eqb (nType n) target_reached.

(** The two queries of [checkTargetPriceNotification]. *)
Definition recentNotifications (p : product) (d : db) : list notification :=
  firstn 5 (sortDesc createdAt
              (filter (isTargetReachedOf (id p)) (notifications d))).

Definition recentPriceHistory (p : product) (mostRecent : notification) (d : db)
  : list priceRow :=
  firstn 10
    (sortDesc scrapedAt
       (filter
          (fun h => (phProductId h =? id p)
                    && (createdAt mostRecent <? scrapedAt h)%Z)
          (priceHistory d))).

(** [!currentPriceFloat || currentPriceFloat > targetPrice] *)
Definition isCrossingThreshold (currentPrice : option number) (targetPrice : number)
  : bool :=
  match currentPrice with
  | None => true
  | Some currentPriceFloat =>
      negb (truthyNum currentPriceFloat) || gt currentPriceFloat targetPrice
  end.

Definition wasAboveTargetSinceNotification (targetPrice : number)
  (recent : list priceRow) : bool :=
  existsb (fun h => gt (phPrice h) targetPrice) recent.

Definition checkTargetPriceNotification (now : time) (p : product)
  (currentPrice : option number) (newPrice : number) (d : db) : db :=
  match targetPrice p with
  | None => d
  | Some targetPrice =>
      if gt newPrice targetPrice then d
      else if negb (isCrossingThreshold currentPrice targetPrice) then d
      else
        let send :=
          createNotification now (id p) target_reached
            (TargetReachedMsg (name p) newPrice targetPrice) d in
        match recentNotifications p d with
        | mostRecent :: _ =>
            if negb (wasAboveTargetSinceNotification targetPrice
                       (recentPriceHistory p mostRecent d))
            then d else send
        | [] => send
        end
  end.

(** The update of the product's current price and last-checked time; the
    column stores the price as [decimal(10,2)]. *)
Definition updateCurrentPrice (now : time) (p : product) (newPrice : number) (d : db)
  : outcome db :=
  match decimal newPrice with
  | Some stored =>
      Ok (updateProducts
            (fun q =>
               if id q =? id p then
                 {| id := id q; name := name q; url := url q;
                    selector := selector q; currentPrice := Some stored;
                    targetPrice := targetPrice q; isActive := isActive q;
                    lastChecked := Some now; updatedAt := now |}
               else q) d)
  | None => Throw
  end.

(** The price drop notification; [newPrice] is the scraped price as it
    is, [current] the price the row holds. *)
Definition priceDropStep (now : time) (p : product) (newPrice : number) (d : db) : db :=
  match currentPrice p with
  | Some current =>
      if lt newPrice current then
        createNotification now (id p) price_drop
          (PriceDropMsg (name p) current newPrice) d
      else d
  | None => d
  end.

(** The stock notifications: both have the type [back_in_stock]. *)
Definition stockStep (now : time) (p : product) (r : Scraper.ScrapeResult)
  (newPrice : number) (d : db) : db :=
  match Scraper.isAvailable r, currentPrice p with
  | false, Some _ =>
      createNotification now (id p) back_in_stock (OutOfStockMsg (name p)) d
  | true, None =>
      createNotification now (id p) back_in_stock
        (BackInStockMsg (name p) newPrice) d
  | _, _ => d
  end.

(** [scrape] is the outcome of [PriceScraper.scrapePrice] on the product's
    URL and selector; [p] is the row the caller selected.  Any exception is
    caught and logged: a statement that fails ends the check with what was
    written before it.  This is the check run on its own, as
    [checkSingleProduct] runs it. *)
Definition checkProductPrice (now : time) (p : product)
  (scrape : outcome Scraper.ScrapeResult) (d : db) : db :=
  match scrape with
  | Throw => d
  | Ok scrapeResult =>
      match Scraper.price scrapeResult with
      | None => d
      | Some newPrice =>
          match insertPriceHistory (id p) newPrice (Scraper.currency scrapeResult)
                  (Scraper.isAvailable scrapeResult) now d with
          | Throw => d
          | Ok d1 =>
              match updateCurrentPrice now p newPrice d1 with
              | Throw => d1
              | Ok d2 =>
                  let d3 := priceDropStep now p newPrice d2 in
                  let d4 :=
                    checkTargetPriceNotification now p (currentPrice p) newPrice d3 in
                  stockStep now p scrapeResult newPrice d4
              end
          end
      end
  end.

(** *** Checks that run together

    [checkAllProductPrices] starts the checks of all active products at
    once and waits for all of them: between two statements of one check the
    other checks may run theirs.  A check is therefore also given as the
    statements it sends, one [Stmt] each: what the statement writes, and
    how the check goes on from the state the statement saw. *)

Inductive prog : Type :=
| Halt
| Stmt (write : db -> db) (next : db -> prog).

(** The program run on its own. *)
Fixpoint exec (pr : prog) (d : db) : db :=
  match pr with
  | Halt => d
  | Stmt write next => exec (next d) (write d)
  end.

(** A statement that may fail, inside the [try] of the check. *)
Definition attempt (f : db -> outcome db) (k : prog) : prog :=
  Stmt (fun d => match f d with Ok d' => d' | Throw => d end)
       (fun d => match f d with Ok _ => k | Throw => Halt end).

Definition write (f : db -> db) (k : prog) : prog := Stmt f (fun _ => k).

Definition read (k : db -> prog) : prog := Stmt (fun d => d) k.

Definition priceDropProgram (now : time) (p : product) (newPrice : number) (k : prog)
  : prog :=
  match currentPrice p with
  | Some current =>
      if lt newPrice current then
        write (createNotification now (id p) price_drop
                 (PriceDropMsg (name p) current newPrice)) k
      else k
  | None => k
  end.

Definition targetProgram (now : time) (p : product) (currentPrice : option number)
  (newPrice : number) (k : prog) : prog :=
  match targetPrice p with
  | None => k
  | Some targetPrice =>
      if gt newPrice targetPrice then k
      else if negb (isCrossingThreshold currentPrice targetPrice) then k
      else
        let send :=
          write (createNotification now (id p) target_reached
                   (TargetReachedMsg (name p) newPrice targetPrice)) k in
        read (fun d =>
          match recentNotifications p d with
          | mostRecent :: _ =>
              read (fun d' =>
                if negb (wasAboveTargetSinceNotification targetPrice
                           (recentPriceHistory p mostRecent d'))
                then k else send)
          | [] => send
          end)
  end.

Definition stockProgram (now : time) (p : product) (r : Scraper.ScrapeResult)
  (newPrice : number) : prog :=
  match Scraper.isAvailable r, currentPrice p with
  | false, Some _ =>
      write (createNotification now (id p) back_in_stock (OutOfStockMsg (name p))) Halt
  | true, None =>
      write (createNotification now (id p) back_in_stock
               (BackInStockMsg (name p) newPrice)) Halt
  | _, _ => Halt
  end.

(** [checkProductPrice], statement by statement. *)
Definition checkProgram (now : time) (p : product)
  (scrape : outcome Scraper.ScrapeResult) : prog :=
  match scrape with
  | Throw => Halt
  | Ok scrapeResult =>
      match Scraper.price scrapeResult with
      | None => Halt
      | Some newPrice =>
          attempt (insertPriceHistory (id p) newPrice (Scraper.currency scrapeResult)
                     (Scraper.isAvailable scrapeResult) now)
            (attempt (updateCurrentPrice now p newPrice)
               (priceDropProgram now p newPrice
                  (targetProgram now p (currentPrice p) newPrice
                     (stockProgram now p scrapeResult newPrice))))
      end
  end.

(** The [i]-th of the running checks sends its next statement. *)
Fixpoint advance (i : nat) (tasks : list prog) (d : db) : list prog * db :=
  match tasks with
  | [] => ([], d)
  | t :: rest =>
      match i with
      | 0 =>
          match t with
          | Halt => (tasks, d)
          | Stmt write next => (next d :: rest, write d)
          end
      | S j => let (rest', d') := advance j rest d in (t :: rest', d')
      end
  end.

(** The statements arrive in the order [schedule] gives, by the number of
    the check that sends one; what is left after it runs check by check, so
    that every check has ended when the tick ends. *)
Definition interleave (schedule : list nat) (tasks : list prog) (d : db)
  : list prog * db :=
  fold_left (fun st i => advance i (fst st) (snd st)) schedule (tasks, d).

Definition settle (tasks : list prog) (d : db) : db :=
  fold_left (fun acc t => exec t acc) tasks d.

(** Each check works on the row the tick selected at its start. *)
Definition checkAllProductPrices (now : time)
  (scrape : product -> outcome Scraper.ScrapeResult) (schedule : list nat) (d : db)
  : db :=
  let activeProducts := filter isActive (products d) in
  let running :=
    interleave schedule
      (map (fun p => checkProgram now p (scrape p)) activeProducts) d in
  settle (fst running) (snd running).

Definition checkSingleProduct (now : time)
  (scrape : product -> outcome Scraper.ScrapeResult) (productId : nat) (d : db)
  : outcome db :=
  match filter (fun p => id p =? productId) (products d) with
  | p :: _ => Ok (checkProductPrice now p (scrape p) d)
  | [] => Throw
  end.

(** [ninetyDaysAgo] is the date [setDate(getDate() - 90)] makes of
    [new Date()]. *)
Definition cleanupOldPriceHistory (ninetyDaysAgo : time) (d : db) : db :=
  {| products := products d;
     priceHistory :=
       filter (fun h => negb (scrapedAt h <? ninetyDaysAgo)%Z) (priceHistory d);
     notifications := notifications d;
     nextId := nextId d;
     sends := sends d |}.

End Scheduler.

(** ** The notification service ([src/services/notifications.ts]) *)

Module Notifications.
Import JS Store.

Definition getNotificationPriority (type : kind) : Z :=
  match type with
  | target_reached => 1
  | price_drop => 0
  | back_in_stock => 0
  end.

(** The titles, without their leading emoji. *)
Definition getNotificationTitle (type : kind) : string :=
  match type with
  | price_drop => "Price Drop Alert"
  | target_reached => "Target Price Reached"
  | back_in_stock => "Stock Alert"
  end.

(** One call of [sendNotification]: the message, the title and the
    priority. *)
Definition attempt : Type := (message * string * Z)%type.

(** [sendNotification]: whether the push service took the message, or an
    exception. *)
Definition notifier : Type := message -> string -> Z -> outcome bool.

Definition attemptOf (msg : message) (type : kind) : attempt :=
  (msg, getNotificationTitle type, getNotificationPriority type).

Definition batchSize : nat := 10.

(** The query has no [ORDER BY]: [scan] is the table in the order the
    database returns its rows. *)
Definition pendingBatch (scan : list notification) : list notification :=
  firstn batchSize (filter (fun n => negb (sent n)) scan).

(** The loop over the batch: the row is marked in the [try] block after the
    send and in the [catch] block when the send threw. *)
Fixpoint processPending (now : time) (send : notifier) (batch : list notification)
  (d : db) : db * list attempt :=
  match batch with
  | [] => (d, [])
  | n :: rest =>
      let d' :=
        match send (nMessage n) (getNotificationTitle (nType n))
                   (getNotificationPriority (nType n)) with
        | Ok _ => markSent now (fun m => nId m =? nId n) d
        | Throw => markSent now (fun m => nId m =? nId n) d
        end in
      let (d'', log) := processPending now send rest d' in
      (d'', attemptOf (nMessage n) (nType n) :: log)
  end.

Definition sendPendingNotifications (now : time) (send : notifier)
  (scan : list notification) (d : db) : db * list attempt :=
  match pendingBatch scan with
  | [] => (d, [])
  | batch => processPending now send batch d
  end.

(** The state it leaves, whether it returned ([Ok]) or rethrew, and the
    sends it made. *)
Definition createAndSendNotification (now : time) (send : notifier)
  (productId : nat) (type : kind) (msg : message) (immediate : bool) (d : db)
  : db * outcome unit * list attempt :=
  let d1 := insertNotification now productId type msg d in
  if immediate then
    match send msg (getNotificationTitle type) (getNotificationPriority type) with
    | Ok _ =>
        (markSent now (fun n => nProductId n =? productId) d1, Ok tt,
         [attemptOf msg type])
    | Throw => (d1, Throw, [attemptOf msg type])
    end
  else (d1, Ok tt, []).

(** Housekeeping behind [POST /api/notifications/cleanup]. *)
Definition cleanupOldNotifications (d : db) : db :=
  {| products := products d;
     priceHistory := priceHistory d;
     notifications := filter (fun n => negb (sent n)) (notifications d);
     nextId := nextId d;
     sends := sends d |}.

End Notifications.

(** ** Vocabulary of the statements *)

Module Spec.
Import JS Store.

(** The result of an attempt when it has a price. *)
Definition priced (o : outcome Scraper.ScrapeResult) : option Scraper.ScrapeResult :=
  match o with
  | Ok r => match Scraper.price r with Some _ => Some r | None => None end
  | Throw => None
  end.

(** The rows a step added to the notifications table. *)
Definition added (d d' : db) : list notification :=
  skipn (length (notifications d)) (notifications d').

(** A step from [d] to [d'] emitted an event of kind [k] for product [i]. *)
Definition emits (k : kind) (i : nat) (d d' : db) : bool :=
  existsb (fun n => (nProductId n =? i) && kind_eqb (nType n) k) (added d d').

(** [n'] is [n] with at most its delivered flag raised and its delivery
    time set. *)
Definition flipOnly (n n' : notification) : Prop :=
  nId n' = nId n /\ nProductId n' = nProductId n /\ nType n' = nType n /\
  nMessage n' = nMessage n /\ createdAt n' = createdAt n /\
  (sent n = true -> sent n' = true).

(** Every event of [d] is still in [d'], in place, changed by [flipOnly] at
    most. *)
Definition kept (d d' : db) : Prop :=
  exists old new,
    notifications d' = (old ++ new)%list /\ Forall2 flipOnly (notifications d) old.

(** The operations the scheduler and the notification service run. *)
Inductive coreOp : Type :=
| CheckProduct (now : time) (p : product) (scrape : outcome Scraper.ScrapeResult)
| CheckAll (now : time) (scrape : product -> outcome Scraper.ScrapeResult)
    (schedule : list nat)
| CheckSingle (now : time) (scrape : product -> outcome Scraper.ScrapeResult)
    (productId : nat)
| Retention (ninetyDaysAgo : time)
| Dispatch (now : time) (send : Notifications.notifier) (scan : list notification)
| CreateAndSend (now : time) (send : Notifications.notifier) (productId : nat)
    (type : kind) (msg : message) (immediate : bool).

Definition runOp (op : coreOp) (d : db) : db :=
  match op with
  | CheckProduct now p scrape => Scheduler.checkProductPrice now p scrape d
  | CheckAll now scrape schedule =>
      Scheduler.checkAllProductPrices now scrape schedule d
  | CheckSingle now scrape productId =>
      match Scheduler.checkSingleProduct now scrape productId d with
      | Ok d' => d'
      | Throw => d
      end
  | Retention ninetyDaysAgo => Scheduler.cleanupOldPriceHistory ninetyDaysAgo d
  | Dispatch now send scan =>
      fst (Notifications.sendPendingNotifications now send scan d)
  | CreateAndSend now send productId type msg immediate =>
      fst (fst (Notifications.createAndSendNotification now send productId type
                  msg immediate d))
  end.

Definition runOps (ops : list coreOp) (d : db) : db :=
  fold_left (fun acc op => runOp op acc) ops d.

End Spec.

(** ** Sample data *)

Import JS Store Spec.

Definition sampleProduct : product :=
  {| id := 1; name := "Kettle"; url := "https://shop.example/p/1";
     selector := None; currentPrice := Some (ofZ 150);
     targetPrice := Some (ofZ 100); isActive := true;
     lastChecked := Some 1000%Z; updatedAt := 1000%Z |}.

(** A connection that fails on every parameter that is not a string. *)
Definition stringsOnly (_ : value) : option string := None.

Definition sampleDb : db :=
  {| products := [sampleProduct];
     priceHistory :=
       [{| phProductId := 1; phPrice := ofZ 150; phCurrency := Str "AUD";
           scrapedAt := 1000%Z; phIsAvailable := true |}];
     notifications := [];
     nextId := 1;
     sends := stringsOnly |}.

(** A parser that accepts every URL as it is, a renderer that times out and
    a static fetch that finds a price. *)
Definition sampleParseURL (u : string) : outcome Scraper.ParsedProduct :=
  Ok {| Scraper.cleanUrl := u; Scraper.domain := "shop.example";
        Scraper.store := "shop.example (Generic)" |}.

Definition sampleRendered (_ : string) (_ : option string) (_ : string)
  : outcome Scraper.ScrapeResult := Throw.

Definition sampleStaticResult : Scraper.ScrapeResult :=
  {| Scraper.price := Some (ofZ 90); Scraper.currency := Str "AUD";
     Scraper.isAvailable := true; Scraper.error := None |}.

Definition sampleStatic (_ : string) (_ : option string) (_ : string)
  : outcome Scraper.ScrapeResult := Ok sampleStaticResult.

(** A push service that takes nothing, and one that fails with an
    exception. *)
Definition sampleSendFails : Notifications.notifier := fun _ _ _ => Ok false.
Definition sampleSendThrows : Notifications.notifier := fun _ _ _ => Throw.

Definition sampleEvent (i : nat) (k : kind) (isSent : bool) (t : time) : notification :=
  {| nId := i; nProductId := 1; nType := k; nMessage := OutOfStockMsg "Kettle";
     sent := isSent; sentAt := if isSent then Some t else None; createdAt := t |}.

(** Two undelivered events of product 1 and one of product 2. *)
Definition sampleBacklog : db :=
  {| products := [sampleProduct];
     priceHistory := [];
     notifications :=
       [sampleEvent 1 price_drop false 10%Z;
        {| nId := 2; nProductId := 2; nType := price_drop;
           nMessage := Text "other product"; sent := false; sentAt := None;
           createdAt := 20%Z |};
        sampleEvent 3 back_in_stock false 30%Z];
     nextId := 4;
     sends := stringsOnly |}.

(** The row [m] has the id of a row of the batch. *)
Definition inBatch (batch : list notification) (m : notification) : bool :=
  existsb (fun n => nId m =? nId n) batch.

(** Scrape results of a page that lists a price of 150. *)
Definition listed (available : bool) : Scraper.ScrapeResult :=
  {| Scraper.price := Some (ofZ 150); Scraper.currency := Str "AUD";
     Scraper.isAvailable := available; Scraper.error := None |}.

(** One price-check tick in which every page gives the result [r], its
    checks running one after the other. *)
Definition tickWith (now : time) (r : Scraper.ScrapeResult) (d : db) : db :=
  Scheduler.checkAllProductPrices now (fun _ => Ok r) [] d.

(** A product page whose structured data says the product is out of stock:
    a JSON-LD Product with one offer, price 49.95, availability
    https://schema.org/OutOfStock.  The page has no add-to-cart button and
    no product-area container; its footer says "back in stock soon". *)
Definition outOfStockProduct : value :=
  Obj [("@context", Str "https://schema.org");
       ("@type", Str "Product");
       ("name", Str "Kettle");
       ("offers",
        Obj [("@type", Str "Offer");
             ("price", Str "49.95");
             ("priceCurrency", Str "AUD");
             ("availability", Str "https://schema.org/OutOfStock")])]%string.

Definition outOfStockPage : Scraper.document :=
  {| Scraper.select :=
       fun sel =>
         if String.eqb sel "footer" then
           [{| Scraper.text := "Sold here since 1999 - back in stock soon";
               Scraper.attrs := []; Scraper.disabled := false |}]
         else [];
     Scraper.parses := fun _ => true;
     Scraper.jsonLd := [Ok outOfStockProduct] |}.

(** What [findProductInJsonLd] returns: [null], or the summary object with
    the properties [price], [currency] and [name]. *)
Definition isSummary (r : value) : Prop :=
  r = Null \/ exists p c n, r = Scraper.productInfo p c n.

(** The candidates of the selector fallback in the order the specification
    gives: element by element, for each element pattern by pattern
    ($-prefixed, $-suffixed, currency-code-prefixed, bare number), for each
    pattern the matches from left to right; each match read as a number
    after its separators are stripped. *)
Definition candidatesOf (t : string) : list number :=
  flat_map (fun pattern => map Scraper.candidate (Regex.matchAll pattern t))
           Scraper.pricePatterns.

Definition candidatesInOrder (els : list Scraper.element) : list number :=
  flat_map (fun e => candidatesOf (trim (Scraper.text e))) els.

Definition el (t : string) : Scraper.element :=
  {| Scraper.text := t; Scraper.attrs := []; Scraper.disabled := false |}.
(** *** Products and offers in structured data *)

(** [offer.price || offer.lowPrice] of an offer object. *)
Definition offerPrice (offer : value) : value :=
  match offer with
  | Obj kvs => orElse (lookup "price" kvs) (lookup "lowPrice" kvs)
  | _ => Undef
  end.

(** The offer's [priceCurrency], and the default when it has none. *)
Definition offerCurrency (offer : value) : value :=
  match offer with
  | Obj kvs => orElse (lookup "priceCurrency" kvs) (Str "AUD")
  | _ => Str "AUD"
  end.

(** The offer carries a price or a lowPrice. *)
Definition carriesPrice (offer : value) : bool := truthy (offerPrice offer).

Definition typedProduct (p : value) : bool :=
  match p with
  | Obj kvs => Scraper.isProductType (lookup "@type" kvs)
  | _ => false
  end.

(** [p] is typed Product and [offer] is one of its offers, carrying a
    price. *)
Inductive Offers : value -> value -> Prop :=
| Offers_single (kvs : list (string * value)) (offer : value) :
    typedProduct (Obj kvs) = true ->
    lookup "offers" kvs = offer ->
    carriesPrice offer = true ->
    Offers (Obj kvs) offer
| Offers_listed (kvs : list (string * value)) (l : list value) (offer : value) :
    typedProduct (Obj kvs) = true ->
    lookup "offers" kvs = Arr l ->
    In offer l ->
    carriesPrice offer = true ->
    Offers (Obj kvs) offer.

(** The block [j] contains [p] directly, inside an array, or nested under a
    graph container. *)
Inductive Contains : value -> value -> Prop :=
| Contains_here (p : value) : Contains p p
| Contains_item (l : list value) (x p : value) :
    In x l -> Contains x p -> Contains (Arr l) p
| Contains_graph (kvs : list (string * value)) (p : value) :
    Contains (lookup "@graph" kvs) p -> Contains (Obj kvs) p.

(** The page has a JSON-LD block with a Product that has an offer carrying
    the price [n] in the currency [c]. *)
Definition offersPrice (d : Scraper.document) (n : number) (c : value) : Prop :=
  exists j p offer,
    In (Ok j) (Scraper.jsonLd d) /\ Contains j p /\ Offers p offer /\
    parseFloatOf (offerPrice offer) = n /\ offerCurrency offer = c.

(** The pipeline on a page that both the browser and the static fetch
    get, for a store without a selector of its own. *)
Definition pipeline (page : Scraper.document) (customSelector : option string)
  : outcome Scraper.ScrapeResult * list Scraper.method :=
  Scraper.scrapePrice sampleParseURL
    (fun _ c dom => Scraper.scrapeWithPuppeteer (Ok page) c None dom)
    (fun _ c dom => Scraper.scrapeWithCheerio (Ok page) c None dom)
    "https://shop.example/p/1" customSelector.

Definition metaTag (content : string) : Scraper.element :=
  {| Scraper.text := EmptyString; Scraper.attrs := [("content", content)]%string;
     Scraper.disabled := false |}.

(** A page with one JSON-LD Product whose offers are [null] and an offer of
    10 USD, and with an [og:price:amount] of 20. *)
Definition offerOfTen : value :=
  Obj [("@type", Str "Offer"); ("price", Str "10"); ("priceCurrency", Str "USD")]%string.

Definition productWithNullOffer : value :=
  Obj [("@type", Str "Product"); ("name", Str "Kettle");
       ("offers", Arr [Null; offerOfTen])]%string.

Definition nullOfferPage : Scraper.document :=
  {| Scraper.select :=
       fun sel =>
         if String.eqb sel ("meta" ++ Scraper.attrSel "property" "og:price:amount")
         then [metaTag "20"]
         else [];
     Scraper.parses := fun _ => true;
     Scraper.jsonLd := [Ok productWithNullOffer] |}.

(** A page whose graph holds a web page and a Product with an aggregate
    offer of 1237.50 EUR; its meta tags and its price element say 99. *)
Definition graphOffer : value :=
  Obj [("@type", Str "AggregateOffer"); ("lowPrice", Str "1237.50");
       ("priceCurrency", Str "EUR")]%string.

Definition graphProduct : value :=
  Obj [("@type", Str "Product"); ("name", Str "Kettle"); ("offers", graphOffer)]%string.

Definition graphBlock : value :=
  Obj [("@context", Str "https://schema.org");
       ("@graph", Arr [Obj [("@type", Str "WebPage")]; graphProduct])]%string.

Definition graphPage : Scraper.document :=
  {| Scraper.select :=
       fun sel =>
         if String.eqb sel ("meta" ++ Scraper.attrSel "property" "og:price:amount")
         then [metaTag "99"]
         else if String.eqb sel ".price" then [el "$99.00"]
         else [];
     Scraper.parses := fun _ => true;
     Scraper.jsonLd :=
       [Throw; Ok (Obj [("@type", Str "BreadcrumbList")]%string); Ok graphBlock] |}.

(** A page with nothing but a JSON-LD Product whose offer gives its price
    with a thousands separator: 1,237.00 AUD. *)
Definition separatorOffer : value :=
  Obj [("@type", Str "Offer"); ("price", Str "1,237.00");
       ("priceCurrency", Str "AUD")]%string.

Definition separatorPage : Scraper.document :=
  {| Scraper.select := fun _ => [];
     Scraper.parses := fun _ => true;
     Scraper.jsonLd :=
       [Ok (Obj [("@type", Str "Product"); ("name", Str "Kettle");
                 ("offers", separatorOffer)]%string)] |}.
(** *** Monitors and their history *)

(** A price as the data model has it: a number above 0. *)
Definition positive (n : number) : bool := gt n (ofZ 0).

(** The target_reached events and the price observations of monitor [i]. *)
Definition eventsOf (i : nat) (d : db) : list notification :=
  filter (Scheduler.isTargetReachedOf i) (notifications d).

Definition observationsOf (i : nat) (d : db) : list priceRow :=
  filter (fun h => phProductId h =? i) (priceHistory d).

(** The current prices the rows of monitor [i] hold. *)
Definition currentPricesOf (i : nat) (d : db) : list (option number) :=
  map currentPrice (filter (fun q => id q =? i) (products d)).

(** A monitor with target 100 and nothing recorded yet. *)
Definition newMonitor : product :=
  {| id := 1; name := "Kettle"; url := "https://shop.example/p/1";
     selector := None; currentPrice := None;
     targetPrice := Some (ofZ 100); isActive := true;
     lastChecked := None; updatedAt := 0%Z |}.

Definition newDb : db :=
  {| products := [newMonitor]; priceHistory := []; notifications := [];
     nextId := 1; sends := stringsOnly |}.

(** The same monitor as the create route leaves it after a first scrape
    that found the price 90. *)
Definition createdDb : db :=
  {| products :=
       [{| id := 1; name := "Kettle"; url := "https://shop.example/p/1";
           selector := None; currentPrice := Some (ofZ 90);
           targetPrice := Some (ofZ 100); isActive := true;
           lastChecked := Some 0%Z; updatedAt := 0%Z |}];
     priceHistory :=
       [{| phProductId := 1; phPrice := ofZ 90; phCurrency := Str "AUD";
           scrapedAt := 0%Z; phIsAvailable := true |}];
     notifications := [];
     nextId := 1;
     sends := stringsOnly |}.

Definition observed (n : Z) : Scraper.ScrapeResult :=
  {| Scraper.price := Some (ofZ n); Scraper.currency := Str "AUD";
     Scraper.isAvailable := true; Scraper.error := None |}.

(** One price-check tick every 30 minutes, the k-th at [k * 1800000], each
    observing the next price of the list. *)
Fixpoint observeAll (k : Z) (prices : list Z) (d : db) : db :=
  match prices with
  | [] => d
  | n :: rest =>
      observeAll (k + 1)%Z rest
        (Scheduler.checkAllProductPrices (k * 1800000)%Z
           (fun _ => Ok (observed n)) [] d)
  end.

(** A product page whose JSON-LD offer gives no number as its price but
    the text "Call for price"; the page has no price meta tag and no price
    element. *)
Definition callForPriceProduct : value :=
  Obj [("@type", Str "Product"); ("name", Str "Kettle");
       ("offers",
        Obj [("@type", Str "Offer"); ("price", Str "Call for price");
             ("priceCurrency", Str "AUD")])]%string.

Definition callForPricePage : Scraper.document :=
  {| Scraper.select := fun _ => [];
     Scraper.parses := fun _ => true;
     Scraper.jsonLd := [Ok callForPriceProduct] |}.

(** What the pipeline returns for that page. *)
Definition callForPriceResult : Scraper.ScrapeResult :=
  {| Scraper.price := Some NaN; Scraper.currency := Str "AUD";
     Scraper.isAvailable := true; Scraper.error := None |}.

(** ** Induction on values *)

Section ValueInduction.

Variable P : value -> Prop.
Hypothesis PUndef : P Undef.
Hypothesis PNull : P Null.
Hypothesis PBool : forall b, P (Bool b).
Hypothesis PNum : forall n, P (Num n).
Hypothesis PStr : forall s, P (Str s).
Hypothesis PArr : forall xs, Forall P xs -> P (Arr xs).
Hypothesis PObj : forall kvs, Forall (fun kv => P (snd kv)) kvs -> P (Obj kvs).

Fixpoint value_nested_ind (v : value) : P v :=
  match v with
  | Undef => PUndef
  | Null => PNull
  | Bool b => PBool b
  | Num n => PNum n
  | Str s => PStr s
  | Arr xs =>
      PArr xs
        ((fix all (l : list value) : Forall P l :=
            match l with
            | [] => Forall_nil P
            | x :: r => Forall_cons x (value_nested_ind x) (all r)
            end) xs)
  | Obj kvs =>
      PObj kvs
        ((fix all (l : list (string * value)) : Forall (fun kv => P (snd kv)) l :=
            match l with
            | [] => Forall_nil _
            | kv :: r => Forall_cons kv (value_nested_ind (snd kv)) (all r)
            end) kvs)
  end.

End ValueInduction.


(** ** Further vocabulary: rows, keys and pending events *)

(** The rows of the three tables that belong to product [i]. *)
Definition productRows (i : nat) (d : db) : list product :=
  filter (fun q => id q =? i) (products d).

Definition priceRows (i : nat) (d : db) : list priceRow :=
  filter (fun h => phProductId h =? i) (priceHistory d).

Definition noticeRows (i : nat) (d : db) : list notification :=
  filter (fun e => nProductId e =? i) (notifications d).

(** The serial key of the notifications table does its work: the ids in
    the table are distinct and below the next value of the sequence. *)
Definition wellKeyed (d : db) : Prop :=
  NoDup (map nId (notifications d)) /\
  forall e, In e (notifications d) -> nId e < nextId d.

(** The undelivered events, in table order. *)
Definition pending (d : db) : list notification :=
  filter (fun n => negb (sent n)) (notifications d).

(** What a query without [ORDER BY] may return for the notifications
    table: its rows, in some order. *)
Definition scans (d : db) (scan : list notification) : Prop :=
  Permutation scan (notifications d).

(** Dispatch runs one after the other, nothing else in between; each run
    comes with the time, the notifier and the order in which the database
    returned the rows. *)
Definition dispatchRun : Type :=
  (time * Notifications.notifier * list notification)%type.

Definition dispatch (run : dispatchRun) (d : db) : db :=
  fst (Notifications.sendPendingNotifications (fst (fst run)) (snd (fst run))
         (snd run) d).

Definition dispatchRuns (runs : list dispatchRun) (d : db) : db :=
  fold_left (fun acc run => dispatch run acc) runs d.

(** Each run was given the rows of the table as it was then. *)
Fixpoint scansFit (runs : list dispatchRun) (d : db) : Prop :=
  match runs with
  | [] => True
  | run :: rest => scans d (snd run) /\ scansFit rest (dispatch run d)
  end.

(** The step from [d] to [d'] left the store alone or inserted one
    notification of kind [k] for product [i] at time [now]. *)
Definition atMostOne (k : kind) (now : time) (i : nat) (d d' : db) : Prop :=
  d' = d \/ exists msg, d' = insertNotification now i k msg d.

(** What a user sets on a product, as opposed to what monitoring records
    on it. *)
Definition settings (q : product)
  : nat * string * string * option string * option number * bool :=
  (id q, name q, url q, selector q, targetPrice q, isActive q).

(** The rows of product [i] in the three tables. *)
Definition rowsOf (i : nat) (d : db)
  : list product * list priceRow * list notification :=
  (productRows i d, priceRows i d, noticeRows i d).

(** Whether the price history takes an observation of the price [n] in
    the currency [c], on the connection [conn]. *)
Definition storable (conn : value -> option string) (n : number) (c : value) : bool :=
  match decimal n with
  | Some _ =>
      match c with
      | Str s => String.length s <=? 3
      | _ =>
          match conn c with
          | Some s => String.length s <=? 3
          | None => false
          end
      end
  | None => false
  end.

(** Whether an attempt has a price the price history takes. *)
Definition recordable (conn : value -> option string)
  (o : outcome Scraper.ScrapeResult) : bool :=
  match o with
  | Ok r =>
      match Scraper.price r with
      | Some n => storable conn n (Scraper.currency r)
      | None => false
      end
  | Throw => false
  end.

(** The state after the first two statements of a check that recorded its
    price: the observation is in the price history and the row of the
    product holds the stored price. *)
Definition recordedState (now : time) (p : product) (r : Scraper.ScrapeResult)
  (stored : number) (text : string) (d : db) : db :=
  updateProducts
    (fun q =>
       if id q =? id p then
         {| id := id q; name := name q; url := url q;
            selector := selector q; currentPrice := Some stored;
            targetPrice := targetPrice q; isActive := isActive q;
            lastChecked := Some now; updatedAt := now |}
       else q)
    (appendPriceRow
       {| phProductId := id p; phPrice := stored; phCurrency := Str text;
          scrapedAt := now; phIsAvailable := Scraper.isAvailable r |} d).

(** Every statement of the program takes the store from a state to one
    that [R] relates to it. *)
Inductive stepwise (R : db -> db -> Prop) : Scheduler.prog -> Prop :=
| stepwise_halt : stepwise R Scheduler.Halt
| stepwise_stmt (write : db -> db) (next : db -> Scheduler.prog) :
    (forall d, R d (write d)) ->
    (forall d, stepwise R (next d)) ->
    stepwise R (Scheduler.Stmt write next).


(** From [d] to [d'] the notifications table was only appended to: the new
    rows took the next values of the sequence, are undelivered, were
    created at [now] and are for products of [ps]. *)
Definition posted (now : time) (ps : list product) (d d' : db) : Prop :=
  exists new,
    notifications d' = (notifications d ++ new)%list /\
    nextId d' = nextId d + length new /\
    map nId new = seq (nextId d) (length new) /\
    forall e, In e new ->
      sent e = false /\ sentAt e = None /\ createdAt e = now /\
      exists p, In p ps /\ nProductId e = id p.

Definition total (ns : list nat) : nat := fold_right Nat.add 0 ns.

(** A store with an active and a paused product. *)
Definition pausedProduct : product :=
  {| id := 2; name := "Toaster"; url := "https://shop.example/p/2";
     selector := None; currentPrice := Some (ofZ 60);
     targetPrice := Some (ofZ 40); isActive := false;
     lastChecked := Some 1000%Z; updatedAt := 1000%Z |}.

Definition sampleShelf : db :=
  {| products := [sampleProduct; pausedProduct];
     priceHistory := priceHistory sampleDb;
     notifications := notifications sampleBacklog;
     nextId := 4;
     sends := stringsOnly |}.

(** The backlog as a scan may return it: last row first. *)
Definition sampleScan : list notification := rev (notifications sampleBacklog).

(** What one statement of a check of [p] at [now] does to the store:
    nothing, or it appends an observation of [p], or it sets the current
    price and the last-checked time of the rows of [p], or it inserts an
    event for [p]. *)
Inductive effect (now : time) (p : product) : db -> db -> Prop :=
| effect_none (d : db) : effect now p d d
| effect_observation (d : db) (stored : number) (text : string) (available : bool) :
    effect now p d
      (appendPriceRow
         {| phProductId := id p; phPrice := stored; phCurrency := Str text;
            scrapedAt := now; phIsAvailable := available |} d)
| effect_price (d : db) (stored : number) :
    effect now p d
      (updateProducts
         (fun q =>
            if id q =? id p then
              {| id := id q; name := name q; url := url q;
                 selector := selector q; currentPrice := Some stored;
                 targetPrice := targetPrice q; isActive := isActive q;
                 lastChecked := Some now; updatedAt := now |}
            else q) d)
| effect_event (d : db) (k : kind) (msg : message) :
    effect now p d (insertNotification now (id p) k msg d).

(** What the statements of the checks of a tick do: each is a statement of
    a check of one of [ps]. *)
Definition tickEffect (now : time) (ps : list product) (d d' : db) : Prop :=
  exists p, In p ps /\ effect now p d d'.

(** ** Further vocabulary: pages and search results *)

(** The page without its structured-data scripts. *)
Definition withoutScripts (d : Scraper.document) : Scraper.document :=
  {| Scraper.select := Scraper.select d; Scraper.parses := Scraper.parses d;
     Scraper.jsonLd := [] |}.

(** The selector a scrape uses: the custom one, else the one the stores
    table has for the domain, else the default of the domain. *)
Definition chosen (customSelector storeSelector : option string) (domain : string)
  : option string :=
  Scraper.orStr customSelector
    (Scraper.orStr storeSelector (Some (Scraper.getDefaultSelector domain))).

(** What the in-page search hands back: [null], or an object whose
    [@type] is or contains ["Product"]. *)
Definition isProductObject (r : value) : Prop :=
  r = Null \/
  exists kvs, r = Obj kvs /\ Scraper.isProductType (lookup "@type" kvs) = true.

(** A price a scraper reports is a number above 0. *)
Definition soundPrice (r : Scraper.ScrapeResult) : Prop :=
  forall n, Scraper.price r = Some n -> isNaN n = false /\ positive n = true.

Definition isNullish (v : value) : bool :=
  match v with
  | Undef | Null => true
  | _ => false
  end.

(** No array of the JSON value, at any depth, has a [null] item. *)
Fixpoint noNullItems (v : value) : bool :=
  match v with
  | Arr xs => forallb (fun x => negb (isNullish x) && noNullItems x) xs
  | Obj kvs => forallb (fun kv => noNullItems (snd kv)) kvs
  | _ => true
  end.

(** ** The push client and the statistics ([src/services/notifications.ts]) *)

Module Push.
Import JS Store.

(** [process.env.PUSHOVER_TOKEN] and [process.env.PUSHOVER_USER]. *)
Record env : Type := {
  PUSHOVER_TOKEN : option string;
  PUSHOVER_USER : option string
}.

(** [new Pushover({ user, token })] *)
Record client : Type := {
  cUser : string;
  cToken : string
}.

(** The object handed to [pushover.send]. *)
Record pushMessage : Type := {
  pmMessage : message;
  pmTitle : string;
  pmSound : string;
  pmPriority : Z;
  pmUrl : option string;
  pmUrlTitle : option string
}.

(** [pushover.send(msg, callback)]: [Ok true] when the callback is called
    without an error, [Ok false] when it is called with one, [Throw] when
    the call itself throws. *)
Definition transport : Type := client -> pushMessage -> outcome bool.

(** [pushover] is the static field that caches the client: the value
    returned, and the field afterwards. *)
Definition initializePushover (e : env) (pushover : option client)
  : option client * option client :=
  match Scraper.orStr (PUSHOVER_TOKEN e) None, Scraper.orStr (PUSHOVER_USER e) None with
  | Some token, Some user =>
      match pushover with
      | Some c => (Some c, pushover)
      | None =>
          let c := {| cUser := user; cToken := token |} in
          (Some c, Some c)
      end
  | _, _ => (None, pushover)
  end.

(** The result, the messages handed to the push service, and the cached
    client afterwards. *)
Definition sendNotification (e : env) (send : transport) (pushover : option client)
  (msg : message) (title : string) (priority : Z) (url : option string)
  : outcome bool * list (client * pushMessage) * option client :=
  match initializePushover e pushover with
  | (None, cache) => (Ok false, [], cache)
  | (Some c, cache) =>
      let m :=
        {| pmMessage := msg;
           pmTitle := title;
           pmSound := if (0 <? priority)%Z then "pushover" else "gamelan";
           pmPriority := priority;
           pmUrl := url;
           pmUrlTitle :=
             match Scraper.orStr url None with
             | Some _ => Some "View Product"%string
             | None => None
             end |} in
      (send c m, [(c, m)], cache)
  end.

(** The title without its leading emoji. *)
Definition sendTestNotification (e : env) (send : transport) (pushover : option client)
  : outcome bool * list (client * pushMessage) * option client :=
  sendNotification e send pushover
    (Text "Test notification from Price Tracker! Your notifications are working correctly.")
    "Test Notification" 0 None.

(** [sendNotification] as the dispatch loop calls it: message, title and
    priority, no URL. *)
Definition notifierOf (e : env) (send : transport) (pushover : option client)
  : Notifications.notifier :=
  fun msg title priority =>
    fst (fst (sendNotification e send pushover msg title priority None)).

(** *** getNotificationStats *)

(** [byType] is an object used as a map; its keys are in the order of
    their first assignment. *)
Fixpoint getCount (k : kind) (byType : list (kind * nat)) : option nat :=
  match byType with
  | [] => None
  | (k', c) :: r => if kind_eqb k k' then Some c else getCount k r
  end.

Fixpoint setCount (k : kind) (v : nat) (byType : list (kind * nat)) : list (kind * nat) :=
  match byType with
  | [] => [(k, v)]
  | (k', c) :: r =>
      if kind_eqb k k' then (k', v) :: r else (k', c) :: setCount k v r
  end.

(** [stats.byType[type] = (stats.byType[type] || 0) + 1] *)
Definition bump (k : kind) (byType : list (kind * nat)) : list (kind * nat) :=
  let old :=
    match getCount k byType with
    | Some c => if c =? 0 then 0 else c
    | None => 0
    end in
  setCount k (old + 1) byType.

Record notificationStats : Type := {
  total : nat;
  sentCount : nat;
  pendingCount : nat;
  byType : list (kind * nat)
}.

Definition getNotificationStats (d : db) : notificationStats :=
  let allNotifications := notifications d in
  {| total := length allNotifications;
     sentCount := length (filter (fun n => sent n) allNotifications);
     pendingCount := length (filter (fun n => negb (sent n)) allNotifications);
     byType := fold_left (fun acc n => bump (nType n) acc) allNotifications [] |}.

End Push.

(** Whether both credentials are set and non-empty. *)
Definition configured (e : Push.env) : bool :=
  match Scraper.orStr (Push.PUSHOVER_TOKEN e) None,
        Scraper.orStr (Push.PUSHOVER_USER e) None with
  | Some _, Some _ => true
  | _, _ => false
  end.

(** The number of events of kind [k]. *)
Definition countOf (k : kind) (l : list notification) : nat :=
  length (filter (fun n => kind_eqb (nType n) k) l).

Definition sumCounts (byType : list (kind * nat)) : nat :=
  fold_right (fun kc acc => snd kc + acc) 0 byType.

Definition sampleEnv : Push.env :=
  {| Push.PUSHOVER_TOKEN := Some "token"%string; Push.PUSHOVER_USER := Some "user"%string |}.

Definition sampleNoToken : Push.env :=
  {| Push.PUSHOVER_TOKEN := Some EmptyString; Push.PUSHOVER_USER := Some "user"%string |}.

Definition sampleTransport : Push.transport := fun _ _ => Ok true.

(** The state of the counting loop after the events [seen]. *)
Definition tallied (seen : list notification) (acc : list (kind * nat)) : Prop :=
  NoDup (map fst acc) /\
  sumCounts acc = length seen /\
  forall k, Push.getCount k acc
            = if countOf k seen =? 0 then None else Some (countOf k seen).


(** ** The job registry ([src/services/scheduler.ts]) *)

Module Jobs.
Import JS Store.

(** The three callbacks [startAllJobs] registers. *)
Inductive callback : Type := RunPriceCheck | RunCleanup | RunNotifications.

(** What [cron.schedule] is given. *)
Record task : Type := {
  cronExpr : string;
  timezone : string;
  run : callback
}.

(** The static [jobs] map, in insertion order. *)
Definition registry : Type := list (string * task).

Definition has (name : string) (jobs : registry) : bool :=
  existsb (fun j => String.eqb (fst j) name) jobs.

Definition scheduleJob (name schedule : string) (cb : callback) (jobs : registry)
  : registry :=
  if has name jobs then jobs
  else
    (jobs ++ [(name, {| cronExpr := schedule; timezone := "Australia/Sydney";
                        run := cb |})])%list.

Definition startAllJobs (jobs : registry) : registry :=
  scheduleJob "notifications" "*/5 * * * *" RunNotifications
    (scheduleJob "cleanup" "0 2 * * *" RunCleanup
       (scheduleJob "price-check" "*/30 * * * *" RunPriceCheck jobs)).

(** Every task is destroyed and the map is cleared. *)
Definition stopAllJobs (jobs : registry) : registry := [].

(** A registered task fires: the wrapper logs, runs the callback and
    catches what it throws.  The arguments are what the callback finds:
    the time, the date ninety days before, the scrapes and the order of
    the statements of the checks, the notifier and the order of the rows
    of the pending query. *)
Definition fire (cb : callback) (now ninetyDaysAgo : time)
  (scrape : product -> outcome Scraper.ScrapeResult) (schedule : list nat)
  (send : Notifications.notifier) (scan : list notification) (d : db) : db :=
  match cb with
  | RunPriceCheck => Scheduler.checkAllProductPrices now scrape schedule d
  | RunCleanup => Scheduler.cleanupOldPriceHistory ninetyDaysAgo d
  | RunNotifications =>
      fst (Notifications.sendPendingNotifications now send scan d)
  end.

End Jobs.

(** ** The product routes ([src/routes])

    The handlers run on bodies the validator accepted.  [newId] is the
    value the serial key of [products] gives the inserted row. *)

Module Routes.
Import JS Store.

Inductive status : Type :=
| Ok200 | Created201 | BadRequest400 | NotFound404 | Conflict409 | ServerError500.

(** [parseInt(c.req.param('id'))] *)
Inductive idParam : Type :=
| NaNId
| IntId (z : Z).

(** The key columns are [integer]: a query that compares one with a
    number outside this range fails. *)
Definition int4 (z : Z) : bool :=
  (-2147483648 <=? z)%Z && (z <=? 2147483647)%Z.

Record createBody : Type := {
  bName : option string;
  bUrl : string;
  bTargetPrice : option number;
  bSelector : option string
}.

Definition hasUrl (u : string) (p : product) : bool := String.eqb (url p) u.

Definition hasId (z : Z) (p : product) : bool := (Z.of_nat (id p) =? z)%Z.

(** A nullable [decimal(10,2)] column. *)
Definition decimalOrNull (n : option number) : option (option number) :=
  match n with
  | None => Some None
  | Some x =>
      match decimal x with
      | Some stored => Some (Some stored)
      | None => None
      end
  end.

(** [db.insert(products).values({...}).returning()]: the statement fails
    when the name does not fit [varchar(255)], the store [varchar(100)] or
    a price [decimal(10,2)]; otherwise the row as the table holds it is
    returned. *)
Definition insertProduct (now : time) (newId : nat) (name url store : string)
  (selector : option string) (currentPrice targetPrice : option number) (d : db)
  : outcome (db * product) :=
  match fits 255 name, fits 100 store,
        decimalOrNull currentPrice, decimalOrNull targetPrice with
  | Some _, Some _, Some current, Some target =>
      let row :=
        {| id := newId; name := name; url := url; selector := selector;
           currentPrice := current; targetPrice := target; isActive := true;
           lastChecked := match currentPrice with Some _ => Some now | None => None end;
           updatedAt := now |} in
      Ok ({| products := products d ++ [row];
             priceHistory := priceHistory d;
             notifications := notifications d;
             nextId := nextId d;
             sends := sends d |}, row)
  | _, _, _, _ => Throw
  end.

(** [POST /]: [parseURL] always reports the store as supported, so the
    400 branch is not reached.  [scrapePrice] gives the result together
    with its [productName].  Whatever throws outside the inner [try] gives
    the answer 500 and leaves what was written before. *)
Definition createProduct (now : time) (newId : nat)
  (parseURL : string -> outcome Scraper.ParsedProduct)
  (scrapePrice : string -> option string -> outcome (Scraper.ScrapeResult * option string))
  (body : createBody) (d : db) : db * status :=
  match parseURL (bUrl body) with
  | Throw => (d, ServerError500)
  | Ok parsed =>
      match filter (hasUrl (Scraper.cleanUrl parsed)) (products d) with
      | _ :: _ => (d, Conflict409)
      | [] =>
          let '(initialPrice, productName) :=
            match scrapePrice (Scraper.cleanUrl parsed) (bSelector body) with
            | Ok (scrapeResult, scrapedName) =>
                (match Scraper.price scrapeResult with
                 | Some n => if truthyNum n then Some n else None
                 | None => None
                 end,
                 Scraper.orStr (bName body) scrapedName)
            | Throw => (None, bName body)
            end in
          let store :=
            if String.eqb (Scraper.store parsed) EmptyString
            then Scraper.domain parsed else Scraper.store parsed in
          let name :=
            match Scraper.orStr productName None with
            | Some s => s
            | None => ("Product from " ++ store)%string
            end in
          match insertProduct now newId name (Scraper.cleanUrl parsed) store
                  (bSelector body) initialPrice (bTargetPrice body) d with
          | Throw => (d, ServerError500)
          | Ok (d1, newProduct) =>
              match initialPrice with
              | Some n =>
                  match insertPriceHistory (id newProduct) n (Str "AUD") true now d1 with
                  | Ok d2 => (d2, Created201)
                  | Throw => (d1, ServerError500)
                  end
              | None => (d1, Created201)
              end
          end
      end
  end.

(** [DELETE /:id]; the foreign keys of [price_history] and
    [notifications] are declared [onDelete: 'cascade']. *)
Definition deleteProduct (param : idParam) (d : db) : db * status :=
  match param with
  | NaNId => (d, BadRequest400)
  | IntId z =>
      if negb (int4 z) then (d, ServerError500)
      else
        match filter (hasId z) (products d) with
        | [] => (d, NotFound404)
        | _ :: _ =>
            ({| products := filter (fun p => negb (hasId z p)) (products d);
                priceHistory :=
                  filter (fun h => negb (Z.of_nat (phProductId h) =? z)%Z) (priceHistory d);
                notifications :=
                  filter (fun n => negb (Z.of_nat (nProductId n) =? z)%Z) (notifications d);
                nextId := nextId d;
                sends := sends d |},
             Ok200)
        end
  end.

(** [POST /:id/check-price] *)
Definition checkPrice (now : time)
  (scrape : product -> outcome Scraper.ScrapeResult) (param : idParam) (d : db)
  : db * status :=
  match param with
  | NaNId => (d, BadRequest400)
  | IntId z =>
      if negb (int4 z) then (d, ServerError500)
      else
        match filter (hasId z) (products d) with
        | [] => (d, NotFound404)
        | p :: _ =>
            if negb (isActive p) then (d, BadRequest400)
            else
              match Scheduler.checkSingleProduct now scrape (id p) d with
              | Ok d' => (d', Ok200)
              | Throw => (d, ServerError500)
              end
        end
  end.

Inductive request : Type :=
| CreateProduct (now : time) (newId : nat)
    (parseURL : string -> outcome Scraper.ParsedProduct)
    (scrapePrice : string -> option string -> outcome (Scraper.ScrapeResult * option string))
    (body : createBody)
| DeleteProduct (param : idParam)
| CheckPrice (now : time) (scrape : product -> outcome Scraper.ScrapeResult)
    (param : idParam).

Definition serve (r : request) (d : db) : db * status :=
  match r with
  | CreateProduct now newId parseURL scrapePrice body =>
      createProduct now newId parseURL scrapePrice body d
  | DeleteProduct param => deleteProduct param d
  | CheckPrice now scrape param => checkPrice now scrape param d
  end.

End Routes.

(** ** Further vocabulary: the catalogue *)


(** Every observation and every event belongs to a product of the
    table. *)
Definition referenced (d : db) : Prop :=
  (forall h, In h (priceHistory d) ->
     exists p, In p (products d) /\ id p = phProductId h) /\
  (forall e, In e (notifications d) ->
     exists p, In p (products d) /\ id p = nProductId e).


(** The price the create route takes from the first scrape: a price that
    is a number other than 0. *)
Definition firstPrice (o : outcome (Scraper.ScrapeResult * option string))
  : option number :=
  match o with
  | Ok (r, _) =>
      match Scraper.price r with
      | Some n => if truthyNum n then Some n else None
      | None => None
      end
  | Throw => None
  end.

(** The name the create route gives the product. *)
Definition givenName (body : Routes.createBody) (parsed : Scraper.ParsedProduct)
  (o : outcome (Scraper.ScrapeResult * option string)) : string :=
  let store :=
    if String.eqb (Scraper.store parsed) EmptyString
    then Scraper.domain parsed else Scraper.store parsed in
  match Scraper.orStr
          (match o with
           | Ok (_, scrapedName) => Scraper.orStr (Routes.bName body) scrapedName
           | Throw => Routes.bName body
           end) None with
  | Some s => s
  | None => ("Product from " ++ store)%string
  end.

(** The columns of the products table take the row of the request. *)
Definition insertable (body : Routes.createBody) (parsed : Scraper.ParsedProduct)
  (o : outcome (Scraper.ScrapeResult * option string)) : bool :=
  let store :=
    if String.eqb (Scraper.store parsed) EmptyString
    then Scraper.domain parsed else Scraper.store parsed in
  (String.length (givenName body parsed o) <=? 255)
  && (String.length store <=? 100)
  && match Routes.decimalOrNull (firstPrice o) with Some _ => true | None => false end
  && match Routes.decimalOrNull (Routes.bTargetPrice body) with
     | Some _ => true
     | None => false
     end.


Definition sampleParse (u : string) : outcome Scraper.ParsedProduct :=
  Ok {| Scraper.cleanUrl := "https://shop.example/p/7";
        Scraper.domain := "shop.example";
        Scraper.store := "shop.example (Generic)" |}.

Definition sampleFirstScrape (_ : string) (_ : option string)
  : outcome (Scraper.ScrapeResult * option string) :=
  Ok (sampleStaticResult, Some "Kettle, steel"%string).
(** * Properties *)

(** ** Lists *)

Lemma In_firstn {A : Type} (x : A) :
  forall (n : nat) (l : list A), In x (firstn n l) -> In x l.
Proof.
  induction n as [|n IH]; intros [|y l]; cbn; try tauto.
  intros [H|H]; [now left|right; now apply IH].
Qed.

Lemma existsb_none {A : Type} (f : A -> bool) (l : list A) :
  (forall x, In x l -> f x = false) -> existsb f l = false.
Proof.
  intros H. induction l as [|x l IH]; cbn; [reflexivity|].
  rewrite (H x (or_introl eq_refl)). apply IH. intros y Hy. apply H. now right.
Qed.

Lemma filter_empty {A : Type} (f : A -> bool) (l : list A) :
  (forall x, In x l -> f x = false) -> filter f l = [].
Proof.
  intros H. induction l as [|x l IH]; cbn; [reflexivity|].
  rewrite (H x (or_introl eq_refl)). apply IH. intros y Hy. apply H. now right.
Qed.

Lemma filter_full {A : Type} (f : A -> bool) (l : list A) :
  (forall x, In x l -> f x = true) -> filter f l = l.
Proof.
  intros H. induction l as [|x l IH]; cbn; [reflexivity|].
  rewrite (H x (or_introl eq_refl)). f_equal. apply IH. intros y Hy. apply H. now right.
Qed.

Lemma filter_idem {A : Type} (f : A -> bool) (l : list A) :
  filter f (filter f l) = filter f l.
Proof.
  induction l as [|x l IH]; [reflexivity|]. cbn. destruct (f x) eqn:E; [|exact IH].
  cbn. now rewrite E, IH.
Qed.




Lemma Permutation_filter {A : Type} (f : A -> bool) (l l' : list A) :
  Permutation l l' -> Permutation (filter f l) (filter f l').
Proof.
  induction 1 as [|x l l' _ IH|x y l|l1 l2 l3 _ IH1 _ IH2]; cbn.
  - constructor.
  - destruct (f x); [now constructor|exact IH].
  - destruct (f x), (f y); try apply Permutation_refl; apply perm_swap.
  - now apply (Permutation_trans IH1).
Qed.

(** ** The structure of a check *)

Lemma added_appended (d d' : db) (new : list notification) :
  notifications d' = (notifications d ++ new)%list -> added d d' = new.
Proof.
  intros H. unfold added. rewrite H, skipn_app, Nat.sub_diag, skipn_all. reflexivity.
Qed.

Lemma emits_appended (k : kind) (i : nat) (d d' : db) (new : list notification) :
  notifications d' = (notifications d ++ new)%list ->
  emits k i d d' = existsb (fun n => (nProductId n =? i) && kind_eqb (nType n) k) new.
Proof. intros H. unfold emits. now rewrite (added_appended d d' new H). Qed.

Lemma emits_nothing_new (k : kind) (i : nat) (d : db) : emits k i d d = false.
Proof. rewrite (emits_appended k i d d []); [reflexivity|now rewrite app_nil_r]. Qed.

(** What a check adds to the notifications table, in order: a price drop,
    a target-reached event, a stock notice; each is optional. *)
Lemma checkTarget_appends (now : time) (p : product) (cur : option number)
  (newPrice : number) (d : db) :
  let d' := Scheduler.checkTargetPriceNotification now p cur newPrice d in
  products d' = products d /\ priceHistory d' = priceHistory d /\
  (d' = d \/
   exists T, targetPrice p = Some T /\
     d' = insertNotification now (id p) target_reached
            (TargetReachedMsg (name p) newPrice T) d).
Proof.
  cbn zeta. unfold Scheduler.checkTargetPriceNotification.
  destruct (targetPrice p) as [T|]; [|tauto].
  destruct (gt newPrice T); [tauto|].
  destruct (negb (Scheduler.isCrossingThreshold cur T)); [tauto|].
  destruct (Scheduler.recentNotifications p d) as [|mostRecent rest].
  - split; [reflexivity|split; [reflexivity|]]. right. now exists T.
  - destruct (negb _); [tauto|].
    split; [reflexivity|split; [reflexivity|]]. right. now exists T.
Qed.

Lemma priceDrop_appends (now : time) (p : product) (newPrice : number) (d : db) :
  let d' := Scheduler.priceDropStep now p newPrice d in
  products d' = products d /\ priceHistory d' = priceHistory d /\
  exists new, notifications d' = (notifications d ++ new)%list /\
              forall n, In n new -> nType n = price_drop /\ nProductId n = id p.
Proof.
  cbn zeta. unfold Scheduler.priceDropStep.
  destruct (currentPrice p) as [c|];
    [destruct (lt newPrice c)|];
    (split; [reflexivity|split; [reflexivity|]]);
    try (exists []; rewrite app_nil_r; split; [reflexivity|intros ? []]).
  eexists. split; [reflexivity|]. intros ? [<-|[]]. split; reflexivity.
Qed.

Lemma stock_appends (now : time) (p : product) (r : Scraper.ScrapeResult)
  (newPrice : number) (d : db) :
  let d' := Scheduler.stockStep now p r newPrice d in
  products d' = products d /\ priceHistory d' = priceHistory d /\
  exists new, notifications d' = (notifications d ++ new)%list /\
              forall n, In n new -> nType n = back_in_stock /\ nProductId n = id p.
Proof.
  cbn zeta. unfold Scheduler.stockStep.
  destruct (Scraper.isAvailable r), (currentPrice p);
    (split; [reflexivity|split; [reflexivity|]]);
    try (exists []; rewrite app_nil_r; split; [reflexivity|intros ? []]);
    (eexists; split; [reflexivity|]; intros ? [<-|[]]; split; reflexivity).
Qed.

(** *** What the price history takes *)

Lemma storable_spec (d : db) (n : number) (c : value) :
  storable (sends d) n c = true <->
  exists stored text, decimal n = Some stored /\ varchar 3 d c = Some text.
Proof.
  unfold storable, varchar, fits. destruct (decimal n) as [stored|].
  - destruct c as [| | | |s| |];
      try (destruct (sends d _) as [s|]);
      try (destruct (String.length s <=? 3));
      split; try discriminate; try (intros _; eexists; eexists; split; reflexivity);
      try (intros (? & ? & _ & H); discriminate H); reflexivity.
  - split; [discriminate|]. intros (? & ? & H & _). discriminate.
Qed.

Lemma insert_taken (i : nat) (n : number) (c : value) (available : bool) (t : time)
  (d : db) (stored : number) (text : string) :
  decimal n = Some stored -> varchar 3 d c = Some text ->
  insertPriceHistory i n c available t d
  = Ok (appendPriceRow
          {| phProductId := i; phPrice := stored; phCurrency := Str text;
             scrapedAt := t; phIsAvailable := available |} d).
Proof. intros H1 H2. unfold insertPriceHistory. now rewrite H1, H2. Qed.

Lemma insert_refused (i : nat) (n : number) (c : value) (available : bool) (t : time)
  (d : db) :
  storable (sends d) n c = false -> insertPriceHistory i n c available t d = Throw.
Proof.
  intros H. unfold insertPriceHistory.
  destruct (decimal n) as [stored|] eqn:E1; [|reflexivity].
  destruct (varchar 3 d c) as [text|] eqn:E2; [|reflexivity].
  assert (S : storable (sends d) n c = true)
    by (apply storable_spec; now exists stored, text).
  congruence.
Qed.

Lemma update_taken (now : time) (p : product) (n stored : number) (d : db) :
  decimal n = Some stored ->
  Scheduler.updateCurrentPrice now p n d
  = Ok (updateProducts
          (fun q =>
             if id q =? id p then
               {| id := id q; name := name q; url := url q;
                  selector := selector q; currentPrice := Some stored;
                  targetPrice := targetPrice q; isActive := isActive q;
                  lastChecked := Some now; updatedAt := now |}
             else q) d).
Proof. intros H. unfold Scheduler.updateCurrentPrice. now rewrite H. Qed.

(** A check with a price either is refused by the price history and
    leaves the store as it was, or records the price and runs its three
    notification steps. *)
Lemma check_cases (now : time) (p : product) (r : Scraper.ScrapeResult)
  (n : number) (d : db) :
  Scraper.price r = Some n ->
  (storable (sends d) n (Scraper.currency r) = false /\
   Scheduler.checkProductPrice now p (Ok r) d = d) \/
  (exists stored text,
     decimal n = Some stored /\ varchar 3 d (Scraper.currency r) = Some text /\
     storable (sends d) n (Scraper.currency r) = true /\
     Scheduler.checkProductPrice now p (Ok r) d
     = Scheduler.stockStep now p r n
         (Scheduler.checkTargetPriceNotification now p (currentPrice p) n
            (Scheduler.priceDropStep now p n (recordedState now p r stored text d)))).
Proof.
  intros Hprice. unfold Scheduler.checkProductPrice. rewrite Hprice.
  destruct (storable (sends d) n (Scraper.currency r)) eqn:S.
  - right. destruct (proj1 (storable_spec d n _) S) as (stored & text & H1 & H2).
    exists stored, text. split; [exact H1|]. split; [exact H2|]. split; [reflexivity|].
    rewrite (insert_taken _ _ _ _ _ _ stored text H1 H2).
    rewrite (update_taken _ _ _ stored _ H1). reflexivity.
  - left. split; [reflexivity|]. now rewrite insert_refused.
Qed.

Lemma check_quiet (now : time) (p : product)
  (scrape : outcome Scraper.ScrapeResult) (d : db) :
  recordable (sends d) scrape = false ->
  Scheduler.checkProductPrice now p scrape d = d.
Proof.
  unfold recordable. destruct scrape as [r|]; [|reflexivity].
  destruct (Scraper.price r) as [n|] eqn:E;
    [|intros _; unfold Scheduler.checkProductPrice; now rewrite E].
  intros S. destruct (check_cases now p r n d E) as [[_ H]|(? & ? & _ & _ & S' & _)];
    [exact H|congruence].
Qed.

Lemma recordable_true (conn : value -> option string)
  (scrape : outcome Scraper.ScrapeResult) :
  recordable conn scrape = true ->
  exists r n, scrape = Ok r /\ Scraper.price r = Some n /\
              storable conn n (Scraper.currency r) = true.
Proof.
  unfold recordable. destruct scrape as [r|]; [|discriminate].
  destruct (Scraper.price r) as [n|] eqn:E; [|discriminate].
  intros S. now exists r, n.
Qed.

(** A check that recorded its price, as the state its steps lead to. *)
Lemma check_recorded (now : time) (p : product) (r : Scraper.ScrapeResult)
  (n : number) (d : db) :
  Scraper.price r = Some n ->
  storable (sends d) n (Scraper.currency r) = true ->
  exists stored text,
    decimal n = Some stored /\ varchar 3 d (Scraper.currency r) = Some text /\
    Scheduler.checkProductPrice now p (Ok r) d
    = Scheduler.stockStep now p r n
        (Scheduler.checkTargetPriceNotification now p (currentPrice p) n
           (Scheduler.priceDropStep now p n (recordedState now p r stored text d))).
Proof.
  intros Hprice S.
  destruct (check_cases now p r n d Hprice) as [[S' _]|(stored & text & H1 & H2 & _ & E)];
    [congruence|]. now exists stored, text.
Qed.

(** *** What a check writes *)

Lemma priceDrop_atMostOne (now : time) (p : product) (n : number) (d : db) :
  let d' := Scheduler.priceDropStep now p n d in
  (d' = d /\ ~ (exists c, currentPrice p = Some c /\ lt n c = true)) \/
  ((exists msg, d' = insertNotification now (id p) price_drop msg d) /\
   exists c, currentPrice p = Some c /\ lt n c = true).
Proof.
  cbn zeta. unfold Scheduler.priceDropStep.
  destruct (currentPrice p) as [c|].
  - destruct (lt n c) eqn:E.
    + right. split; [eexists; reflexivity|]. now exists c.
    + left. split; [reflexivity|]. intros (c' & [= <-] & H). congruence.
  - left. split; [reflexivity|]. intros (c' & H & _). discriminate.
Qed.

Lemma checkTarget_atMostOne (now : time) (p : product) (cur : option number)
  (n : number) (d : db) :
  atMostOne target_reached now (id p) d
    (Scheduler.checkTargetPriceNotification now p cur n d).
Proof.
  destruct (checkTarget_appends now p cur n d) as (_ & _ & [H|(T & _ & H)]).
  - now left.
  - right. eexists. exact H.
Qed.

Lemma stock_atMostOne (now : time) (p : product) (r : Scraper.ScrapeResult)
  (n : number) (d : db) :
  atMostOne back_in_stock now (id p) d (Scheduler.stockStep now p r n d).
Proof.
  unfold Scheduler.stockStep, atMostOne, Scheduler.createNotification.
  destruct (Scraper.isAvailable r), (currentPrice p); eauto.
Qed.

Lemma atMostOne_added (k : kind) (now : time) (i : nat) (d d' : db) :
  atMostOne k now i d d' ->
  products d' = products d /\ priceHistory d' = priceHistory d /\
  exists new,
    notifications d' = (notifications d ++ new)%list /\
    nextId d' = nextId d + length new /\
    length new <= 1 /\
    forall e, In e new ->
      nId e = nextId d /\ nProductId e = i /\ nType e = k /\
      sent e = false /\ sentAt e = None /\ createdAt e = now.
Proof.
  intros [->|(msg & ->)]; (split; [reflexivity|split; [reflexivity|]]).
  - exists []. cbn. rewrite app_nil_r, Nat.add_0_r.
    split; [reflexivity|]. split; [reflexivity|]. split; [lia|intros ? []].
  - eexists. split; [reflexivity|]. cbn. split; [lia|]. split; [lia|].
    intros e [<-|[]]. cbn. tauto.
Qed.

(** The notifications a check that recorded its price adds: an optional
    price drop, an optional target-reached event and an optional stock
    notice, in this order. *)
Lemma check_notices (now : time) (p : product) (r : Scraper.ScrapeResult)
  (n : number) (d : db) :
  Scraper.price r = Some n ->
  storable (sends d) n (Scraper.currency r) = true ->
  let d' := Scheduler.checkProductPrice now p (Ok r) d in
  exists drop mid stock,
    notifications d' = (notifications d ++ drop ++ mid ++ stock)%list /\
    nextId d' = nextId d + length (drop ++ mid ++ stock) /\
    length drop <= 1 /\ length mid <= 1 /\ length stock <= 1 /\
    (drop <> [] <-> exists c, currentPrice p = Some c /\ lt n c = true) /\
    (forall e, In e drop -> nType e = price_drop /\ nId e = nextId d) /\
    (forall e, In e mid ->
       nType e = target_reached /\ nId e = nextId d + length drop) /\
    (forall e, In e stock ->
       nType e = back_in_stock /\ nId e = nextId d + length drop + length mid) /\
    (forall e, In e (drop ++ mid ++ stock) ->
       nProductId e = id p /\ sent e = false /\ sentAt e = None /\ createdAt e = now).
Proof.
  intros Hprice S. cbn zeta.
  destruct (check_recorded now p r n d Hprice S) as (stored & text & _ & _ & ->).
  set (d2 := recordedState now p r stored text d).
  assert (H2 : notifications d2 = notifications d /\ nextId d2 = nextId d)
    by (split; reflexivity).
  destruct H2 as [Hn2 Hi2].
  pose proof (priceDrop_atMostOne now p n d2) as H3. cbn zeta in H3.
  set (d3 := Scheduler.priceDropStep now p n d2) in *.
  assert (A3 : atMostOne price_drop now (id p) d2 d3).
  { destruct H3 as [[-> _]|[(msg & ->) _]]; [now left|right; now exists msg]. }
  destruct (atMostOne_added _ _ _ _ _ A3) as (_ & _ & drop & Hn3 & Hi3 & Hl3 & Hd3).
  pose proof (checkTarget_atMostOne now p (currentPrice p) n d3) as A4.
  set (d4 := Scheduler.checkTargetPriceNotification now p (currentPrice p) n d3) in *.
  destruct (atMostOne_added _ _ _ _ _ A4) as (_ & _ & mid & Hn4 & Hi4 & Hl4 & Hd4).
  pose proof (stock_atMostOne now p r n d4) as A5.
  set (d5 := Scheduler.stockStep now p r n d4) in *.
  destruct (atMostOne_added _ _ _ _ _ A5) as (_ & _ & stock & Hn5 & Hi5 & Hl5 & Hd5).
  exists drop, mid, stock.
  split; [rewrite Hn5, Hn4, Hn3, Hn2; now rewrite <- !app_assoc|].
  split; [rewrite Hi5, Hi4, Hi3, Hi2, !length_app; lia|].
  split; [exact Hl3|]. split; [exact Hl4|]. split; [exact Hl5|].
  split.
  { destruct H3 as [[E Hno]|[(msg & E) Hyes]].
    - assert (drop = []).
      { rewrite E in Hn3. destruct drop as [|x l]; [reflexivity|].
        apply (f_equal (@length _)) in Hn3. rewrite length_app in Hn3.
        cbn in Hn3. lia. }
      subst drop. split; [congruence|]. intros H. contradiction.
    - split; [intros _; exact Hyes|intros _ ->].
      rewrite E in Hn3. cbn in Hn3. rewrite app_nil_r in Hn3.
      apply (f_equal (@length _)) in Hn3. rewrite length_app in Hn3.
      cbn in Hn3. lia. }
  split; [intros e He; destruct (Hd3 e He) as (? & ? & ? & _); rewrite Hi2 in *; tauto|].
  split.
  { intros e He. destruct (Hd4 e He) as (Hid & ? & ? & _).
    rewrite Hi3, Hi2 in Hid. tauto. }
  split.
  { intros e He. destruct (Hd5 e He) as (Hid & ? & ? & _).
    rewrite Hi4, Hi3, Hi2 in Hid. tauto. }
  intros e He. apply in_app_or in He. destruct He as [He|He].
  - destruct (Hd3 e He) as (_ & ? & _ & ? & ? & ?). tauto.
  - apply in_app_or in He. destruct He as [He|He].
    + destruct (Hd4 e He) as (_ & ? & _ & ? & ? & ?). tauto.
    + destruct (Hd5 e He) as (_ & ? & _ & ? & ? & ?). tauto.
Qed.

(** *** A check, statement by statement *)

Lemma exec_priceDrop (now : time) (p : product) (n : number) (k : Scheduler.prog)
  (d : db) :
  Scheduler.exec (Scheduler.priceDropProgram now p n k) d
  = Scheduler.exec k (Scheduler.priceDropStep now p n d).
Proof.
  unfold Scheduler.priceDropProgram, Scheduler.priceDropStep.
  destruct (currentPrice p) as [c|]; [|reflexivity].
  destruct (lt n c); reflexivity.
Qed.

Lemma exec_target (now : time) (p : product) (cur : option number) (n : number)
  (k : Scheduler.prog) (d : db) :
  Scheduler.exec (Scheduler.targetProgram now p cur n k) d
  = Scheduler.exec k (Scheduler.checkTargetPriceNotification now p cur n d).
Proof.
  unfold Scheduler.targetProgram, Scheduler.checkTargetPriceNotification.
  destruct (targetPrice p) as [T|]; [|reflexivity].
  destruct (gt n T); [reflexivity|].
  destruct (negb (Scheduler.isCrossingThreshold cur T)); [reflexivity|].
  cbn [Scheduler.exec Scheduler.read].
  destruct (Scheduler.recentNotifications p d) as [|mostRecent rest]; [reflexivity|].
  cbn [Scheduler.exec Scheduler.read].
  destruct (negb _); reflexivity.
Qed.

Lemma exec_stock (now : time) (p : product) (r : Scraper.ScrapeResult) (n : number)
  (d : db) :
  Scheduler.exec (Scheduler.stockProgram now p r n) d = Scheduler.stockStep now p r n d.
Proof.
  unfold Scheduler.stockProgram, Scheduler.stockStep.
  destruct (Scraper.isAvailable r), (currentPrice p); reflexivity.
Qed.

(** Run on its own, the program of a check is the check. *)
Lemma exec_checkProgram (now : time) (p : product)
  (scrape : outcome Scraper.ScrapeResult) (d : db) :
  Scheduler.exec (Scheduler.checkProgram now p scrape) d
  = Scheduler.checkProductPrice now p scrape d.
Proof.
  unfold Scheduler.checkProgram, Scheduler.checkProductPrice.
  destruct scrape as [r|]; [|reflexivity].
  destruct (Scraper.price r) as [n|]; [|reflexivity].
  cbn [Scheduler.exec Scheduler.attempt].
  destruct (insertPriceHistory _ _ _ _ _ d) as [d1|]; [|reflexivity].
  cbn [Scheduler.exec Scheduler.attempt].
  destruct (Scheduler.updateCurrentPrice now p n d1) as [d2|]; [|reflexivity].
  now rewrite exec_priceDrop, exec_target, exec_stock.
Qed.

(** Every statement of a check has one of the four effects. *)
Lemma stepwise_weaken (R R' : db -> db -> Prop) (pr : Scheduler.prog) :
  (forall d d', R d d' -> R' d d') -> stepwise R pr -> stepwise R' pr.
Proof.
  intros H. induction 1 as [|w k Hw _ IH]; constructor; auto.
Qed.

Lemma stock_effects (now : time) (p : product) (r : Scraper.ScrapeResult) (n : number) :
  stepwise (effect now p) (Scheduler.stockProgram now p r n).
Proof.
  unfold Scheduler.stockProgram.
  destruct (Scraper.isAvailable r), (currentPrice p);
    try constructor; intros; constructor.
Qed.

Lemma target_effects (now : time) (p : product) (cur : option number) (n : number)
  (k : Scheduler.prog) :
  stepwise (effect now p) k ->
  stepwise (effect now p) (Scheduler.targetProgram now p cur n k).
Proof.
  intros Hk. unfold Scheduler.targetProgram.
  destruct (targetPrice p) as [T|]; [|exact Hk].
  destruct (gt n T); [exact Hk|].
  destruct (negb (Scheduler.isCrossingThreshold cur T)); [exact Hk|].
  assert (Hsend : stepwise (effect now p)
            (Scheduler.write
               (Scheduler.createNotification now (id p) target_reached
                  (TargetReachedMsg (name p) n T)) k))
    by (constructor; intros; [constructor|exact Hk]).
  constructor; [intros; constructor|]. intros d.
  destruct (Scheduler.recentNotifications p d) as [|mostRecent rest]; [exact Hsend|].
  constructor; [intros; constructor|]. intros d'.
  destruct (negb _); assumption.
Qed.

Lemma priceDrop_effects (now : time) (p : product) (n : number) (k : Scheduler.prog) :
  stepwise (effect now p) k ->
  stepwise (effect now p) (Scheduler.priceDropProgram now p n k).
Proof.
  intros Hk. unfold Scheduler.priceDropProgram.
  destruct (currentPrice p) as [c|]; [|exact Hk].
  destruct (lt n c); [|exact Hk].
  constructor; intros; [constructor|exact Hk].
Qed.

Lemma check_effects (now : time) (p : product) (scrape : outcome Scraper.ScrapeResult) :
  stepwise (effect now p) (Scheduler.checkProgram now p scrape).
Proof.
  unfold Scheduler.checkProgram.
  destruct scrape as [r|]; [|constructor].
  destruct (Scraper.price r) as [n|]; [|constructor].
  constructor.
  - intros d. unfold insertPriceHistory.
    destruct (decimal n) as [stored|]; [|constructor].
    destruct (varchar 3 d (Scraper.currency r)) as [text|]; constructor.
  - intros d. destruct (insertPriceHistory _ _ _ _ _ d); [|constructor].
    constructor.
    + intros d1. unfold Scheduler.updateCurrentPrice.
      destruct (decimal n) as [stored|]; constructor.
    + intros d1. destruct (Scheduler.updateCurrentPrice now p n d1); [|constructor].
      apply priceDrop_effects, target_effects, stock_effects.
Qed.

(** *** Checks that run together *)

Section Together.

Variable R : db -> db -> Prop.
Hypothesis R_refl : forall d, R d d.
Hypothesis R_trans : forall d1 d2 d3, R d1 d2 -> R d2 d3 -> R d1 d3.

Lemma stepwise_exec (pr : Scheduler.prog) :
  stepwise R pr -> forall d, R d (Scheduler.exec pr d).
Proof.
  induction 1 as [|w k Hw _ IH]; intros d; cbn; [apply R_refl|].
  apply (R_trans _ (w d)); [apply Hw|apply IH].
Qed.

Lemma stepwise_advance (i : nat) :
  forall (tasks : list Scheduler.prog) (d : db),
    Forall (stepwise R) tasks ->
    Forall (stepwise R) (fst (Scheduler.advance i tasks d)) /\
    R d (snd (Scheduler.advance i tasks d)).
Proof.
  induction i as [|i IH]; intros [|t rest] d H; cbn;
    try (split; [constructor|apply R_refl]).
  - inversion H as [|? ? Ht Hrest]; subst.
    destruct Ht as [|w k Hw Hk]; cbn;
      [split; [constructor; [constructor|exact Hrest]|apply R_refl]|].
    split; [constructor; [apply Hk|exact Hrest]|apply Hw].
  - inversion H as [|? ? Ht Hrest]; subst.
    destruct (IH rest d Hrest) as [IH1 IH2].
    destruct (Scheduler.advance i rest d) as [rest' d']. cbn in *.
    split; [now constructor|exact IH2].
Qed.

Lemma stepwise_interleave (schedule : list nat) :
  forall (tasks : list Scheduler.prog) (d : db),
    Forall (stepwise R) tasks ->
    Forall (stepwise R) (fst (Scheduler.interleave schedule tasks d)) /\
    R d (snd (Scheduler.interleave schedule tasks d)).
Proof.
  unfold Scheduler.interleave.
  induction schedule as [|i s IH]; intros tasks d H; cbn [fold_left fst snd].
  - split; [exact H|apply R_refl].
  - destruct (stepwise_advance i tasks d H) as [H1 H2].
    destruct (Scheduler.advance i tasks d) as [tasks1 d1]. cbn [fst snd] in *.
    destruct (IH tasks1 d1 H1) as [H3 H4].
    split; [exact H3|]. exact (R_trans _ _ _ H2 H4).
Qed.

Lemma stepwise_settle (tasks : list Scheduler.prog) :
  Forall (stepwise R) tasks -> forall d, R d (Scheduler.settle tasks d).
Proof.
  unfold Scheduler.settle. induction 1 as [|t rest Ht _ IH]; intros d; cbn.
  - apply R_refl.
  - apply (R_trans _ (Scheduler.exec t d)); [now apply stepwise_exec|apply IH].
Qed.

(** Whatever the order of the statements, a tick takes the store to a
    state related to the one it started from. *)
Lemma stepwise_tick (now : time) (scrape : product -> outcome Scraper.ScrapeResult)
  (schedule : list nat) (d : db) :
  (forall d1 d2, tickEffect now (filter isActive (products d)) d1 d2 -> R d1 d2) ->
  R d (Scheduler.checkAllProductPrices now scrape schedule d).
Proof.
  intros H. unfold Scheduler.checkAllProductPrices.
  set (tasks := map (fun p => Scheduler.checkProgram now p (scrape p))
                    (filter isActive (products d))).
  assert (HT : Forall (stepwise R) tasks).
  { subst tasks. apply Forall_forall. intros t Ht. apply in_map_iff in Ht.
    destruct Ht as (p & <- & Hp).
    apply (stepwise_weaken (effect now p)); [|apply check_effects].
    intros d1 d2 E. apply H. now exists p. }
  destruct (stepwise_interleave schedule tasks d HT) as [H1 H2].
  apply (R_trans _ _ _ H2). now apply stepwise_settle.
Qed.

Lemma stepwise_check (now : time) (p : product)
  (scrape : outcome Scraper.ScrapeResult) (d : db) :
  (forall d1 d2, effect now p d1 d2 -> R d1 d2) ->
  R d (Scheduler.checkProductPrice now p scrape d).
Proof.
  intros H. rewrite <- exec_checkProgram. apply stepwise_exec.
  apply (stepwise_weaken (effect now p)); [exact H|apply check_effects].
Qed.

End Together.

(** With nothing interleaved, the tick is the checks one after the
    other. *)
Lemma tick_in_turn (now : time) (scrape : product -> outcome Scraper.ScrapeResult)
  (d : db) :
  Scheduler.checkAllProductPrices now scrape [] d
  = fold_left (fun acc p => Scheduler.checkProductPrice now p (scrape p) acc)
      (filter isActive (products d)) d.
Proof.
  unfold Scheduler.checkAllProductPrices, Scheduler.interleave, Scheduler.settle.
  cbn [fold_left fst snd]. generalize (filter isActive (products d)) as l.
  generalize d as acc. intros acc l. revert acc.
  induction l as [|p l IH]; intros acc; [reflexivity|].
  cbn [map fold_left]. rewrite exec_checkProgram. apply IH.
Qed.

(** ** The structure of a dispatch run *)

Lemma map_inBatch_nil (now : time) (l : list notification) :
  map (fun m => if inBatch [] m then delivered now m else m) l = l.
Proof.
  induction l as [|m l IH]; [reflexivity|].
  cbn [map]. rewrite IH. reflexivity.
Qed.

Lemma processPending_spec (now : time) (send : Notifications.notifier) :
  forall (batch : list notification) (d : db),
    let out := Notifications.processPending now send batch d in
    notifications (fst out)
    = map (fun m => if inBatch batch m then delivered now m else m) (notifications d)
    /\ products (fst out) = products d
    /\ priceHistory (fst out) = priceHistory d
    /\ nextId (fst out) = nextId d
    /\ sends (fst out) = sends d
    /\ snd out = map (fun n => Notifications.attemptOf (nMessage n) (nType n)) batch.
Proof.
  induction batch as [|n rest IH]; intros d; cbn zeta.
  - cbn [Notifications.processPending fst snd map]. rewrite map_inBatch_nil.
    repeat split.
  - cbn [Notifications.processPending].
    set (d1 := markSent now (fun m => nId m =? nId n) d).
    assert (Hd1 :
      match send (nMessage n) (Notifications.getNotificationTitle (nType n))
                 (Notifications.getNotificationPriority (nType n)) with
      | Ok _ => d1
      | Throw => d1
      end = d1) by (destruct (send _ _ _); reflexivity).
    rewrite Hd1. specialize (IH d1). cbn zeta in IH.
    destruct (Notifications.processPending now send rest d1) as [d2 log] eqn:E.
    cbn [fst snd] in *. destruct IH as (Hn & Hp & Hh & Hi & Hc & Hl).
    repeat split; try (subst d1; cbn in *; congruence).
    rewrite Hn. subst d1. cbn. rewrite map_map. apply map_ext. intros m.
    unfold inBatch. cbn [existsb].
    destruct (nId m =? nId n) eqn:Em; cbn [orb].
    + change (nId (delivered now m)) with (nId m).
      destruct (existsb _ rest); reflexivity.
    + reflexivity.
Qed.

(** A run marks the rows whose id is in its batch, and writes nothing
    else. *)
Lemma dispatch_spec (now : time) (send : Notifications.notifier)
  (scan : list notification) (d : db) :
  let out := Notifications.sendPendingNotifications now send scan d in
  notifications (fst out)
  = map (fun m => if inBatch (Notifications.pendingBatch scan) m
                  then delivered now m else m) (notifications d)
  /\ products (fst out) = products d
  /\ priceHistory (fst out) = priceHistory d
  /\ nextId (fst out) = nextId d
  /\ sends (fst out) = sends d
  /\ snd out = map (fun n => Notifications.attemptOf (nMessage n) (nType n))
                   (Notifications.pendingBatch scan).
Proof.
  cbn zeta. unfold Notifications.sendPendingNotifications.
  destruct (Notifications.pendingBatch scan) as [|n rest] eqn:Eb.
  - cbn [fst snd map]. rewrite map_inBatch_nil. repeat split.
  - apply (processPending_spec now send (n :: rest) d).
Qed.

Lemma dispatch_marks_batch (now : time) (send : Notifications.notifier)
  (scan : list notification) (d : db) :
  notifications (fst (Notifications.sendPendingNotifications now send scan d))
  = map (fun m => if inBatch (Notifications.pendingBatch scan) m
                  then delivered now m else m) (notifications d).
Proof. apply dispatch_spec. Qed.

Lemma dispatch_nextId (now : time) (send : Notifications.notifier)
  (scan : list notification) (d : db) :
  nextId (fst (Notifications.sendPendingNotifications now send scan d)) = nextId d.
Proof. apply dispatch_spec. Qed.

Lemma unsent_scan (d : db) (scan : list notification) :
  scans d scan ->
  Permutation (filter (fun n => negb (sent n)) scan) (pending d).
Proof. intros H. unfold pending. now apply Permutation_filter. Qed.

(** The batch is as large as the limit and the backlog allow. *)
Lemma pendingBatch_length (d : db) (scan : list notification) :
  scans d scan ->
  length (Notifications.pendingBatch scan) = Nat.min 10 (length (pending d)).
Proof.
  intros H. unfold Notifications.pendingBatch, Notifications.batchSize.
  rewrite length_firstn. now rewrite (Permutation_length (unsent_scan d scan H)).
Qed.

Lemma pendingBatch_In (d : db) (scan : list notification) (n : notification) :
  scans d scan -> In n (Notifications.pendingBatch scan) ->
  In n (notifications d) /\ sent n = false.
Proof.
  intros H Hn. unfold Notifications.pendingBatch in Hn. apply In_firstn in Hn.
  apply filter_In in Hn. destruct Hn as [Hin Hs].
  split; [exact (Permutation_in _ H Hin)|now destruct (sent n)].
Qed.

Lemma inBatch_true (batch : list notification) (m : notification) :
  inBatch batch m = true <-> exists n, In n batch /\ nId m = nId n.
Proof.
  unfold inBatch. rewrite existsb_exists. split; intros (n & Hn & E); exists n;
    (split; [exact Hn|]); now apply Nat.eqb_eq.
Qed.

(** What is pending after a run: the pending rows the batch did not
    name, in their order. *)
Lemma pending_after_dispatch (now : time) (send : Notifications.notifier)
  (scan : list notification) (d : db) :
  pending (fst (Notifications.sendPendingNotifications now send scan d))
  = filter (fun m => negb (inBatch (Notifications.pendingBatch scan) m)) (pending d).
Proof.
  unfold pending. rewrite dispatch_marks_batch.
  induction (notifications d) as [|m l IH]; [reflexivity|].
  cbn [map]. destruct (inBatch (Notifications.pendingBatch scan) m) eqn:E;
    cbn [filter delivered sent negb]; rewrite IH.
  - destruct (sent m); cbn [negb filter]; [reflexivity|]. now rewrite E.
  - destruct (sent m); cbn [negb filter]; [reflexivity|]. now rewrite E.
Qed.

Lemma NoDup_app_apart {A : Type} (a b : list A) (x : A) :
  NoDup (a ++ b) -> In x a -> In x b -> False.
Proof.
  induction a as [|y a IH]; cbn; [tauto|]. intros H [->|Hx] Hb.
  - inversion H as [|? ? Hn _]; subst. apply Hn. apply in_or_app. now right.
  - inversion H; subst. now apply IH.
Qed.

(** With distinct ids, the rows a prefix of a list does not name are the
    rest of the list. *)
Lemma outside_prefix (k : nat) (l : list notification) :
  NoDup (map nId l) ->
  filter (fun m => negb (inBatch (firstn k l) m)) l = skipn k l.
Proof.
  intros H. pose proof (firstn_skipn k l) as S.
  set (a := firstn k l) in *. set (b := skipn k l) in *.
  clearbody a b. subst l. rewrite map_app in H. rewrite filter_app.
  rewrite filter_empty, filter_full; [reflexivity| |].
  - intros x Hx. apply negb_true_iff.
    destruct (inBatch a x) eqn:E; [|reflexivity].
    apply inBatch_true in E. destruct E as (n & Hn & E).
    exfalso. apply (NoDup_app_apart _ _ (nId x) H).
    + rewrite E. now apply in_map.
    + now apply in_map.
  - intros x Hx. apply negb_false_iff. apply inBatch_true. now exists x.
Qed.

Lemma NoDup_pending (d : db) : wellKeyed d -> NoDup (map nId (pending d)).
Proof.
  intros [Hnd _]. unfold pending.
  induction (notifications d) as [|n l IH]; [constructor|].
  cbn in *. inversion Hnd as [|? ? Hx Hl]; subst.
  destruct (sent n); cbn; [now apply IH|].
  constructor; [|now apply IH].
  intros Hin. apply Hx. apply in_map_iff in Hin.
  destruct Hin as (m & Hm & Hf). apply filter_In in Hf.
  rewrite <- Hm. apply in_map. tauto.
Qed.

(** With a working key a run takes the whole batch off the backlog. *)
Lemma dispatch_takes (now : time) (send : Notifications.notifier)
  (scan : list notification) (d : db) :
  wellKeyed d -> scans d scan ->
  length (pending (fst (Notifications.sendPendingNotifications now send scan d)))
  = length (pending d) - Notifications.batchSize.
Proof.
  intros W H. rewrite pending_after_dispatch.
  pose proof (unsent_scan d scan H) as P.
  rewrite <- (Permutation_length
                (Permutation_filter
                   (fun m => negb (inBatch (Notifications.pendingBatch scan) m)) _ _ P)).
  unfold Notifications.pendingBatch. rewrite outside_prefix.
  - rewrite length_skipn. now rewrite (Permutation_length P).
  - apply (Permutation_NoDup (l := map nId (pending d)));
      [apply Permutation_map; now apply Permutation_sym|now apply NoDup_pending].
Qed.

(** When the scan returns the rows in table order, a run takes the
    first ten pending rows. *)
Lemma dispatch_drains (now : time) (send : Notifications.notifier) (d : db) :
  wellKeyed d ->
  pending (fst (Notifications.sendPendingNotifications now send (notifications d) d))
  = skipn Notifications.batchSize (pending d).
Proof.
  intros W. rewrite pending_after_dispatch. unfold Notifications.pendingBatch.
  apply outside_prefix. now apply NoDup_pending.
Qed.

(** ** Keys of the notifications table *)

Lemma wellKeyed_insert (now : time) (i : nat) (k : kind) (msg : message) (d : db) :
  wellKeyed d -> wellKeyed (insertNotification now i k msg d).
Proof.
  intros [Hnd Hlt]. split; cbn.
  - rewrite map_app. cbn. apply NoDup_app; [exact Hnd|repeat constructor; intros []|].
    intros x Hx [<-|[]]. apply in_map_iff in Hx. destruct Hx as (e & He & Hin).
    specialize (Hlt e Hin). lia.
  - intros e He. apply in_app_or in He. destruct He as [He|[<-|[]]].
    + specialize (Hlt e He). lia.
    + cbn. lia.
Qed.

Lemma wellKeyed_same (d d' : db) :
  notifications d' = notifications d -> nextId d' = nextId d ->
  wellKeyed d -> wellKeyed d'.
Proof. unfold wellKeyed. intros -> ->. tauto. Qed.

Lemma wellKeyed_update (f : notification -> notification) (d d' : db) :
  (forall n, nId (f n) = nId n) ->
  notifications d' = map f (notifications d) -> nextId d' = nextId d ->
  wellKeyed d -> wellKeyed d'.
Proof.
  intros Hf Hn Hi [Hnd Hlt]. unfold wellKeyed. rewrite Hn, Hi, map_map.
  rewrite (map_ext _ nId Hf). split; [exact Hnd|].
  intros e He. apply in_map_iff in He. destruct He as (x & <- & Hx).
  rewrite Hf. now apply Hlt.
Qed.

Lemma wellKeyed_effect (now : time) (p : product) (d d' : db) :
  effect now p d d' -> wellKeyed d -> wellKeyed d'.
Proof.
  intros [d0|d0 stored text available|d0 stored|d0 k msg] H;
    [exact H| | |now apply wellKeyed_insert];
    (apply (wellKeyed_same d0); [reflexivity|reflexivity|exact H]).
Qed.

Lemma wellKeyed_check (now : time) (p : product)
  (scrape : outcome Scraper.ScrapeResult) (d : db) :
  wellKeyed d -> wellKeyed (Scheduler.checkProductPrice now p scrape d).
Proof.
  apply (stepwise_check (fun d1 d2 => wellKeyed d1 -> wellKeyed d2)); auto.
  apply wellKeyed_effect.
Qed.

Lemma wellKeyed_tick (now : time) (scrape : product -> outcome Scraper.ScrapeResult)
  (schedule : list nat) (d : db) :
  wellKeyed d -> wellKeyed (Scheduler.checkAllProductPrices now scrape schedule d).
Proof.
  apply (stepwise_tick (fun d1 d2 => wellKeyed d1 -> wellKeyed d2)); auto.
  intros d1 d2 (p & _ & E). now apply (wellKeyed_effect now p).
Qed.

Lemma delivered_if_id (now : time) (w : notification -> bool) (n : notification) :
  nId (if w n then delivered now n else n) = nId n.
Proof. destruct (w n); reflexivity. Qed.

Lemma wellKeyed_markSent (now : time) (w : notification -> bool) (d : db) :
  wellKeyed d -> wellKeyed (markSent now w d).
Proof.
  apply (wellKeyed_update (fun n => if w n then delivered now n else n));
    [apply delivered_if_id|reflexivity|reflexivity].
Qed.

Lemma wellKeyed_dispatch (now : time) (send : Notifications.notifier)
  (scan : list notification) (d : db) :
  wellKeyed d ->
  wellKeyed (fst (Notifications.sendPendingNotifications now send scan d)).
Proof.
  apply (wellKeyed_update
           (fun m => if inBatch (Notifications.pendingBatch scan) m
                     then delivered now m else m));
    [intros n; apply delivered_if_id|apply dispatch_marks_batch|apply dispatch_nextId].
Qed.

(** ** Counting the observations of a tick *)









Section Counting.

Variable conn : value -> option string.





End Counting.




(** ** The scraping orchestrator (C5) *)

Section OrchestratorFacts.

Variable parseURL : string -> outcome Scraper.ParsedProduct.
Variable rendered static : string -> option string -> string -> outcome Scraper.ScrapeResult.

Lemma priced_some (o : outcome Scraper.ScrapeResult) (r : Scraper.ScrapeResult) :
  priced o = Some r -> o = Ok r /\ Scraper.price r <> None.
Proof.
  destruct o as [r0|]; cbn; [|discriminate].
  destruct (Scraper.price r0) eqn:E; [|discriminate].
  intros [= <-]. split; [reflexivity|congruence].
Qed.

(** C5: for a URL the parser accepts, the orchestrator runs the rendered
    attempt first and the static attempt second, returns the result of the
    first attempt that has a price (an attempt that throws counts as one
    without a price and the next one still runs), and returns a null price
    with the message "Unable to extract price with any method" exactly when
    neither attempt has a price. *)
Theorem C5_rendered_then_static :
  forall (url : string) (sel : option string) (parsed : Scraper.ParsedProduct),
    parseURL url = Ok parsed ->
    let first := rendered (Scraper.cleanUrl parsed) sel (Scraper.domain parsed) in
    let second := static (Scraper.cleanUrl parsed) sel (Scraper.domain parsed) in
    let out := Scraper.scrapePrice parseURL rendered static url sel in
    (forall r, priced first = Some r -> out = (Ok r, [Scraper.Rendered])) /\
    (forall r, priced first = None -> priced second = Some r ->
               out = (Ok r, [Scraper.Rendered; Scraper.Static])) /\
    (priced first = None -> priced second = None ->
     out = (Ok Scraper.noPrice, [Scraper.Rendered; Scraper.Static])) /\
    ((exists r, fst out = Ok r /\ Scraper.price r = None /\
                Scraper.error r = Some "Unable to extract price with any method"%string)
     <-> priced first = None /\ priced second = None).
Proof.
  intros url sel parsed Hparse first second out.
  assert (Hout : out =
    match priced first with
    | Some r => (Ok r, [Scraper.Rendered])
    | None =>
        match priced second with
        | Some r => (Ok r, [Scraper.Rendered; Scraper.Static])
        | None => (Ok Scraper.noPrice, [Scraper.Rendered; Scraper.Static])
        end
    end).
  { subst out. unfold Scraper.scrapePrice. rewrite Hparse. cbn.
    fold first second.
    destruct first as [r1|]; cbn.
    - destruct (Scraper.price r1); cbn; [reflexivity|].
      destruct second as [r2|]; cbn; [|reflexivity].
      destruct (Scraper.price r2); reflexivity.
    - destruct second as [r2|]; cbn; [|reflexivity].
      destruct (Scraper.price r2); reflexivity. }
  repeat split.
  - intros r H. now rewrite Hout, H.
  - intros r H1 H2. now rewrite Hout, H1, H2.
  - intros H1 H2. now rewrite Hout, H1, H2.
  - destruct H as (r & Hr & Hp & _). rewrite Hout in Hr.
    destruct (priced first) as [r1|] eqn:E1; [|reflexivity].
    apply priced_some in E1. cbn in Hr. injection Hr as <-. tauto.
  - destruct H as (r & Hr & Hp & _). rewrite Hout in Hr.
    destruct (priced first) as [r1|] eqn:E1.
    + apply priced_some in E1. cbn in Hr. injection Hr as <-. tauto.
    + destruct (priced second) as [r2|] eqn:E2; [|reflexivity].
      apply priced_some in E2. cbn in Hr. injection Hr as <-. tauto.
  - intros [H1 H2]. exists Scraper.noPrice. rewrite Hout, H1, H2.
    repeat split.
Qed.

End OrchestratorFacts.

Lemma C5_witness :
  Scraper.scrapePrice sampleParseURL sampleRendered sampleStatic
    "https://shop.example/p/1" None
  = (Ok sampleStaticResult, [Scraper.Rendered; Scraper.Static]).
Proof.
  apply (C5_rendered_then_static sampleParseURL sampleRendered sampleStatic
           "https://shop.example/p/1" None
           {| Scraper.cleanUrl := "https://shop.example/p/1";
              Scraper.domain := "shop.example";
              Scraper.store := "shop.example (Generic)" |} eq_refl);
    reflexivity.
Defined.
(** ** A check without a price (C6) *)

(** C6: a check whose extraction yields a null price appends no
    PriceObservation, leaves the monitor's row (current price, last-checked
    time) as it was and creates no notification: the whole state is the one
    before the check, so the next tick selects the monitor again. *)
Theorem C6_null_price_changes_nothing :
  forall (now : time) (p : product) (r : Scraper.ScrapeResult) (d : db),
    Scraper.price r = None ->
    let d' := Scheduler.checkProductPrice now p (Ok r) d in
    priceHistory d' = priceHistory d /\
    products d' = products d /\
    notifications d' = notifications d /\
    d' = d /\
    filter isActive (products d') = filter isActive (products d).
Proof.
  intros now p r d Hnull. cbn zeta.
  unfold Scheduler.checkProductPrice. rewrite Hnull. repeat split.
Qed.

Lemma C6_witness :
  Scraper.price Scraper.noPrice = None /\
  Scheduler.checkProductPrice 2000%Z sampleProduct (Ok Scraper.noPrice) sampleDb
  = sampleDb.
Proof.
  split; [reflexivity|].
  apply (C6_null_price_changes_nothing 2000%Z sampleProduct Scraper.noPrice sampleDb).
  reflexivity.
Defined.

(** ** Dispatch of pending notifications (C8) *)

(** C8: a dispatch run takes ten undelivered events, or all of them when
    fewer than ten are undelivered, whatever the order in which the
    database returns the rows; it calls the notifier once for each of
    them, in the order of the batch, and marks each of them sent with the
    time of the run whatever the notifier did: returned true, returned
    false or threw.  Rows outside the batch are untouched, and no row of
    the batch is in the batch of a later run. *)
Theorem C8_dispatch_marks_whole_batch :
  forall (now : time) (send : Notifications.notifier) (scan : list notification)
         (d : db),
    scans d scan ->
    let batch := Notifications.pendingBatch scan in
    let out := Notifications.sendPendingNotifications now send scan d in
    length batch = Nat.min 10 (length (pending d)) /\
    (forall n, In n batch -> In n (notifications d) /\ sent n = false) /\
    snd out = map (fun n => Notifications.attemptOf (nMessage n) (nType n)) batch /\
    notifications (fst out)
    = map (fun m => if inBatch batch m then delivered now m else m) (notifications d) /\
    (forall m, In m (notifications (fst out)) -> inBatch batch m = true ->
               sent m = true /\ sentAt m = Some now) /\
    (forall n, In n batch ->
               exists m, In m (notifications (fst out)) /\ nId m = nId n /\
                         sent m = true /\ sentAt m = Some now) /\
    (forall scan' m n,
        scans (fst out) scan' -> In m (Notifications.pendingBatch scan') ->
        In n batch -> nId m <> nId n) /\
    (forall later send' scan' scan'' m n,
        scans (fst out) scan' ->
        scans (fst (Notifications.sendPendingNotifications later send' scan' (fst out)))
              scan'' ->
        In m (Notifications.pendingBatch scan'') ->
        In n batch -> nId m <> nId n).
Proof.
  intros now send scan d Hscan batch out.
  destruct (dispatch_spec now send scan d) as (Hn & _ & _ & _ & _ & Hlog).
  fold batch out in Hn, Hlog.
  assert (Hmarked : forall m, In m (notifications (fst out)) ->
                              sent m = false -> inBatch batch m = false).
  { intros m Hm Hs. rewrite Hn in Hm. apply in_map_iff in Hm.
    destruct Hm as (m0 & Hm0 & _).
    destruct (inBatch batch m0) eqn:E; subst m.
    - cbn in Hs. discriminate.
    - assumption. }
  assert (Hpending : forall scan' m n,
            scans (fst out) scan' -> In m (Notifications.pendingBatch scan') ->
            In n batch -> nId m <> nId n).
  { intros scan' m n Hscan' Hm Hnb Heq.
    destruct (pendingBatch_In (fst out) scan' m Hscan' Hm) as [Hin Hs].
    pose proof (Hmarked m Hin Hs) as Hf.
    assert (Ht : inBatch batch m = true) by (apply inBatch_true; now exists n).
    congruence. }
  split; [now apply pendingBatch_length|].
  split; [intros n; now apply pendingBatch_In|].
  split; [exact Hlog|]. split; [exact Hn|].
  split.
  { intros m Hm Hb. rewrite Hn in Hm. apply in_map_iff in Hm.
    destruct Hm as (m0 & Hm0 & _).
    destruct (inBatch batch m0) eqn:E; subst m; [split; reflexivity|congruence]. }
  split.
  { intros n Hnb. exists (delivered now n).
    destruct (pendingBatch_In d scan n Hscan Hnb) as [Hin _].
    split; [|repeat split]. rewrite Hn. apply in_map_iff. exists n.
    split; [|exact Hin].
    assert (Ht : inBatch batch n = true) by (apply inBatch_true; now exists n).
    now rewrite Ht. }
  split; [exact Hpending|].
  intros later send' scan' scan'' m n Hscan' Hscan'' Hm Hnb Heq.
  set (d1 := fst out) in *.
  destruct (pendingBatch_In _ scan'' m Hscan'' Hm) as [Hin Hs].
  rewrite dispatch_marks_batch in Hin. apply in_map_iff in Hin.
  destruct Hin as (m0 & Hm0 & Hin0).
  destruct (inBatch (Notifications.pendingBatch scan') m0) eqn:E; subst m.
  - cbn in Hs. discriminate.
  - pose proof (Hmarked m0 Hin0 Hs) as Hf.
    assert (Ht : inBatch batch m0 = true) by (apply inBatch_true; now exists n).
    congruence.
Qed.

(** The backlog of three events is delivered in one run even by a notifier
    that throws on every message, in the order the rows came back. *)
Example dispatch_with_throwing_notifier :
  map (fun n => (nId n, sent n, sentAt n))
      (notifications
         (fst (Notifications.sendPendingNotifications 500%Z sampleSendThrows
                 sampleScan sampleBacklog)))
  = [(1, true, Some 500%Z); (2, true, Some 500%Z); (3, true, Some 500%Z)]
  /\ snd (Notifications.sendPendingNotifications 500%Z sampleSendThrows
            sampleScan sampleBacklog)
     = map (fun n => Notifications.attemptOf (nMessage n) (nType n)) sampleScan.
Proof. split; reflexivity. Qed.

Lemma C8_witness :
  scans sampleBacklog sampleScan /\
  length (Notifications.pendingBatch sampleScan) = 3 /\
  notifications
    (fst (Notifications.sendPendingNotifications 500%Z sampleSendThrows sampleScan
            sampleBacklog))
  = map (fun m => if inBatch (Notifications.pendingBatch sampleScan) m
                  then delivered 500%Z m else m)
        (notifications sampleBacklog).
Proof.
  assert (H : scans sampleBacklog sampleScan)
    by (unfold scans, sampleScan; apply Permutation_sym, Permutation_rev).
  split; [exact H|]. split; [reflexivity|].
  apply (C8_dispatch_marks_whole_batch 500%Z sampleSendThrows sampleScan sampleBacklog H).
Defined.

(** ** Immediate notifications (C10) *)

(** C10: when [createAndSendNotification] is called with [immediate] set and
    the send returns (delivered or not), the insert is followed by an update
    that marks as sent, with the time of the call, every notification row of
    that product: the row just inserted and every older row of the product,
    of any kind, delivered or not.  Rows of other products are untouched. *)
Theorem C10_immediate_marks_all_rows_of_product :
  forall (now : time) (send : Notifications.notifier) (productId : nat)
         (type : kind) (msg : message) (d : db) (took : bool),
    send msg (Notifications.getNotificationTitle type)
             (Notifications.getNotificationPriority type) = Ok took ->
    let out := Notifications.createAndSendNotification now send productId type msg true d in
    let d' := fst (fst out) in
    let inserted :=
      {| nId := nextId d; nProductId := productId; nType := type; nMessage := msg;
         sent := false; sentAt := None; createdAt := now |} in
    snd (fst out) = Ok tt /\
    snd out = [Notifications.attemptOf msg type] /\
    notifications d'
    = map (fun n => if nProductId n =? productId then delivered now n else n)
          (notifications d ++ [inserted]) /\
    (forall n, In n (notifications d) -> nProductId n = productId ->
               In (delivered now n) (notifications d')) /\
    (forall n, In n (notifications d') -> nProductId n = productId ->
               sent n = true /\ sentAt n = Some now) /\
    (forall n, In n (notifications d) -> nProductId n <> productId ->
               In n (notifications d')).
Proof.
  intros now send productId type msg d took Hsend out d' inserted.
  assert (Hn : notifications d'
    = map (fun n => if nProductId n =? productId then delivered now n else n)
          (notifications d ++ [inserted])).
  { subst d' out. unfold Notifications.createAndSendNotification.
    rewrite Hsend. reflexivity. }
  split; [|split; [|split; [exact Hn|split; [|split]]]].
  - subst out. unfold Notifications.createAndSendNotification. now rewrite Hsend.
  - subst out. unfold Notifications.createAndSendNotification. now rewrite Hsend.
  - intros n Hin Hp. rewrite Hn. apply in_map_iff. exists n.
    split; [|apply in_or_app; now left].
    apply Nat.eqb_eq in Hp. now rewrite Hp.
  - intros n Hin Hp. rewrite Hn in Hin. apply in_map_iff in Hin.
    destruct Hin as (n0 & Hn0 & _).
    destruct (nProductId n0 =? productId) eqn:E; subst n.
    + split; reflexivity.
    + apply Nat.eqb_neq in E. contradiction.
  - intros n Hin Hp. rewrite Hn. apply in_map_iff. exists n.
    split; [|apply in_or_app; now left].
    apply Nat.eqb_neq in Hp. now rewrite Hp.
Qed.

(** On the sample backlog a new, immediately sent price drop of product 1
    also marks the two older events of product 1 as sent; the event of
    product 2 stays pending. *)
Lemma C10_witness :
  sampleSendFails (Text "now 80") (Notifications.getNotificationTitle price_drop)
                  (Notifications.getNotificationPriority price_drop) = Ok false /\
  map (fun n => (nId n, nProductId n, sent n))
      (notifications
         (fst (fst (Notifications.createAndSendNotification 500%Z sampleSendFails 1
                      price_drop (Text "now 80") true sampleBacklog))))
  = [(1, 1, true); (2, 2, false); (3, 1, true); (4, 1, true)].
Proof.
  split; [reflexivity|].
  pose proof (C10_immediate_marks_all_rows_of_product 500%Z sampleSendFails 1
                price_drop (Text "now 80") sampleBacklog false eq_refl) as H.
  cbn zeta in H. destruct H as (_ & _ & H & _). rewrite H. reflexivity.
Defined.

(** ** Events are kept (C9) *)

Lemma flipOnly_refl (n : notification) : flipOnly n n.
Proof. unfold flipOnly. tauto. Qed.

Lemma flipOnly_trans (a b c : notification) :
  flipOnly a b -> flipOnly b c -> flipOnly a c.
Proof. unfold flipOnly. intuition congruence. Qed.

Lemma flipOnly_delivered (now : time) (n : notification) :
  flipOnly n (delivered now n).
Proof. unfold flipOnly. cbn. tauto. Qed.

Lemma Forall2_flipOnly_refl (l : list notification) : Forall2 flipOnly l l.
Proof. induction l; constructor; auto using flipOnly_refl. Qed.

Lemma Forall2_flipOnly_map (f : notification -> notification) (l : list notification) :
  (forall n, flipOnly n (f n)) -> Forall2 flipOnly l (map f l).
Proof. intros H. induction l; cbn; constructor; auto. Qed.

Lemma Forall2_flipOnly_trans (l1 l2 l3 : list notification) :
  Forall2 flipOnly l1 l2 -> Forall2 flipOnly l2 l3 -> Forall2 flipOnly l1 l3.
Proof.
  intros H. revert l3. induction H as [|a b l1 l2 Hab _ IH]; intros l3 H23.
  - inversion H23. constructor.
  - inversion H23 as [|b' c l2' l3' Hbc Hrest]; subst.
    constructor; [eapply flipOnly_trans; eassumption|now apply IH].
Qed.

Lemma kept_refl (d : db) : kept d d.
Proof.
  exists (notifications d), []. split; [now rewrite app_nil_r|].
  apply Forall2_flipOnly_refl.
Qed.

Lemma kept_trans (d1 d2 d3 : db) : kept d1 d2 -> kept d2 d3 -> kept d1 d3.
Proof.
  intros (o1 & n1 & E1 & F1) (o2 & n2 & E2 & F2).
  rewrite E1 in F2. apply Forall2_app_inv_l in F2.
  destruct F2 as (a & b & Fa & Fb & ->).
  exists a, (b ++ n2)%list. split; [now rewrite E2, app_assoc|].
  eapply Forall2_flipOnly_trans; eassumption.
Qed.

Lemma kept_appended (d d' : db) (new : list notification) :
  notifications d' = (notifications d ++ new)%list -> kept d d'.
Proof.
  intros H. exists (notifications d), new. split; [assumption|].
  apply Forall2_flipOnly_refl.
Qed.

Lemma kept_markSent (now : time) (w : notification -> bool) (d : db) :
  kept d (markSent now w d).
Proof.
  exists (notifications (markSent now w d)), []. split; [now rewrite app_nil_r|].
  cbn. apply Forall2_flipOnly_map. intros n.
  destruct (w n); [apply flipOnly_delivered|apply flipOnly_refl].
Qed.

Lemma kept_effect (now : time) (p : product) (d d' : db) :
  effect now p d d' -> kept d d'.
Proof.
  intros [d0|d0 stored text available|d0 stored|d0 k msg];
    [apply kept_refl| | |eapply kept_appended; cbn; reflexivity];
    (apply kept_appended with (new := []); cbn; now rewrite app_nil_r).
Qed.

Lemma kept_check (now : time) (p : product)
  (scrape : outcome Scraper.ScrapeResult) (d : db) :
  kept d (Scheduler.checkProductPrice now p scrape d).
Proof.
  apply (stepwise_check kept kept_refl kept_trans). apply kept_effect.
Qed.

Lemma kept_tick (now : time) (scrape : product -> outcome Scraper.ScrapeResult)
  (schedule : list nat) (d : db) :
  kept d (Scheduler.checkAllProductPrices now scrape schedule d).
Proof.
  apply (stepwise_tick kept kept_refl kept_trans).
  intros d1 d2 (p & _ & E). now apply (kept_effect now p).
Qed.

Lemma kept_dispatch (now : time) (send : Notifications.notifier)
  (scan : list notification) (d : db) :
  kept d (fst (Notifications.sendPendingNotifications now send scan d)).
Proof.
  pose proof (dispatch_marks_batch now send scan d) as H.
  exists (notifications (fst (Notifications.sendPendingNotifications now send scan d))), [].
  split; [now rewrite app_nil_r|]. rewrite H.
  apply Forall2_flipOnly_map. intros n.
  destruct (inBatch _ n); [apply flipOnly_delivered|apply flipOnly_refl].
Qed.

Lemma kept_runOp (op : coreOp) (d : db) : kept d (runOp op d).
Proof.
  destruct op as [now p scrape|now scrape schedule|now scrape productId|cut
                 |now send scan|now send productId type msg immediate]; cbn [runOp].
  - apply kept_check.
  - apply kept_tick.
  - unfold Scheduler.checkSingleProduct.
    destruct (filter _ (products d)); [apply kept_refl|apply kept_check].
  - apply kept_appended with (new := []). cbn. now rewrite app_nil_r.
  - apply kept_dispatch.
  - unfold Notifications.createAndSendNotification.
    destruct immediate; cbn [fst].
    + destruct (send _ _ _); cbn [fst].
      * eapply kept_trans; [|apply kept_markSent].
        eapply kept_appended. cbn. reflexivity.
      * eapply kept_appended. cbn. reflexivity.
    + eapply kept_appended. cbn. reflexivity.
Qed.

(** C9: no operation of the scheduler or of the notification service
    removes a NotificationEvent.  After any sequence of price checks (one
    product, all products, a manual check), retention runs, dispatch runs
    and immediate sends, every event that was in the table is still there,
    in place, with the same id, product, kind, message and creation time;
    at most it went from undelivered to delivered and got a delivery time.
    Removal exists only in the housekeeping behind the cleanup endpoint,
    which deletes delivered events. *)
Theorem C9_core_never_deletes_events :
  (forall (ops : list coreOp) (d : db), kept d (runOps ops d)) /\
  (forall (ops : list coreOp) (d : db) (n : notification),
      In n (notifications d) ->
      exists n', In n' (notifications (runOps ops d)) /\ flipOnly n n') /\
  ~ kept (fst (Notifications.sendPendingNotifications 500%Z sampleSendFails
                 (notifications sampleBacklog) sampleBacklog))
         (Notifications.cleanupOldNotifications
            (fst (Notifications.sendPendingNotifications 500%Z sampleSendFails
                    (notifications sampleBacklog) sampleBacklog))).
Proof.
  assert (Hkept : forall ops d, kept d (runOps ops d)).
  { unfold runOps. induction ops as [|op ops IH]; intros d; cbn [fold_left].
    - apply kept_refl.
    - eapply kept_trans; [apply kept_runOp|apply IH]. }
  split; [exact Hkept|split].
  - intros ops d n Hin. destruct (Hkept ops d) as (old & new & E & F).
    rewrite E. clear E. induction F as [|a b l l' Hab _ IH].
    + inversion Hin.
    + destruct Hin as [->|Hin].
      * exists b. split; [now left|assumption].
      * destruct (IH Hin) as (n' & Hn' & Hf). exists n'. split; [now right|assumption].
  - intros (old & new & E & F). cbn in E.
    destruct old; [inversion F|discriminate].
Qed.

(** ** Stock notices (C7) *)

(** What decides the stock notice of a check that recorded its price is
    whether the selected row has a current price, not what the last
    observation said about stock. *)
Lemma stock_notice_level_triggered (now : time) (p : product)
  (r : Scraper.ScrapeResult) (c newPrice : number) (d : db) :
  currentPrice p = Some c ->
  Scraper.price r = Some newPrice ->
  storable (sends d) newPrice (Scraper.currency r) = true ->
  Scraper.isAvailable r = false ->
  emits back_in_stock (id p) d (Scheduler.checkProductPrice now p (Ok r) d) = true.
Proof.
  intros Hc Hp Hs Ha.
  destruct (check_recorded now p r newPrice d Hp Hs) as (stored & text & _ & _ & ->).
  set (d2 := recordedState now p r stored text d).
  destruct (priceDrop_appends now p newPrice d2) as (_ & _ & new3 & H3 & _).
  set (d3 := Scheduler.priceDropStep now p newPrice d2) in *.
  destruct (checkTarget_appends now p (currentPrice p) newPrice d3) as (_ & _ & H4).
  set (d4 := Scheduler.checkTargetPriceNotification now p (currentPrice p) newPrice d3) in *.
  assert (H4' : exists new4, notifications d4 = (notifications d ++ new4)%list).
  { destruct H4 as [->|(T & _ & ->)].
    - now exists new3.
    - cbn [notifications insertNotification]. rewrite H3.
      eexists. rewrite <- app_assoc. reflexivity. }
  destruct H4' as [new4 H4'].
  unfold Scheduler.stockStep. rewrite Ha, Hc.
  unfold emits, added, Scheduler.createNotification.
  cbn [notifications insertNotification]. rewrite H4', <- app_assoc.
  rewrite skipn_app, Nat.sub_diag, skipn_all. cbn [app skipn].
  rewrite existsb_app. apply orb_true_iff. right.
  cbn. now rewrite Nat.eqb_refl.
Qed.

(** C7 on the code: a monitor that had a price is out of stock on two
    consecutive checks and back on the third.  The first check emits the
    out-of-stock notice, the second emits it again although nothing
    changed, and the return to stock emits no notice at all. *)
Theorem C7_stock_notice_repeats_while_unavailable :
  let d1 := tickWith 2000%Z (listed false) sampleDb in
  let d2 := tickWith 3000%Z (listed false) d1 in
  let d3 := tickWith 4000%Z (listed true) d2 in
  emits back_in_stock 1 sampleDb d1 = true /\
  emits back_in_stock 1 d1 d2 = true /\
  map nMessage (added d1 d2) = [OutOfStockMsg "Kettle"] /\
  emits back_in_stock 1 d2 d3 = false /\
  added d2 d3 = [].
Proof. cbn zeta. repeat split; vm_compute; reflexivity. Qed.

(** ** Availability (C4) *)

Lemma scanOffers_summary (name : value) :
  forall offers r,
    Scraper.scanOffers name offers = Ok (Some r) ->
    exists p c, r = Scraper.productInfo p c name.
Proof.
  induction offers as [|offer rest IH]; intros r; cbn [Scraper.scanOffers].
  - discriminate.
  - destruct (get offer "price") as [p|]; cbn [bindO]; [|discriminate].
    destruct (get offer "lowPrice") as [lp|]; cbn [bindO]; [|discriminate].
    destruct (truthy (orElse p lp)).
    + destruct (get offer "priceCurrency") as [c|]; cbn [bindO]; [|discriminate].
      intros [= <-]. now exists (orElse p lp), c.
    + apply IH.
Qed.

Lemma productBranch_summary (d r : value) :
  Scraper.productBranch d = Ok (Some r) ->
  exists p c n, r = Scraper.productInfo p c n.
Proof.
  unfold Scraper.productBranch.
  destruct (get d "@type") as [t|]; cbn [bindO]; [|discriminate].
  destruct (Scraper.isProductType t); [|discriminate].
  destruct (get d "offers") as [offers|]; cbn [bindO]; [|discriminate].
  destruct (get d "name") as [name|]; cbn [bindO]; [|discriminate].
  destruct (if truthy offers then _ else _) as [[r0|]|] eqn:E; cbn [bindO];
    [| |discriminate].
  - intros [= <-]. destruct (truthy offers); [|discriminate].
    apply scanOffers_summary in E. destruct E as (p & c & ->). now exists p, c, name.
  - destruct (get d "price") as [p|]; cbn [bindO]; [|discriminate].
    destruct (truthy p); [|discriminate].
    destruct (get d "priceCurrency") as [c|]; cbn [bindO]; [|discriminate].
    intros [= <-]. now exists p, c, name.
Qed.

Lemma firstTruthy_summary (rec : value -> outcome value) (l : list value) :
  Forall (fun x => forall r, rec x = Ok r -> isSummary r) l ->
  forall r, Scraper.firstTruthy rec l = Ok r -> isSummary r.
Proof.
  induction 1 as [|x l Hx _ IH]; intros r; cbn [Scraper.firstTruthy].
  - intros [= <-]. now left.
  - destruct (rec x) as [r0|] eqn:E; cbn [bindO]; [|discriminate].
    destruct (truthy r0); [|apply IH].
    intros [= <-]. now apply Hx.
Qed.

Lemma searchNested_summary (rec : value -> outcome value) (l : list (string * value)) :
  Forall (fun kv => forall r, rec (snd kv) = Ok r -> isSummary r) l ->
  forall r, Scraper.searchNested rec l = Ok r -> isSummary r.
Proof.
  induction 1 as [|[k v] l Hx _ IH]; intros r; cbn [Scraper.searchNested].
  - intros [= <-]. now left.
  - destruct (isObjectLike v); [|apply IH].
    destruct (rec v) as [r0|] eqn:E; cbn [bindO]; [|discriminate].
    destruct (truthy r0); [|apply IH].
    intros [= <-]. now apply Hx.
Qed.

Lemma searchGraph_summary (rec : value -> outcome value) (nested : outcome value)
  (l : list (string * value)) :
  (forall r, nested = Ok r -> isSummary r) ->
  Forall (fun kv => forall r, rec (snd kv) = Ok r -> isSummary r) l ->
  forall r, Scraper.searchGraph rec nested l = Ok r -> isSummary r.
Proof.
  intros Hn. induction 1 as [|[k v] l Hx _ IH]; intros r; cbn [Scraper.searchGraph].
  - apply Hn.
  - destruct (String.eqb "@graph" k); [|apply IH].
    destruct (truthy v); [apply Hx|apply Hn].
Qed.

Lemma findProductInJsonLd_summary :
  forall d r, Scraper.findProductInJsonLd d = Ok r -> isSummary r.
Proof.
  induction d as [| | | | |xs IH|kvs IH] using value_nested_ind; intros r;
    cbn [Scraper.findProductInJsonLd];
    try (intros [= <-]; now left).
  - now apply firstTruthy_summary.
  - destruct (Scraper.productBranch (Obj kvs)) as [[r0|]|] eqn:E; cbn [bindO];
      [| |discriminate].
    + intros [= <-]. right. now apply productBranch_summary in E.
    + apply searchGraph_summary; [|assumption].
      now apply searchNested_summary.
Qed.

(** The availability callback of the static path never finds offers: the
    summary it reads them from has none. *)
Lemma availabilityStep_blind (script : outcome value) :
  Scraper.availabilityStep script = Ok None \/ Scraper.availabilityStep script = Throw.
Proof.
  unfold Scraper.availabilityStep.
  destruct script as [j|]; cbn [bindO]; [|now right].
  destruct (Scraper.findProductInJsonLd j) as [r|] eqn:E; cbn [bindO]; [|now right].
  apply findProductInJsonLd_summary in E.
  destruct E as [->|(p & c & n & ->)]; cbn; now left.
Qed.

Lemma static_classifier_ignores_structured_data (d : Scraper.document) :
  Scraper.classify d = Scraper.availabilityFromPage d.
Proof.
  unfold Scraper.classify.
  assert (H : Scraper.availabilityFromJsonLD Scraper.availabilityStep (Scraper.jsonLd d)
              = None).
  { induction (Scraper.jsonLd d) as [|s l IH]; cbn [Scraper.availabilityFromJsonLD].
    - reflexivity.
    - destruct (availabilityStep_blind s) as [-> | ->]; assumption. }
  now rewrite H.
Qed.

(** C4 on the code: the page whose JSON-LD offer has the availability
    https://schema.org/OutOfStock is classified as in stock by the static
    path, because its classifier never gets to see an offer: for every
    document it answers what the button and product-area scans answer.  The
    classifier of the rendered path, which searches the Product object
    itself, classifies the same page as out of stock. *)
Theorem C4_static_path_misses_structured_availability :
  Scraper.classify outOfStockPage = true /\
  Scraper.classifyRendered outOfStockPage = false /\
  (forall d : Scraper.document,
      Scraper.classify d = Scraper.availabilityFromPage d).
Proof.
  split; [vm_compute; reflexivity|].
  split; [vm_compute; reflexivity|].
  exact static_classifier_ignores_structured_data.
Qed.

(** ** The selector fallback (C3) *)

Lemma find_app_first {A : Type} (f : A -> bool) (l1 l2 : list A) :
  find f (l1 ++ l2) = match find f l1 with Some x => Some x | None => find f l2 end.
Proof.
  induction l1 as [|x l1 IH]; cbn; [reflexivity|].
  destruct (f x); [reflexivity|exact IH].
Qed.

Lemma Qltb_lt (x y : Q) : Qltb x y = true <-> (x < y)%Q.
Proof.
  unfold Qltb. rewrite negb_true_iff. split.
  - intros H. apply Qnot_le_lt. intros Hle.
    apply Qle_bool_iff in Hle. congruence.
  - intros H. destruct (Qle_bool y x) eqn:E; [|reflexivity].
    apply Qle_bool_iff in E. exfalso. now apply (Qlt_not_le x y).
Qed.

Lemma inBounds_iff (n : number) :
  Scraper.inBounds n = true <->
  exists q, n = Fin q /\ (0 < q)%Q /\ (q < 1000000)%Q.
Proof.
  unfold Scraper.inBounds, gt, ofZ. split.
  - destruct n as [| | |q]; cbn; try discriminate.
    intros H. apply andb_true_iff in H. destruct H as [H0 H1].
    exists q. split; [reflexivity|]. split; now apply Qltb_lt.
  - intros (q & -> & H0 & H1). cbn.
    apply Qltb_lt in H0. apply Qltb_lt in H1.
    change (inject_Z 0) with 0%Q. change (inject_Z 1000000) with 1000000%Q.
    now rewrite H0, H1.
Qed.

Lemma scanMatches_find (ms : list string) :
  Scraper.scanMatches ms = find Scraper.inBounds (map Scraper.candidate ms).
Proof.
  induction ms as [|m ms IH]; cbn; [reflexivity|].
  destruct (Scraper.inBounds (Scraper.candidate m)); [reflexivity|exact IH].
Qed.

Lemma scanPatterns_find (ps : list Regex.regex) (t : string) :
  Scraper.scanPatterns ps t
  = find Scraper.inBounds
      (flat_map (fun pattern => map Scraper.candidate (Regex.matchAll pattern t)) ps).
Proof.
  induction ps as [|p ps IH]; cbn [Scraper.scanPatterns flat_map]; [reflexivity|].
  rewrite find_app_first, <- scanMatches_find.
  destruct (Scraper.scanMatches _); [reflexivity|exact IH].
Qed.

Lemma selectorPrice_find (els : list Scraper.element) :
  Scraper.selectorPrice els = find Scraper.inBounds (candidatesInOrder els).
Proof.
  unfold candidatesInOrder.
  induction els as [|e els IH]; cbn [Scraper.selectorPrice flat_map]; [reflexivity|].
  rewrite find_app_first. unfold candidatesOf at 1. rewrite <- scanPatterns_find.
  destruct (Scraper.scanPatterns _ _); [reflexivity|exact IH].
Qed.

(** C3: the selector fallback reads each match as the number left after the
    separators are stripped (1,237.00 gives 1237), takes the first candidate
    in scan order that is finite, above 0 and below 1,000,000, and passes
    over every other candidate: the scan goes on with the next match, the
    next pattern and the next element, the patterns being tried in the
    order $-prefixed, $-suffixed, currency-code-prefixed, bare number. *)
Theorem C3_selector_fallback_first_in_bounds :
  (forall els, Scraper.selectorPrice els
               = find Scraper.inBounds (candidatesInOrder els)) /\
  (forall n, Scraper.inBounds n = true <->
             exists q, n = Fin q /\ (0 < q)%Q /\ (q < 1000000)%Q) /\
  (forall els n, Scraper.selectorPrice els = Some n ->
     In n (candidatesInOrder els) /\
     exists q, n = Fin q /\ (0 < q)%Q /\ (q < 1000000)%Q) /\
  (forall els, Scraper.selectorPrice els = None <->
     forall n, In n (candidatesInOrder els) -> Scraper.inBounds n = false) /\
  Scraper.candidate "1,237.00" = Fin 1237 /\
  Scraper.selectorPrice [el "1,237.00"] = Some (Fin 1237) /\
  candidatesOf "9 AUD 5 or 7$ or $3" = [Fin 3; Fin 7; Fin 5; Fin 9; Fin 5; Fin 7; Fin 3] /\
  Scraper.selectorPrice [el "$0 and $2,000,000"; el "was 0, now AUD 12.50"]
  = Some (Fin (25 # 2)).
Proof.
  split; [exact selectorPrice_find|].
  split; [exact inBounds_iff|].
  split; [|split].
  - intros els n H. rewrite selectorPrice_find in H.
    apply find_some in H. destruct H as [Hin Hb].
    split; [assumption|now apply inBounds_iff].
  - intros els. rewrite selectorPrice_find. split.
    + intros H n Hin. destruct (Scraper.inBounds n) eqn:E; [|reflexivity].
      now rewrite (find_none _ _ H n Hin) in E.
    + intros H. destruct (find _ _) as [n|] eqn:E; [|reflexivity].
      apply find_some in E. destruct E as [Hin Hb].
      rewrite (H n Hin) in Hb. discriminate.
  - repeat split; vm_compute; reflexivity.
Qed.

(** ** The order of the strategies (C2) *)

Lemma orStr_nonempty (a b : option string) :
  (exists s, b = Some s /\ s <> EmptyString) ->
  exists s, Scraper.orStr a b = Some s /\ s <> EmptyString.
Proof.
  intros Hb. destruct a as [s|]; cbn; [|assumption].
  destruct (String.eqb_spec s EmptyString); [assumption|].
  now exists s.
Qed.

Lemma getDefaultSelector_nonempty (domain : string) :
  Scraper.getDefaultSelector domain <> EmptyString.
Proof.
  unfold Scraper.getDefaultSelector.
  destruct (Scraper.assoc domain Scraper.domainSelectors) as [s|]; cbn.
  - destruct (String.eqb_spec s EmptyString); [|assumption]. discriminate.
  - discriminate.
Qed.

(** The structured-data loop of the rendered path yields nothing, whatever
    the scripts hold. *)
Lemma jsonLdPriceRendered_none (scripts : list (outcome value)) :
  Scraper.jsonLdPriceRendered scripts = None.
Proof.
  induction scripts as [|s l IH]; [reflexivity|]. cbn [Scraper.jsonLdPriceRendered].
  unfold Scraper.jsonLdStepRendered. destruct s; cbn [bindO]; exact IH.
Qed.

(** The strategies of the static path, in their order: each runs only when
    the ones before it gave no price, and the selector is only looked at by
    the last. *)
Lemma extractPrice_in_order (d : Scraper.document) (sel : string) :
  Scraper.extractPrice d sel
  = match Scraper.jsonLdPrice (Scraper.jsonLd d) with
    | Some (n, c) => Ok (Some n, if truthy c then c else Str "AUD")
    | None =>
        match Scraper.metaPrice d with
        | Some (n, Some c) => Ok (Some n, Str c)
        | Some (n, None) => Ok (Some n, Str "AUD")
        | None =>
            if Scraper.parses d sel
            then Ok (Scraper.selectorPrice (Scraper.select d sel), Str "AUD")
            else Throw
        end
    end.
Proof.
  unfold Scraper.extractPrice.
  destruct (Scraper.jsonLdPrice _) as [[n c]|]; [reflexivity|].
  destruct (Scraper.metaPrice d) as [[n [c|]]|]; reflexivity.
Qed.

(** C2 on the code.  The page [graphPage] has a JSON-LD block whose graph
    holds a Product with an offer of 1237.50 EUR, and meta tags and a price
    element that say 99.  The pipeline returns 99 AUD from the rendered
    attempt: the structured-data loop of that attempt yields nothing on any
    page, so its extraction is the one of the page without its scripts.
    The static attempt alone returns the offer.  In the static attempt the
    three strategies run in the order of the claim, but the structured
    price is taken as [parseFloat] reads it, without the separator
    stripping and the number test of the other two strategies (an offer of
    1,237.00 is returned as 1), and a [null] entry in the offers of a
    Product makes the block count as one without a Product (the meta price
    20 is returned for a Product that offers 10 USD). *)
Theorem C2_rendered_attempt_passes_over_structured_data :
  offersPrice graphPage (Fin (2475 # 2)) (Str "EUR") /\
  pipeline graphPage None
  = (Ok {| Scraper.price := Some (ofZ 99); Scraper.currency := Str "AUD";
           Scraper.isAvailable := true; Scraper.error := None |},
     [Scraper.Rendered]) /\
  (forall (d : Scraper.document) (sel : string),
      Scraper.extractPriceRendered d sel
      = Scraper.extractPriceRendered (withoutScripts d) sel) /\
  Scraper.scrapeWithCheerio (Ok graphPage) None None "shop.example"
  = Ok {| Scraper.price := Some (Fin (2475 # 2)); Scraper.currency := Str "EUR";
          Scraper.isAvailable := true; Scraper.error := None |} /\
  (forall (d : Scraper.document) (sel : string),
      Scraper.extractPrice d sel
      = match Scraper.jsonLdPrice (Scraper.jsonLd d) with
        | Some (n, c) => Ok (Some n, if truthy c then c else Str "AUD")
        | None =>
            match Scraper.metaPrice d with
            | Some (n, Some c) => Ok (Some n, Str c)
            | Some (n, None) => Ok (Some n, Str "AUD")
            | None =>
                if Scraper.parses d sel
                then Ok (Scraper.selectorPrice (Scraper.select d sel), Str "AUD")
                else Throw
            end
        end) /\
  (offerPrice separatorOffer = Str "1,237.00" /\
   parseFloat (Scraper.stripCommas "1,237.00") = ofZ 1237 /\
   pipeline separatorPage None
   = (Ok {| Scraper.price := Some (ofZ 1); Scraper.currency := Str "AUD";
            Scraper.isAvailable := true; Scraper.error := None |},
      [Scraper.Rendered; Scraper.Static])) /\
  (offersPrice nullOfferPage (ofZ 10) (Str "USD") /\
   Scraper.scrapeWithCheerio (Ok nullOfferPage) None None "shop.example"
   = Ok {| Scraper.price := Some (ofZ 20); Scraper.currency := Str "AUD";
           Scraper.isAvailable := true; Scraper.error := None |}).
Proof.
  split.
  { exists graphBlock, graphProduct, graphOffer.
    split; [cbn; tauto|]. split.
    - apply Contains_graph. cbn.
      apply (Contains_item _ graphProduct); [cbn; tauto|apply Contains_here].
    - split; [now apply Offers_single|]. split; vm_compute; reflexivity. }
  split; [vm_compute; reflexivity|].
  split.
  { intros d sel. unfold Scraper.extractPriceRendered.
    now rewrite !jsonLdPriceRendered_none. }
  split; [vm_compute; reflexivity|].
  split; [exact extractPrice_in_order|].
  split; [repeat split; vm_compute; reflexivity|].
  split; [|vm_compute; reflexivity].
  exists productWithNullOffer, productWithNullOffer, offerOfTen.
  split; [cbn; tauto|]. split; [apply Contains_here|].
  split; [|split; vm_compute; reflexivity].
  apply (Offers_listed _ [Null; offerOfTen]); [reflexivity|reflexivity|cbn; tauto|reflexivity].
Qed.

(** ** Target-reached events (C1) *)

(** No comparison with NaN holds. *)
Lemma NaN_compares (T : number) :
  le NaN T = false /\ gt NaN T = false /\ lt NaN T = false.
Proof. unfold gt. destruct T; repeat split. Qed.

(** A check whose extraction returned NaN, for a product with a target
    that had no price or a price above the target and has no
    target-reached event yet: the target step inserts the event. *)
Lemma unnumbered_price_reaches_target (now : time) (p : product) (T : number)
  (r : Scraper.ScrapeResult) (d : db) :
  targetPrice p = Some T ->
  Scraper.price r = Some NaN ->
  storable (sends d) NaN (Scraper.currency r) = true ->
  (currentPrice p = None \/ exists c, currentPrice p = Some c /\ gt c T = true) ->
  eventsOf (id p) d = [] ->
  emits target_reached (id p) d (Scheduler.checkProductPrice now p (Ok r) d) = true.
Proof.
  intros HT Hprice Hs Hprior Hnone.
  destruct (check_recorded now p r NaN d Hprice Hs) as (stored & text & _ & _ & ->).
  set (d2 := recordedState now p r stored text d).
  assert (E3 : Scheduler.priceDropStep now p NaN d2 = d2).
  { unfold Scheduler.priceDropStep. destruct (currentPrice p) as [c|]; [|reflexivity].
    now rewrite (proj2 (proj2 (NaN_compares c))). }
  rewrite E3.
  assert (E4 : Scheduler.checkTargetPriceNotification now p (currentPrice p) NaN d2
               = insertNotification now (id p) target_reached
                   (TargetReachedMsg (name p) NaN T) d2).
  { unfold Scheduler.checkTargetPriceNotification. rewrite HT.
    rewrite (proj1 (proj2 (NaN_compares T))).
    assert (Hc : Scheduler.isCrossingThreshold (currentPrice p) T = true).
    { unfold Scheduler.isCrossingThreshold.
      destruct Hprior as [->|(c & -> & Hgt)]; [reflexivity|].
      rewrite Hgt. apply orb_true_r. }
    rewrite Hc. cbn [negb]. unfold Scheduler.recentNotifications.
    change (filter (Scheduler.isTargetReachedOf (id p)) (notifications d2))
      with (eventsOf (id p) d).
    rewrite Hnone. reflexivity. }
  rewrite E4.
  destruct (stock_appends now p r NaN
              (insertNotification now (id p) target_reached
                 (TargetReachedMsg (name p) NaN T) d2)) as (_ & _ & new & Hn & _).
  cbn zeta in Hn. cbn [notifications insertNotification] in Hn.
  change (notifications d2) with (notifications d) in Hn.
  rewrite <- app_assoc in Hn.
  rewrite (emits_appended _ _ _ _ _ Hn). cbn [app existsb].
  now rewrite Nat.eqb_refl.
Qed.

(** C1 on the code.  The page [callForPricePage] gives its price in JSON-LD
    as the text "Call for price"; the structured-data strategy returns
    what [parseFloat] makes of it, NaN, as the price.  The check records
    NaN as an observation and as the current price and emits a
    target-reached event, although NaN is not at or below the target of
    100; so does every check with such a result, for a product with a
    target, with no price or a price above the target, and without an
    earlier target-reached event.  A current price of 0 counts as no
    price: after an observation of 0, an observation of 80 emits the
    event although the prior price was not above the target.  On the two
    price sequences of the claim the events are the ones it names. *)
Theorem C1_unnumbered_price_reaches_target :
  pipeline callForPricePage None
  = (Ok callForPriceResult, [Scraper.Rendered; Scraper.Static]) /\
  le NaN (ofZ 100) = false /\
  (let d' := Scheduler.checkProductPrice 2000%Z sampleProduct (Ok callForPriceResult)
               sampleDb in
   emits target_reached 1 sampleDb d' = true /\
   map phPrice (observationsOf 1 d') = [ofZ 150; NaN] /\
   currentPricesOf 1 d' = [Some NaN]) /\
  (forall (now : time) (p : product) (T : number) (r : Scraper.ScrapeResult) (d : db),
      targetPrice p = Some T ->
      Scraper.price r = Some NaN ->
      storable (sends d) NaN (Scraper.currency r) = true ->
      (currentPrice p = None \/ exists c, currentPrice p = Some c /\ gt c T = true) ->
      eventsOf (id p) d = [] ->
      le NaN T = false /\
      emits target_reached (id p) d (Scheduler.checkProductPrice now p (Ok r) d)
      = true) /\
  (let d1 := observeAll 1 [0]%Z createdDb in
   let d2 := observeAll 2 [80]%Z d1 in
   currentPricesOf 1 d1 = [Some (ofZ 0)] /\
   gt (ofZ 0) (ofZ 100) = false /\
   eventsOf 1 d1 = [] /\
   emits target_reached 1 d1 d2 = true) /\
  (let d := observeAll 1 [150; 90; 95; 80]%Z newDb in
   map (fun h => (scrapedAt h, phPrice h)) (observationsOf 1 d)
   = [(1800000, ofZ 150); (3600000, ofZ 90); (5400000, ofZ 95); (7200000, ofZ 80)]%Z /\
   map createdAt (eventsOf 1 d) = [3600000%Z]) /\
  (let d := observeAll 1 [150; 90; 120; 80]%Z newDb in
   map (fun h => (scrapedAt h, phPrice h)) (observationsOf 1 d)
   = [(1800000, ofZ 150); (3600000, ofZ 90); (5400000, ofZ 120); (7200000, ofZ 80)]%Z /\
   map createdAt (eventsOf 1 d) = [3600000%Z; 7200000%Z]).
Proof.
  split; [vm_compute; reflexivity|].
  split; [reflexivity|].
  split; [cbn zeta; repeat split; vm_compute; reflexivity|].
  split.
  { intros now p T r d HT Hprice Hs Hprior Hnone.
    split; [apply NaN_compares|].
    now apply (unnumbered_price_reaches_target now p T r d). }
  split; [cbn zeta; repeat split; vm_compute; reflexivity|].
  split; cbn zeta; split; vm_compute; reflexivity.
Qed.

(** * Further properties of the scheduler *)

(** ** The events of a check *)



Lemma NoDup_kinds (drop mid stock : list notification) :
  length drop <= 1 -> length mid <= 1 -> length stock <= 1 ->
  (forall e, In e drop -> nType e = price_drop) ->
  (forall e, In e mid -> nType e = target_reached) ->
  (forall e, In e stock -> nType e = back_in_stock) ->
  NoDup (map nType (drop ++ mid ++ stock)).
Proof.
  intros Hd Hm Hs Kd Km Ks.
  assert (Ed : map nType drop = [] \/ map nType drop = [price_drop]).
  { destruct drop as [|e [|? ?]]; cbn in *; [now left| |lia].
    right. now rewrite (Kd e (or_introl eq_refl)). }
  assert (Em : map nType mid = [] \/ map nType mid = [target_reached]).
  { destruct mid as [|e [|? ?]]; cbn in *; [now left| |lia].
    right. now rewrite (Km e (or_introl eq_refl)). }
  assert (Es : map nType stock = [] \/ map nType stock = [back_in_stock]).
  { destruct stock as [|e [|? ?]]; cbn in *; [now left| |lia].
    right. now rewrite (Ks e (or_introl eq_refl)). }
  rewrite !map_app.
  destruct Ed as [-> | ->], Em as [-> | ->], Es as [-> | ->]; cbn;
    repeat constructor; cbn; intuition discriminate.
Qed.

Lemma posted_refl (now : time) (ps : list product) (d : db) : posted now ps d d.
Proof.
  exists []. cbn. rewrite app_nil_r, Nat.add_0_r.
  split; [reflexivity|]. split; [reflexivity|]. split; [reflexivity|]. intros ? [].
Qed.

Lemma posted_trans (now : time) (ps : list product) (d1 d2 d3 : db) :
  posted now ps d1 d2 -> posted now ps d2 d3 -> posted now ps d1 d3.
Proof.
  intros (a & Na & Ia & Sa & Ha) (b & Nb & Ib & Sb & Hb).
  exists (a ++ b)%list. rewrite Nb, Na, Ib, Ia, <- app_assoc, length_app, map_app.
  split; [reflexivity|]. split; [lia|].
  split; [rewrite seq_app, Sa, Sb, Ia; reflexivity|].
  intros e He. apply in_app_or in He. destruct He; auto.
Qed.

Lemma posted_effect (now : time) (ps : list product) (p : product) (d d' : db) :
  In p ps -> effect now p d d' -> posted now ps d d'.
Proof.
  intros Hp [d0|d0 stored text available|d0 stored|d0 k msg];
    try apply posted_refl;
    try (exists []; cbn; rewrite app_nil_r, Nat.add_0_r;
         split; [reflexivity|]; split; [reflexivity|]; split; [reflexivity|];
         intros ? []).
  eexists. split; [reflexivity|]. cbn. split; [lia|]. split; [reflexivity|].
  intros e [<-|[]]. cbn.
  split; [reflexivity|]. split; [reflexivity|]. split; [reflexivity|]. now exists p.
Qed.

Lemma posted_fresh (now : time) (ps : list product) (d d' : db) :
  posted now ps d d' ->
  notifications d' = (notifications d ++ added d d')%list /\
  nextId d' = nextId d + length (added d d') /\
  NoDup (map nId (added d d')) /\
  forall e, In e (added d d') ->
    nextId d <= nId e < nextId d' /\
    sent e = false /\ sentAt e = None /\ createdAt e = now /\
    exists p, In p ps /\ nProductId e = id p.
Proof.
  intros (new & Hn & Hi & Hs & Hall). rewrite (added_appended _ _ _ Hn).
  split; [exact Hn|]. split; [exact Hi|].
  split; [rewrite Hs; apply seq_NoDup|].
  intros e He. split; [|now apply Hall].
  assert (Hin : In (nId e) (seq (nextId d) (length new)))
    by (rewrite <- Hs; now apply in_map).
  apply in_seq in Hin. lia.
Qed.

(** X2.  A check whose statements run with no other statement between
    them only appends to the notifications table: at most one event of
    each kind, hence at most three, for the checked product, undelivered,
    created at the time of the check, with ids of their own from the
    sequence.  A tick, whatever the order in which the statements of its
    checks reach the database, only appends events too: each is
    undelivered, created at the time of the tick, for a product that was
    active when the tick began, with an id of its own from the sequence. *)
Theorem check_adds_one_event_per_kind_at_most (now : time) :
  (forall (p : product) (scrape : outcome Scraper.ScrapeResult) (d : db),
     let d' := Scheduler.checkProductPrice now p scrape d in
     let new := added d d' in
     notifications d' = (notifications d ++ new)%list /\
     NoDup (map nType new) /\ length new <= 3 /\
     NoDup (map nId new) /\
     nextId d' = nextId d + length new /\
     forall e, In e new ->
       nextId d <= nId e < nextId d' /\
       nProductId e = id p /\ sent e = false /\ sentAt e = None /\
       createdAt e = now) /\
  (forall (scrape : product -> outcome Scraper.ScrapeResult) (schedule : list nat)
          (d : db),
     let d' := Scheduler.checkAllProductPrices now scrape schedule d in
     let new := added d d' in
     notifications d' = (notifications d ++ new)%list /\
     NoDup (map nId new) /\
     nextId d' = nextId d + length new /\
     forall e, In e new ->
       nextId d <= nId e < nextId d' /\
       sent e = false /\ sentAt e = None /\ createdAt e = now /\
       exists p, In p (products d) /\ isActive p = true /\ nProductId e = id p).
Proof.
  split.
  - intros p scrape d. cbn zeta.
    assert (P : posted now [p] d (Scheduler.checkProductPrice now p scrape d)).
    { apply (stepwise_check (posted now [p]) (posted_refl now [p])
               (posted_trans now [p])).
      intros d1 d2. apply posted_effect. now left. }
    destruct (posted_fresh _ _ _ _ P) as (Hn & Hi & Hnd & Hall).
    split; [exact Hn|].
    assert (K : NoDup (map nType (added d (Scheduler.checkProductPrice now p scrape d)))
                /\ length (added d (Scheduler.checkProductPrice now p scrape d)) <= 3).
    { destruct (recordable (sends d) scrape) eqn:R.
      - destruct (recordable_true _ _ R) as (r & n & -> & Hprice & S).
        destruct (check_notices now p r n d Hprice S)
          as (drop & mid & stock & Hn' & _ & Hld & Hlm & Hls & _ & Hd & Hm & Hs & _).
        rewrite (added_appended _ _ _ Hn').
        split; [|rewrite !length_app; lia].
        apply NoDup_kinds; auto; intros e He;
          [apply (Hd e He)|apply (Hm e He)|apply (Hs e He)].
      - rewrite (check_quiet now p scrape d R).
        rewrite (added_appended d d []) by now rewrite app_nil_r.
        split; [constructor|cbn; lia]. }
    destruct K as [K1 K2].
    split; [exact K1|]. split; [exact K2|]. split; [exact Hnd|]. split; [exact Hi|].
    intros e He. destruct (Hall e He) as (H1 & H2 & H3 & H4 & q & [<-|[]] & H5).
    tauto.
  - intros scrape schedule d. cbn zeta.
    assert (P : posted now (filter isActive (products d)) d
                  (Scheduler.checkAllProductPrices now scrape schedule d)).
    { apply (stepwise_tick (posted now (filter isActive (products d)))
               (posted_refl now _) (posted_trans now _)).
      intros d1 d2 (p & Hp & E). now apply (posted_effect now _ p). }
    destruct (posted_fresh _ _ _ _ P) as (Hn & Hi & Hnd & Hall).
    split; [exact Hn|]. split; [exact Hnd|]. split; [exact Hi|].
    intros e He. destruct (Hall e He) as (H1 & H2 & H3 & H4 & q & Hq & H5).
    apply filter_In in Hq. split; [exact H1|]. split; [exact H2|].
    split; [exact H3|]. split; [exact H4|]. exists q. tauto.
Qed.

(** ** What a check and a tick leave alone *)

Lemma effect_settings (now : time) (p : product) (d d' : db) :
  effect now p d d' -> map settings (products d') = map settings (products d).
Proof.
  intros [d0|d0 stored text available|d0 stored|d0 k msg]; try reflexivity.
  cbn. rewrite map_map. apply map_ext. intros q.
  destruct (id q =? id p); reflexivity.
Qed.

Lemma effect_frame (now : time) (p : product) (i : nat) (d d' : db) :
  i <> id p -> effect now p d d' -> rowsOf i d' = rowsOf i d.
Proof.
  intros Hi [d0|d0 stored text available|d0 stored|d0 k msg]; [reflexivity| | |];
    unfold rowsOf, productRows, priceRows, noticeRows; cbn.
  - rewrite filter_app. cbn.
    assert (F : (id p =? i) = false) by (apply Nat.eqb_neq; congruence).
    rewrite F. now rewrite app_nil_r.
  - f_equal. f_equal.
    induction (products d0) as [|q l IH]; [reflexivity|]. cbn [map filter].
    destruct (id q =? id p) eqn:E.
    + apply Nat.eqb_eq in E. cbn [id].
      assert (F : (id q =? i) = false) by (apply Nat.eqb_neq; congruence).
      rewrite F. exact IH.
    + destruct (id q =? i); [f_equal|]; exact IH.
  - rewrite filter_app. cbn.
    assert (F : (id p =? i) = false) by (apply Nat.eqb_neq; congruence).
    rewrite F. now rewrite app_nil_r.
Qed.

Lemma check_frame (now : time) (p : product)
  (scrape : outcome Scraper.ScrapeResult) (d : db) :
  let d' := Scheduler.checkProductPrice now p scrape d in
  map settings (products d') = map settings (products d) /\
  forall i, i <> id p -> rowsOf i d' = rowsOf i d.
Proof.
  cbn zeta. split.
  - apply (stepwise_check
             (fun d1 d2 => map settings (products d2) = map settings (products d1)));
      [reflexivity|intros; congruence|apply effect_settings].
  - intros i Hi.
    apply (stepwise_check (fun d1 d2 => rowsOf i d2 = rowsOf i d1));
      [reflexivity|intros; congruence|]. intros d1 d2. now apply effect_frame.
Qed.

Lemma tick_frame (now : time) (scrape : product -> outcome Scraper.ScrapeResult)
  (schedule : list nat) (i : nat) (d : db) :
  (forall q, In q (products d) -> id q = i -> isActive q = false) ->
  rowsOf i (Scheduler.checkAllProductPrices now scrape schedule d) = rowsOf i d.
Proof.
  intros H.
  apply (stepwise_tick (fun d1 d2 => rowsOf i d2 = rowsOf i d1));
    [reflexivity|intros; congruence|].
  intros d1 d2 (p & Hp & E). apply (effect_frame now p); [|exact E].
  intros ->. apply filter_In in Hp. destruct Hp as [Hp Ha].
  rewrite (H p Hp eq_refl) in Ha. discriminate.
Qed.

(** X3.  A check changes nothing a user set on any product (id, name, URL,
    selector, target price, active flag), and it leaves every row of every
    other product as it was, in all three tables. *)
Theorem check_touches_own_product_only (now : time) (p : product)
  (scrape : outcome Scraper.ScrapeResult) (d : db) :
  let d' := Scheduler.checkProductPrice now p scrape d in
  map settings (products d') = map settings (products d) /\
  forall i, i <> id p -> rowsOf i d' = rowsOf i d.
Proof. exact (check_frame now p scrape d). Qed.

(** X4.  A price-check tick passes over paused products: when every row
    with id [i] is inactive, the tick leaves all rows of product [i]
    (product, observations, events) as they were, whatever the order in
    which the statements of its checks run. *)
Theorem tick_skips_inactive_products (now : time)
  (scrape : product -> outcome Scraper.ScrapeResult) (schedule : list nat)
  (i : nat) (d : db) :
  (forall q, In q (products d) -> id q = i -> isActive q = false) ->
  rowsOf i (Scheduler.checkAllProductPrices now scrape schedule d) = rowsOf i d.
Proof. exact (tick_frame now scrape schedule i d). Qed.

Lemma tick_skips_inactive_products_witness :
  rowsOf 2 (Scheduler.checkAllProductPrices 2000%Z (fun _ => Ok sampleStaticResult)
              [0; 0; 0] sampleShelf)
  = rowsOf 2 sampleShelf.
Proof.
  apply (tick_skips_inactive_products 2000%Z (fun _ => Ok sampleStaticResult)
           [0; 0; 0] 2 sampleShelf).
  intros q [<-|[<-|[]]]; cbn; [discriminate|reflexivity].
Defined.


(** ** Retention of the price history *)

Lemma retention_filter (a b : time) (l : list priceRow) :
  filter (fun h => negb (scrapedAt h <? a)%Z)
    (filter (fun h => negb (scrapedAt h <? b)%Z) l)
  = filter (fun h => negb (scrapedAt h <? Z.max a b)%Z) l.
Proof.
  induction l as [|h l IH]; [reflexivity|]. cbn [filter].
  destruct (scrapedAt h <? b)%Z eqn:B; cbn [negb filter].
  - apply Z.ltb_lt in B.
    assert (M : (scrapedAt h <? Z.max a b)%Z = true) by (apply Z.ltb_lt; lia).
    rewrite M. exact IH.
  - apply Z.ltb_ge in B.
    destruct (scrapedAt h <? a)%Z eqn:A.
    + apply Z.ltb_lt in A.
      assert (M : (scrapedAt h <? Z.max a b)%Z = true) by (apply Z.ltb_lt; lia).
      rewrite M. exact IH.
    + apply Z.ltb_ge in A.
      assert (M : (scrapedAt h <? Z.max a b)%Z = false) by (apply Z.ltb_ge; lia).
      rewrite M. cbn [negb]. f_equal. exact IH.
Qed.

(** X6.  A retention run deletes the observations scraped before the date
    it computed as ninety days ago, and nothing else: an observation taken
    exactly at that date is kept, and products and events are untouched.
    Two runs compose to one run with the later of their dates, so a second
    run with the same date changes nothing. *)
Theorem retention_runs_compose (a b : time) (d : db) :
  Scheduler.cleanupOldPriceHistory a (Scheduler.cleanupOldPriceHistory b d)
  = Scheduler.cleanupOldPriceHistory (Z.max a b) d
  /\ Scheduler.cleanupOldPriceHistory a (Scheduler.cleanupOldPriceHistory a d)
     = Scheduler.cleanupOldPriceHistory a d
  /\ (forall h,
        In h (priceHistory (Scheduler.cleanupOldPriceHistory a d))
        <-> In h (priceHistory d) /\ (a <= scrapedAt h)%Z)
  /\ products (Scheduler.cleanupOldPriceHistory a d) = products d
  /\ notifications (Scheduler.cleanupOldPriceHistory a d) = notifications d.
Proof.
  assert (C : forall x y,
    Scheduler.cleanupOldPriceHistory x (Scheduler.cleanupOldPriceHistory y d)
    = Scheduler.cleanupOldPriceHistory (Z.max x y) d).
  { intros x y. unfold Scheduler.cleanupOldPriceHistory. cbn.
    now rewrite retention_filter. }
  split; [apply C|]. split; [rewrite C, Z.max_id; reflexivity|].
  split; [|split; reflexivity].
  intros h. cbn. rewrite filter_In, negb_true_iff, Z.ltb_ge. reflexivity.
Qed.

(** ** When a target event can be emitted *)

Lemma checkTarget_quiet_no_target (now : time) (p : product)
  (cur : option number) (n : number) (d : db) :
  targetPrice p = None -> Scheduler.checkTargetPriceNotification now p cur n d = d.
Proof. intros H. unfold Scheduler.checkTargetPriceNotification. now rewrite H. Qed.

Lemma checkTarget_quiet_above (now : time) (p : product)
  (cur : option number) (n T : number) (d : db) :
  targetPrice p = Some T -> gt n T = true ->
  Scheduler.checkTargetPriceNotification now p cur n d = d.
Proof. intros H G. unfold Scheduler.checkTargetPriceNotification. now rewrite H, G. Qed.

Lemma checkTarget_quiet_under (now : time) (p : product) (c n T : number) (d : db) :
  targetPrice p = Some T -> truthyNum c = true -> gt c T = false ->
  Scheduler.checkTargetPriceNotification now p (Some c) n d = d.
Proof.
  intros H Hc G. unfold Scheduler.checkTargetPriceNotification. rewrite H.
  destruct (gt n T); [reflexivity|]. unfold Scheduler.isCrossingThreshold.
  now rewrite Hc, G.
Qed.

(** X7.  In every state of the store, a check emits a target-reached
    event only when it extracted a price that is not above the target of
    the row it was given, and that row had no current price, a current
    price that is 0 or not a number, or a current price above the target. *)
Theorem target_event_needs_a_crossing (now : time) (p : product)
  (scrape : outcome Scraper.ScrapeResult) (d : db) :
  emits target_reached (id p) d (Scheduler.checkProductPrice now p scrape d) = true ->
  exists r n T,
    scrape = Ok r /\ Scraper.price r = Some n /\ targetPrice p = Some T /\
    gt n T = false /\
    (currentPrice p = None \/
     exists c, currentPrice p = Some c /\ (truthyNum c = false \/ gt c T = true)).
Proof.
  intros H. destruct (recordable (sends d) scrape) eqn:Hp;
    [|rewrite (check_quiet now p scrape d Hp), emits_nothing_new in H; discriminate].
  destruct (recordable_true _ _ Hp) as (r & n & -> & Hprice & S).
  destruct (check_recorded now p r n d Hprice S) as (stored & text & _ & _ & E).
  set (d2 := recordedState now p r stored text d) in *.
  assert (Q : Scheduler.checkTargetPriceNotification now p (currentPrice p) n
                (Scheduler.priceDropStep now p n d2)
              = Scheduler.priceDropStep now p n d2 ->
              False).
  { intros Q. rewrite E, Q in H.
    destruct (priceDrop_appends now p n d2) as (_ & _ & drop & Hn3 & Hd).
    destruct (stock_appends now p r n (Scheduler.priceDropStep now p n d2))
      as (_ & _ & stock & Hn5 & Hs).
    cbn zeta in Hn3, Hn5. rewrite Hn3 in Hn5.
    change (notifications d2) with (notifications d) in Hn5.
    rewrite <- app_assoc in Hn5.
    rewrite (emits_appended _ _ _ _ _ Hn5), existsb_app in H.
    rewrite (existsb_none _ drop), (existsb_none _ stock) in H; [discriminate| |].
    - intros e He. destruct (Hs e He) as [-> _]. apply andb_false_r.
    - intros e He. destruct (Hd e He) as [-> _]. apply andb_false_r. }
  exists r, n.
  destruct (targetPrice p) as [T|] eqn:HT;
    [|destruct Q; now apply checkTarget_quiet_no_target].
  exists T. split; [reflexivity|]. split; [exact Hprice|]. split; [reflexivity|].
  destruct (gt n T) eqn:G; [destruct Q; now apply (checkTarget_quiet_above _ _ _ _ T)|].
  split; [reflexivity|].
  destruct (currentPrice p) as [c|]; [|now left]. right. exists c.
  split; [reflexivity|].
  destruct (truthyNum c) eqn:Hc; [|now left]. right.
  destruct (gt c T) eqn:G'; [reflexivity|].
  destruct Q. now apply (checkTarget_quiet_under _ _ _ _ T).
Qed.

Lemma target_event_needs_a_crossing_witness :
  exists r n T,
    Ok sampleStaticResult = Ok r /\ Scraper.price r = Some n /\
    targetPrice sampleProduct = Some T /\ gt n T = false /\
    (currentPrice sampleProduct = None \/
     exists c, currentPrice sampleProduct = Some c /\
               (truthyNum c = false \/ gt c T = true)).
Proof.
  apply (target_event_needs_a_crossing 2000%Z sampleProduct (Ok sampleStaticResult)
           sampleDb).
  reflexivity.
Defined.

(** ** Keys of the notifications table, and draining it *)

(** X8.  The serial key stays a key: if the ids of the notifications table
    are distinct and below the next value of the sequence, they are so
    after any operation of the scheduler and the notification service. *)
Theorem core_keeps_notification_ids_unique (op : coreOp) (d : db) :
  wellKeyed d -> wellKeyed (runOp op d).
Proof.
  intros H. destruct op as [now p scrape|now scrape schedule|now scrape i|cut
                            |now send scan|now send i k msg immediate]; cbn [runOp].
  - now apply wellKeyed_check.
  - now apply wellKeyed_tick.
  - unfold Scheduler.checkSingleProduct.
    destruct (filter (fun p => id p =? i) (products d)); [exact H|].
    now apply wellKeyed_check.
  - apply (wellKeyed_same d); [reflexivity|reflexivity|exact H].
  - now apply wellKeyed_dispatch.
  - unfold Notifications.createAndSendNotification.
    destruct immediate; [|now apply wellKeyed_insert].
    destruct (send msg _ _); cbn [fst].
    + apply wellKeyed_markSent. now apply wellKeyed_insert.
    + now apply wellKeyed_insert.
Qed.

Lemma core_keeps_notification_ids_unique_witness :
  wellKeyed (runOp (CheckProduct 2000%Z sampleProduct (Ok sampleStaticResult)) sampleBacklog).
Proof.
  apply (core_keeps_notification_ids_unique
           (CheckProduct 2000%Z sampleProduct (Ok sampleStaticResult)) sampleBacklog).
  split.
  - cbn. repeat constructor; cbn; intuition discriminate.
  - intros e [<-|[<-|[<-|[]]]]; cbn; lia.
Defined.

Lemma dispatch_runs_take (runs : list dispatchRun) :
  forall d, wellKeyed d -> scansFit runs d ->
    length (pending (dispatchRuns runs d))
    = length (pending d) - Notifications.batchSize * length runs.
Proof.
  unfold dispatchRuns. induction runs as [|run runs IH]; intros d W F.
  - cbn [fold_left length]. lia.
  - destruct F as [F1 F2]. cbn [fold_left length].
    rewrite IH; [|unfold dispatch; now apply wellKeyed_dispatch|exact F2].
    unfold dispatch. rewrite dispatch_takes by assumption.
    unfold Notifications.batchSize. lia.
Qed.

Lemma dispatch_runs_subset (runs : list dispatchRun) :
  forall d m, In m (pending (dispatchRuns runs d)) -> In m (pending d).
Proof.
  unfold dispatchRuns. induction runs as [|run runs IH]; intros d m H; [exact H|].
  cbn [fold_left] in H. apply IH in H. unfold dispatch in H.
  rewrite pending_after_dispatch in H. apply filter_In in H. tauto.
Qed.

(** X9.  With a working key, every dispatch run takes ten events off the
    backlog, or all of them when fewer are left, whichever rows the
    database returns first and whatever the push service does: after [n]
    runs in a row the backlog is shorter by [10 * n], what is left of it
    was pending before, and a backlog of at most [10 * n] events is
    empty. *)
Theorem dispatch_runs_drain_the_backlog (runs : list dispatchRun) (d : db) :
  wellKeyed d -> scansFit runs d ->
  length (pending (dispatchRuns runs d))
  = length (pending d) - Notifications.batchSize * length runs
  /\ (forall m, In m (pending (dispatchRuns runs d)) -> In m (pending d))
  /\ (length (pending d) <= Notifications.batchSize * length runs ->
      pending (dispatchRuns runs d) = []).
Proof.
  intros W F. pose proof (dispatch_runs_take runs d W F) as E.
  split; [exact E|]. split; [apply dispatch_runs_subset|].
  intros Hlen. apply length_zero_iff_nil. rewrite E. lia.
Qed.

Lemma dispatch_runs_drain_the_backlog_witness :
  length (pending (dispatchRuns [(50%Z, sampleSendThrows, sampleScan)] sampleBacklog))
  = length (pending sampleBacklog) - Notifications.batchSize * 1
  /\ (forall m,
        In m (pending (dispatchRuns [(50%Z, sampleSendThrows, sampleScan)] sampleBacklog)) ->
        In m (pending sampleBacklog))
  /\ (length (pending sampleBacklog) <= Notifications.batchSize * 1 ->
      pending (dispatchRuns [(50%Z, sampleSendThrows, sampleScan)] sampleBacklog) = []).
Proof.
  apply (dispatch_runs_drain_the_backlog [(50%Z, sampleSendThrows, sampleScan)]
           sampleBacklog).
  - split.
    + cbn. repeat constructor; cbn; intuition discriminate.
    + intros e [<-|[<-|[<-|[]]]]; cbn; lia.
  - split; [|exact I]. unfold scans, sampleScan. cbn [snd].
    apply Permutation_sym, Permutation_rev.
Defined.

(** * Further properties of the scraper *)

(** ** The in-page product search *)

Lemma firstTruthy_total (Q : value -> Prop) (rec : value -> outcome value)
  (l : list value) :
  Q Null ->
  Forall (fun x => exists r, rec x = Ok r /\ Q r) l ->
  exists r, Scraper.firstTruthy rec l = Ok r /\ Q r.
Proof.
  intros Q0. induction 1 as [|x l (r0 & E & Hr) _ IH]; cbn [Scraper.firstTruthy].
  - now exists Null.
  - rewrite E. cbn [bindO]. destruct (truthy r0); [now exists r0|exact IH].
Qed.

Lemma searchNested_total (Q : value -> Prop) (rec : value -> outcome value)
  (l : list (string * value)) :
  Q Null ->
  Forall (fun kv => exists r, rec (snd kv) = Ok r /\ Q r) l ->
  exists r, Scraper.searchNested rec l = Ok r /\ Q r.
Proof.
  intros Q0. induction 1 as [|[k v] l (r0 & E & Hr) _ IH]; cbn [Scraper.searchNested].
  - now exists Null.
  - cbn [snd] in E. destruct (isObjectLike v); [|exact IH].
    rewrite E. cbn [bindO]. destruct (truthy r0); [now exists r0|exact IH].
Qed.

Lemma searchGraph_total (Q : value -> Prop) (rec : value -> outcome value)
  (nested : outcome value) (l : list (string * value)) :
  (exists r, nested = Ok r /\ Q r) ->
  Forall (fun kv => exists r, rec (snd kv) = Ok r /\ Q r) l ->
  exists r, Scraper.searchGraph rec nested l = Ok r /\ Q r.
Proof.
  intros Hn. induction 1 as [|[k v] l Hx _ IH]; cbn [Scraper.searchGraph].
  - exact Hn.
  - destruct (String.eqb "@graph" k); [|exact IH].
    destruct (truthy v); [exact Hx|exact Hn].
Qed.

(** X10.  The product search of the rendered path never throws, whatever
    JSON it is given, and what it returns is [null] or an object typed
    [Product]: the object itself, with its offers, not a summary. *)
Theorem findProductInBrowser_returns_product_or_null (d : value) :
  exists r, Scraper.findProductInBrowser d = Ok r /\ isProductObject r.
Proof.
  induction d as [| | | | |xs IH|kvs IH] using value_nested_ind;
    cbn [Scraper.findProductInBrowser];
    try (exists Null; split; [reflexivity|now left]).
  - apply firstTruthy_total; [now left|exact IH].
  - destruct (Scraper.isProductType (lookup "@type" kvs)) eqn:E.
    + exists (Obj kvs). split; [reflexivity|]. right. now exists kvs.
    + apply searchGraph_total; [|exact IH].
      apply searchNested_total; [now left|exact IH].
Qed.

(** ** The two extractors *)

Lemma scanPatterns_empty :
  Scraper.scanPatterns Scraper.pricePatterns EmptyString = None.
Proof. reflexivity. Qed.

Lemma selectorPriceRendered_same (els : list Scraper.element) :
  Scraper.selectorPriceRendered els = Scraper.selectorPrice els.
Proof.
  induction els as [|e l IH]; [reflexivity|].
  cbn [Scraper.selectorPriceRendered Scraper.selectorPrice].
  destruct (String.eqb_spec (trim (Scraper.text e)) EmptyString) as [E|_].
  - rewrite E, scanPatterns_empty. exact IH.
  - now rewrite IH.
Qed.

Lemma extractPriceRendered_static (d : Scraper.document) (sel : string) :
  Scraper.parses d sel = true ->
  Scraper.extractPrice (withoutScripts d) sel = Ok (Scraper.extractPriceRendered d sel).
Proof.
  intros P. rewrite extractPrice_in_order. unfold Scraper.extractPriceRendered.
  rewrite jsonLdPriceRendered_none. cbn [withoutScripts Scraper.jsonLd Scraper.jsonLdPrice].
  change (Scraper.metaPrice (withoutScripts d)) with (Scraper.metaPrice d).
  destruct (Scraper.metaPrice d) as [[n [c|]]|]; try reflexivity.
  cbn [Scraper.select Scraper.parses withoutScripts]. rewrite P.
  now rewrite selectorPriceRendered_same.
Qed.

(** X11.  For a selector the page takes, the rendered path extracts the
    price and currency the static path would extract from the same page
    with its structured-data scripts taken out: its structured-data
    strategy never yields, and its test for empty element text changes
    nothing. *)
Theorem rendered_extractor_is_static_without_scripts
  (d : Scraper.document) (sel : string) :
  Scraper.parses d sel = true ->
  Scraper.extractPrice (withoutScripts d) sel = Ok (Scraper.extractPriceRendered d sel).
Proof. exact (extractPriceRendered_static d sel). Qed.

Lemma rendered_extractor_is_static_without_scripts_witness :
  Scraper.extractPrice (withoutScripts graphPage) ".price"
  = Ok (Scraper.extractPriceRendered graphPage ".price").
Proof.
  apply (rendered_extractor_is_static_without_scripts graphPage ".price").
  reflexivity.
Defined.

(** ** What the scrapers report *)

Lemma metaPrice_sound (d : Scraper.document) (n : number) (c : option string) :
  Scraper.metaPrice d = Some (n, c) ->
  isNaN n = false /\ positive n = true /\
  forall s, c = Some s -> s <> EmptyString.
Proof.
  unfold Scraper.metaPrice.
  destruct (Scraper.orStr (Scraper.ogPriceAmount d) None) as [amount|]; [|discriminate].
  destruct (negb (isNaN _) && gt _ (ofZ 0)) eqn:E; [|discriminate].
  intros [= <- <-]. apply andb_true_iff in E. destruct E as [E1 E2].
  apply negb_true_iff in E1. split; [exact E1|]. split; [exact E2|].
  intros s. destruct (Scraper.ogPriceCurrency d) as [s'|]; cbn; [|discriminate].
  destruct (String.eqb_spec s' EmptyString); [discriminate|]. congruence.
Qed.

Lemma selectorPrice_sound (els : list Scraper.element) (n : number) :
  Scraper.selectorPrice els = Some n ->
  isNaN n = false /\ positive n = true /\ lt n (ofZ 1000000) = true.
Proof.
  rewrite selectorPrice_find. intros H. apply find_some in H. destruct H as [_ H].
  unfold Scraper.inBounds in H. apply andb_true_iff in H. destruct H as [H H3].
  apply andb_true_iff in H. destruct H as [H1 H2]. apply negb_true_iff in H1.
  unfold positive. tauto.
Qed.

Lemma extractPrice_sound (d : Scraper.document) (sel : string)
  (found : option number * value) :
  Scraper.jsonLdPrice (Scraper.jsonLd d) = None ->
  Scraper.extractPrice d sel = Ok found ->
  (forall n, fst found = Some n -> isNaN n = false /\ positive n = true) /\
  truthy (snd found) = true.
Proof.
  intros H. rewrite extractPrice_in_order, H.
  destruct (Scraper.metaPrice d) as [[m c]|] eqn:M.
  - destruct (metaPrice_sound d m c M) as (N & P & C).
    destruct c as [s|]; intros [= <-]; cbn [fst snd].
    + split; [intros n [= <-]; tauto|]. cbn.
      destruct (String.eqb_spec s EmptyString) as [E|_]; [|reflexivity].
      now destruct (C s eq_refl).
    + split; [intros n [= <-]; tauto|reflexivity].
  - destruct (Scraper.parses d sel); [|discriminate]. intros [= <-].
    cbn [fst snd]. split; [|reflexivity]. intros n Hn.
    destruct (selectorPrice_sound _ _ Hn). tauto.
Qed.

Lemma extractPrice_currency (d : Scraper.document) (sel : string)
  (found : option number * value) :
  Scraper.extractPrice d sel = Ok found -> truthy (snd found) = true.
Proof.
  destruct (Scraper.jsonLdPrice (Scraper.jsonLd d)) as [[n c]|] eqn:H;
    [|intros E; now apply (extractPrice_sound d sel found H)].
  rewrite extractPrice_in_order, H. intros [= <-]. cbn [snd].
  destruct (truthy c) eqn:E; [exact E|reflexivity].
Qed.

(** Some selector is always chosen: the default selector of every domain
    is non-empty. *)
Lemma selector_chosen (custom storeSel : option string) (domain : string) :
  exists a s, chosen custom storeSel domain = Some (String a s).
Proof.
  unfold chosen.
  destruct (orStr_nonempty custom
              (Scraper.orStr storeSel (Some (Scraper.getDefaultSelector domain))))
    as (sel & E & Hne).
  { apply orStr_nonempty. eexists. split; [reflexivity|].
    apply getDefaultSelector_nonempty. }
  destruct sel as [|a s]; [now destruct Hne|]. now exists a, s.
Qed.

(** X12.  The rendered scrape fails exactly when no page could be rendered
    or the page does not take the chosen selector; the missing-selector
    error cannot occur.  Otherwise it returns a result without an error
    text, with a currency that is never empty, and a price, when it has
    one, that is a number above 0. *)
Theorem rendered_scrape_reports_sound_prices (page : outcome Scraper.document)
  (custom storeSel : option string) (domain : string) :
  exists sel,
    chosen custom storeSel domain = Some sel /\ sel <> EmptyString /\
    match Scraper.scrapeWithPuppeteer page custom storeSel domain with
    | Throw => page = Throw \/ exists d, page = Ok d /\ Scraper.parses d sel = false
    | Ok r =>
        (exists d, page = Ok d /\ Scraper.parses d sel = true) /\
        soundPrice r /\ truthy (Scraper.currency r) = true /\
        Scraper.error r = None
    end.
Proof.
  destruct (selector_chosen custom storeSel domain) as (a & s & E).
  exists (String a s). split; [exact E|]. split; [discriminate|].
  destruct page as [d|]; [|now left]. unfold Scraper.scrapeWithPuppeteer.
  cbn [bindO]. unfold chosen in E. rewrite E.
  destruct (Scraper.parses d (String a s)) eqn:P; [|right; now exists d].
  pose proof (extractPriceRendered_static d (String a s) P) as S.
  destruct (extractPrice_sound (withoutScripts d) (String a s) _ eq_refl S) as [HP HC].
  destruct (Scraper.extractPriceRendered d (String a s)) as [p c].
  cbn [fst snd] in *. split; [now exists d|].
  split; [exact HP|]. split; [exact HC|reflexivity].
Qed.

(** X13.  The static scrape fails exactly when the page could not be
    fetched, or when neither the structured data nor the meta tags gave a
    price and the page does not take the chosen selector; the
    missing-selector error cannot occur.  Its result has no error text and
    a non-empty currency. *)
Theorem static_scrape_fails_only_on_fetch (response : outcome Scraper.document)
  (custom storeSel : option string) (domain : string) :
  exists sel,
    chosen custom storeSel domain = Some sel /\ sel <> EmptyString /\
    match Scraper.scrapeWithCheerio response custom storeSel domain with
    | Throw =>
        response = Throw \/
        exists d, response = Ok d /\
                  Scraper.jsonLdPrice (Scraper.jsonLd d) = None /\
                  Scraper.metaPrice d = None /\ Scraper.parses d sel = false
    | Ok r =>
        (exists d, response = Ok d /\
                   (Scraper.jsonLdPrice (Scraper.jsonLd d) <> None \/
                    Scraper.metaPrice d <> None \/ Scraper.parses d sel = true)) /\
        truthy (Scraper.currency r) = true /\ Scraper.error r = None
    end.
Proof.
  destruct (selector_chosen custom storeSel domain) as (a & s & E).
  exists (String a s). split; [exact E|]. split; [discriminate|].
  destruct response as [d|]; [|now left]. unfold Scraper.scrapeWithCheerio.
  cbn [bindO]. unfold chosen in E. rewrite E.
  destruct (Scraper.extractPrice d (String a s)) as [found|] eqn:X; cbn [bindO].
  - split; [|split; [exact (extractPrice_currency d _ found X)|reflexivity]].
    exists d. split; [reflexivity|]. rewrite extractPrice_in_order in X.
    destruct (Scraper.jsonLdPrice _) as [[n c]|]; [left; discriminate|].
    destruct (Scraper.metaPrice d) as [[n c]|]; [right; left; discriminate|].
    destruct (Scraper.parses d (String a s)); [now right; right|discriminate].
  - right. exists d. split; [reflexivity|]. rewrite extractPrice_in_order in X.
    destruct (Scraper.jsonLdPrice _) as [[n c]|]; [discriminate|].
    destruct (Scraper.metaPrice d) as [[n [c|]]|]; try discriminate.
    destruct (Scraper.parses d (String a s)); [discriminate|]. repeat split.
Qed.

(** X14.  On a page whose structured data yields no price, a price the
    static scrape reports is a number above 0; only the structured-data
    strategy passes a price on unchecked.  The scrape of such a page
    returns when the meta tags give a price or the page takes the chosen
    selector. *)
Theorem static_price_sound_without_structured_price (d : Scraper.document)
  (custom storeSel : option string) (domain : string) :
  Scraper.jsonLdPrice (Scraper.jsonLd d) = None ->
  (forall r, Scraper.scrapeWithCheerio (Ok d) custom storeSel domain = Ok r ->
             soundPrice r) /\
  ((Scraper.metaPrice d <> None \/
    exists sel, chosen custom storeSel domain = Some sel /\ Scraper.parses d sel = true) ->
   exists r, Scraper.scrapeWithCheerio (Ok d) custom storeSel domain = Ok r).
Proof.
  intros H. unfold Scraper.scrapeWithCheerio. cbn [bindO].
  destruct (selector_chosen custom storeSel domain) as (a & s & E).
  rewrite E. unfold chosen in E. rewrite E. split.
  - intros r.
    destruct (Scraper.extractPrice d (String a s)) as [found|] eqn:X; cbn [bindO];
      [|discriminate].
    destruct (extractPrice_sound d (String a s) found H X) as [HP _].
    intros [= <-]. exact HP.
  - intros G. rewrite extractPrice_in_order, H.
    destruct (Scraper.metaPrice d) as [[n [c|]]|]; cbn [bindO];
      try (eexists; reflexivity).
    destruct G as [G|(sel & [= <-] & P)]; [now destruct G|].
    rewrite P. cbn [bindO]. eexists. reflexivity.
Qed.

Lemma static_price_sound_without_structured_price_witness :
  (forall r, Scraper.scrapeWithCheerio (Ok nullOfferPage) None None "shop.example" = Ok r ->
             soundPrice r) /\
  ((Scraper.metaPrice nullOfferPage <> None \/
    exists sel, chosen None None "shop.example" = Some sel /\
                Scraper.parses nullOfferPage sel = true) ->
   exists r, Scraper.scrapeWithCheerio (Ok nullOfferPage) None None "shop.example" = Ok r).
Proof.
  apply (static_price_sound_without_structured_price nullOfferPage None None "shop.example").
  reflexivity.
Defined.

(** ** When the static product search throws *)

Lemma get_total (v : value) (k : string) :
  isNullish v = false -> exists r, get v k = Ok r.
Proof. destruct v; cbn; try discriminate; intros _; eexists; reflexivity. Qed.

Lemma scanOffers_total (name : value) (offers : list value) :
  forallb (fun x => negb (isNullish x)) offers = true ->
  exists r, Scraper.scanOffers name offers = Ok r.
Proof.
  induction offers as [|offer rest IH]; intros H; cbn [Scraper.scanOffers].
  - eexists. reflexivity.
  - cbn in H. apply andb_true_iff in H. destruct H as [Ho Hr].
    apply negb_true_iff in Ho.
    destruct (get_total offer "price" Ho) as [p ->].
    destruct (get_total offer "lowPrice" Ho) as [lp ->].
    destruct (get_total offer "priceCurrency" Ho) as [c ->]. cbn [bindO].
    destruct (truthy (orElse p lp)); [eexists; reflexivity|now apply IH].
Qed.

Lemma noNullItems_lookup (k : string) (kvs : list (string * value)) :
  noNullItems (Obj kvs) = true -> noNullItems (lookup k kvs) = true.
Proof.
  cbn [noNullItems]. induction kvs as [|[k' v] r IH]; cbn; [reflexivity|].
  intros H. apply andb_true_iff in H. destruct H as [Hv Hr].
  destruct (String.eqb k k'); [exact Hv|now apply IH].
Qed.

Lemma offers_without_null (offers : value) :
  noNullItems offers = true -> truthy offers = true ->
  forallb (fun x => negb (isNullish x))
    (match offers with Arr l => l | _ => [offers] end) = true.
Proof.
  destruct offers as [| | | | |l|kvs]; cbn; try discriminate; try reflexivity.
  intros H _. induction l as [|x l IH]; [reflexivity|]. cbn in *.
  apply andb_true_iff in H. destruct H as [Hx Hl].
  apply andb_true_iff in Hx. destruct Hx as [Hx _].
  now rewrite Hx, IH.
Qed.

Lemma productBranch_total (kvs : list (string * value)) :
  noNullItems (Obj kvs) = true ->
  exists r, Scraper.productBranch (Obj kvs) = Ok r.
Proof.
  intros H. unfold Scraper.productBranch. cbn [get bindO].
  destruct (Scraper.isProductType (lookup "@type" kvs)); [|eexists; reflexivity].
  destruct (truthy (lookup "offers" kvs)) eqn:T.
  - destruct (scanOffers_total (lookup "name" kvs)
                (match lookup "offers" kvs with
                 | Arr l => l
                 | _ => [lookup "offers" kvs]
                 end))
      as [[r|] ->].
    + apply offers_without_null; [now apply noNullItems_lookup|exact T].
    + cbn [bindO]. eexists. reflexivity.
    + cbn [bindO]. destruct (truthy (lookup "price" kvs)); eexists; reflexivity.
  - cbn [bindO]. destruct (truthy (lookup "price" kvs)); eexists; reflexivity.
Qed.

Lemma findProductInJsonLd_total (d : value) :
  noNullItems d = true -> exists r, Scraper.findProductInJsonLd d = Ok r /\ True.
Proof.
  induction d as [| | | | |xs IH|kvs IH] using value_nested_ind; intros H;
    cbn [Scraper.findProductInJsonLd];
    try (eexists; split; [reflexivity|exact I]).
  - apply firstTruthy_total; [exact I|].
    cbn [noNullItems] in H. rewrite forallb_forall in H.
    rewrite Forall_forall in *. intros x Hx. apply IH; [exact Hx|].
    specialize (H x Hx). apply andb_true_iff in H. tauto.
  - destruct (productBranch_total kvs H) as [[r|] ->]; cbn [bindO];
      [eexists; split; [reflexivity|exact I]|].
    assert (F : Forall (fun kv => exists r,
                  Scraper.findProductInJsonLd (snd kv) = Ok r /\ True) kvs).
    { cbn [noNullItems] in H. rewrite forallb_forall in H.
      rewrite Forall_forall in *. intros kv Hkv. apply IH; [exact Hkv|].
      now apply H. }
    apply searchGraph_total; [|exact F].
    apply searchNested_total; [exact I|exact F].
Qed.

(** X15.  The product search of the static path throws only on a [null]
    inside an array: on JSON none of whose arrays has a [null] item it
    returns, with [null] or with a summary of price, currency and name. *)
Theorem findProductInJsonLd_returns_without_null_items (d : value) :
  noNullItems d = true ->
  exists r, Scraper.findProductInJsonLd d = Ok r /\ isSummary r.
Proof.
  intros H. destruct (findProductInJsonLd_total d H) as (r & E & _).
  exists r. split; [exact E|]. exact (findProductInJsonLd_summary d r E).
Qed.

Lemma findProductInJsonLd_returns_without_null_items_witness :
  exists r, Scraper.findProductInJsonLd outOfStockProduct = Ok r /\ isSummary r.
Proof.
  apply (findProductInJsonLd_returns_without_null_items outOfStockProduct).
  reflexivity.
Defined.

(** * Further properties of the notification service *)

(** ** The push client *)

Lemma configured_true (e : Push.env) :
  configured e = true ->
  exists token user,
    Scraper.orStr (Push.PUSHOVER_TOKEN e) None = Some token /\
    Scraper.orStr (Push.PUSHOVER_USER e) None = Some user.
Proof.
  unfold configured.
  destruct (Scraper.orStr (Push.PUSHOVER_TOKEN e) None) as [t|]; [|discriminate].
  destruct (Scraper.orStr (Push.PUSHOVER_USER e) None) as [u|]; [|discriminate].
  intros _. now exists t, u.
Qed.

(** X16.  The push client is created once: the first configured call
    builds it from the credentials of the environment, and from then on
    every configured call sends through that same client, whatever the
    credentials of the environment are by then. *)
Theorem push_client_is_created_once (e e' : Push.env) (send send' : Push.transport)
  (msg msg' : message) (title title' : string) (priority priority' : Z)
  (url url' : option string) :
  configured e = true -> configured e' = true ->
  exists token user,
    Scraper.orStr (Push.PUSHOVER_TOKEN e) None = Some token /\
    Scraper.orStr (Push.PUSHOVER_USER e) None = Some user /\
    let c := {| Push.cUser := user; Push.cToken := token |} in
    let first := Push.sendNotification e send None msg title priority url in
    snd first = Some c /\
    map fst (snd (fst first)) = [c] /\
    let second := Push.sendNotification e' send' (snd first) msg' title' priority' url' in
    snd second = Some c /\ map fst (snd (fst second)) = [c].
Proof.
  intros H H'. destruct (configured_true e H) as (t & u & Ht & Hu).
  destruct (configured_true e' H') as (t' & u' & Ht' & Hu').
  exists t, u. split; [exact Ht|]. split; [exact Hu|]. cbn zeta.
  unfold Push.sendNotification, Push.initializePushover.
  rewrite Ht, Hu. cbn [fst snd map]. rewrite Ht', Hu'. cbn [fst snd map].
  repeat split.
Qed.

Lemma push_client_is_created_once_witness :
  exists token user,
    Scraper.orStr (Push.PUSHOVER_TOKEN sampleEnv) None = Some token /\
    Scraper.orStr (Push.PUSHOVER_USER sampleEnv) None = Some user /\
    let c := {| Push.cUser := user; Push.cToken := token |} in
    let first :=
      Push.sendNotification sampleEnv sampleTransport None (Text "a") "t" 0 None in
    snd first = Some c /\
    map fst (snd (fst first)) = [c] /\
    let second :=
      Push.sendNotification
        {| Push.PUSHOVER_TOKEN := Some "other"%string;
           Push.PUSHOVER_USER := Some "someone"%string |}
        sampleTransport (snd first) (Text "b") "t" 1 None in
    snd second = Some c /\ map fst (snd (fst second)) = [c].
Proof.
  apply (push_client_is_created_once sampleEnv
           {| Push.PUSHOVER_TOKEN := Some "other"%string;
              Push.PUSHOVER_USER := Some "someone"%string |}
           sampleTransport sampleTransport (Text "a") (Text "b") "t" "t" 0 1 None None);
    reflexivity.
Defined.

(** X17.  With credentials configured, an event handed to the push service
    by the dispatch loop gives exactly one push, without a URL, carrying the
    priority of its kind; the alert sound [pushover] goes with
    target-reached events and with no others, which get [gamelan]; and the
    result is what the transport reported. *)
Theorem push_sound_follows_kind (e : Push.env) (send : Push.transport)
  (pushover : option Push.client) (k : kind) (msg : message) :
  configured e = true ->
  exists c m,
    Push.sendNotification e send pushover msg
      (Notifications.getNotificationTitle k) (Notifications.getNotificationPriority k) None
    = (send c m, [(c, m)], Some c) /\
    Push.notifierOf e send pushover msg
      (Notifications.getNotificationTitle k) (Notifications.getNotificationPriority k)
    = send c m /\
    Push.pmMessage m = msg /\
    Push.pmUrl m = None /\ Push.pmUrlTitle m = None /\
    (Push.pmSound m = "pushover"%string <-> k = target_reached) /\
    (Push.pmSound m = "gamelan"%string <-> k <> target_reached) /\
    (Push.pmPriority m = 1%Z <-> k = target_reached).
Proof.
  intros H. destruct (configured_true e H) as (t & u & Ht & Hu).
  unfold Push.notifierOf, Push.sendNotification, Push.initializePushover.
  rewrite Ht, Hu.
  destruct pushover as [c|]; eexists; eexists;
    (split; [reflexivity|]); (split; [reflexivity|]); cbn;
    (split; [reflexivity|]); (split; [reflexivity|]); (split; [reflexivity|]);
    destruct k; cbn; repeat split; intros; try discriminate; try congruence; try lia.
Qed.

Lemma push_sound_follows_kind_witness :
  exists c m,
    Push.sendNotification sampleEnv sampleTransport None (Text "a")
      (Notifications.getNotificationTitle target_reached)
      (Notifications.getNotificationPriority target_reached) None
    = (sampleTransport c m, [(c, m)], Some c) /\
    Push.notifierOf sampleEnv sampleTransport None (Text "a")
      (Notifications.getNotificationTitle target_reached)
      (Notifications.getNotificationPriority target_reached)
    = sampleTransport c m /\
    Push.pmMessage m = Text "a" /\
    Push.pmUrl m = None /\ Push.pmUrlTitle m = None /\
    (Push.pmSound m = "pushover"%string <-> target_reached = target_reached) /\
    (Push.pmSound m = "gamelan"%string <-> target_reached <> target_reached) /\
    (Push.pmPriority m = 1%Z <-> target_reached = target_reached).
Proof.
  apply (push_sound_follows_kind sampleEnv sampleTransport None target_reached (Text "a")).
  reflexivity.
Defined.

(** X18.  When a credential is missing or empty the service never calls
    the transport: every send returns [false] without a push and without
    touching the cached client, even when a client was cached earlier and
    even when the transport would throw; so does the test notification. *)
Theorem unconfigured_service_never_pushes (e : Push.env) (send : Push.transport)
  (pushover : option Push.client) :
  configured e = false ->
  (forall msg title priority url,
     Push.sendNotification e send pushover msg title priority url
     = (Ok false, [], pushover)) /\
  Push.sendTestNotification e send pushover = (Ok false, [], pushover) /\
  forall msg title priority,
    Push.notifierOf e send pushover msg title priority = Ok false.
Proof.
  intros H.
  assert (A : forall msg title priority url,
     Push.sendNotification e send pushover msg title priority url
     = (Ok false, [], pushover)).
  { intros. unfold Push.sendNotification, Push.initializePushover.
    unfold configured in H.
    destruct (Scraper.orStr (Push.PUSHOVER_TOKEN e) None); [|reflexivity].
    destruct (Scraper.orStr (Push.PUSHOVER_USER e) None); [discriminate|reflexivity]. }
  split; [exact A|]. split; [apply A|].
  intros. unfold Push.notifierOf. now rewrite A.
Qed.

Lemma unconfigured_service_never_pushes_witness :
  (forall msg title priority url,
     Push.sendNotification sampleNoToken (fun _ _ => Throw)
       (Some {| Push.cUser := "user"; Push.cToken := "token" |}) msg title priority url
     = (Ok false, [], Some {| Push.cUser := "user"; Push.cToken := "token" |})) /\
  Push.sendTestNotification sampleNoToken (fun _ _ => Throw)
    (Some {| Push.cUser := "user"; Push.cToken := "token" |})
  = (Ok false, [], Some {| Push.cUser := "user"; Push.cToken := "token" |}) /\
  forall msg title priority,
    Push.notifierOf sampleNoToken (fun _ _ => Throw)
      (Some {| Push.cUser := "user"; Push.cToken := "token" |}) msg title priority
    = Ok false.
Proof.
  apply (unconfigured_service_never_pushes sampleNoToken (fun _ _ => Throw)
           (Some {| Push.cUser := "user"%string; Push.cToken := "token"%string |})).
  reflexivity.
Defined.

(** ** Statistics *)

Lemma kind_eqb_eq (a b : kind) : kind_eqb a b = true <-> a = b.
Proof. destruct a, b; cbn; split; congruence. Qed.

Lemma kind_eqb_refl (a : kind) : kind_eqb a a = true.
Proof. now destruct a. Qed.

Lemma getCount_none (k : kind) (acc : list (kind * nat)) :
  Push.getCount k acc = None <-> ~ In k (map fst acc).
Proof.
  induction acc as [|[k' c] r IH]; cbn; [tauto|].
  destruct (kind_eqb k k') eqn:E.
  - apply kind_eqb_eq in E. subst. split; [discriminate|tauto].
  - rewrite IH. split; [|tauto]. intros H [->|H1]; [|tauto].
    now rewrite kind_eqb_refl in E.
Qed.

Lemma getCount_setCount (k k' : kind) (v : nat) (acc : list (kind * nat)) :
  Push.getCount k (Push.setCount k' v acc)
  = if kind_eqb k k' then Some v else Push.getCount k acc.
Proof.
  induction acc as [|[k0 c] r IH]; cbn.
  - destruct (kind_eqb k k'); reflexivity.
  - destruct (kind_eqb k' k0) eqn:E0; cbn.
    + apply kind_eqb_eq in E0. subst k0. destruct (kind_eqb k k'); reflexivity.
    + destruct (kind_eqb k k0) eqn:E1; [|exact IH].
      apply kind_eqb_eq in E1. subst k0.
      destruct (kind_eqb k k') eqn:E2; [|reflexivity].
      apply kind_eqb_eq in E2. subst k'. now rewrite kind_eqb_refl in E0.
Qed.

Lemma keys_setCount (k : kind) (v : nat) (acc : list (kind * nat)) :
  map fst (Push.setCount k v acc)
  = match Push.getCount k acc with
    | Some _ => map fst acc
    | None => (map fst acc ++ [k])%list
    end.
Proof.
  induction acc as [|[k0 c] r IH]; cbn; [reflexivity|].
  destruct (kind_eqb k k0); cbn; [reflexivity|].
  rewrite IH. now destruct (Push.getCount k r).
Qed.

Lemma sum_setCount (k : kind) (v : nat) (acc : list (kind * nat)) :
  sumCounts (Push.setCount k v acc) + match Push.getCount k acc with
                                      | Some c => c
                                      | None => 0
                                      end
  = sumCounts acc + v.
Proof.
  unfold sumCounts. induction acc as [|[k0 c] r IH]; cbn; [lia|].
  destruct (kind_eqb k k0); cbn; lia.
Qed.

Lemma tallied_bump (seen : list notification) (acc : list (kind * nat))
  (n : notification) :
  tallied seen acc -> tallied (seen ++ [n]) (Push.bump (nType n) acc).
Proof.
  intros (Hnd & Hsum & Hget). unfold Push.bump.
  set (old := match Push.getCount (nType n) acc with
              | Some c => if c =? 0 then 0 else c
              | None => 0
              end).
  assert (Hold : old = countOf (nType n) seen).
  { unfold old. rewrite Hget. destruct (countOf (nType n) seen =? 0) eqn:E.
    - apply Nat.eqb_eq in E. now rewrite E.
    - now rewrite E. }
  assert (Hold' : match Push.getCount (nType n) acc with
                  | Some c => c
                  | None => 0
                  end = old).
  { unfold old. destruct (Push.getCount (nType n) acc) as [c|]; [|reflexivity].
    destruct (c =? 0) eqn:E; [apply Nat.eqb_eq in E; now subst|reflexivity]. }
  split; [|split].
  - rewrite keys_setCount. destruct (Push.getCount (nType n) acc) eqn:E; [exact Hnd|].
    apply getCount_none in E. apply NoDup_app; [exact Hnd|repeat constructor; intros []|].
    intros x Hx [<-|[]]. contradiction.
  - pose proof (sum_setCount (nType n) (old + 1) acc) as S. rewrite Hold' in S.
    rewrite length_app. cbn. lia.
  - intros k. rewrite getCount_setCount. unfold countOf. rewrite filter_app, length_app.
    cbn [filter]. rewrite Hold. unfold countOf.
    destruct (kind_eqb k (nType n)) eqn:E.
    + apply kind_eqb_eq in E. subst k. rewrite kind_eqb_refl. cbn [length].
      destruct (_ + 1 =? 0) eqn:Z; [apply Nat.eqb_eq in Z; lia|reflexivity].
    + assert (E' : kind_eqb (nType n) k = false).
      { destruct (kind_eqb (nType n) k) eqn:F; [|reflexivity].
        apply kind_eqb_eq in F. subst k. now rewrite kind_eqb_refl in E. }
      rewrite E'. cbn [length]. rewrite Nat.add_0_r. apply Hget.
Qed.

Lemma tallied_loop (l seen : list notification) (acc : list (kind * nat)) :
  tallied seen acc ->
  tallied (seen ++ l) (fold_left (fun a n => Push.bump (nType n) a) l acc).
Proof.
  revert seen acc. induction l as [|n l IH]; intros seen acc H.
  - now rewrite app_nil_r.
  - cbn [fold_left]. change (n :: l) with ([n] ++ l)%list. rewrite app_assoc.
    apply IH. now apply tallied_bump.
Qed.

(** X19.  The statistics add up: every event is counted as delivered or as
    pending; the per-kind table lists each kind that has events exactly
    once, with its number of events, and no kind without events; and its
    counts sum to the total. *)
Theorem notification_stats_add_up (d : db) :
  let s := Push.getNotificationStats d in
  Push.total s = Push.sentCount s + Push.pendingCount s /\
  NoDup (map fst (Push.byType s)) /\
  sumCounts (Push.byType s) = Push.total s /\
  forall k, Push.getCount k (Push.byType s)
            = if countOf k (notifications d) =? 0 then None
              else Some (countOf k (notifications d)).
Proof.
  cbn zeta. unfold Push.getNotificationStats. cbn.
  split.
  - induction (notifications d) as [|n l IH]; [reflexivity|]. cbn.
    destruct (sent n); cbn; lia.
  - apply (tallied_loop (notifications d) [] []).
    split; [constructor|]. split; [reflexivity|]. intros k. reflexivity.
Qed.

(** ** Housekeeping *)

(** X20.  Housekeeping of the notifications table deletes every delivered
    event, whatever its age, and no other: run right after a dispatch it
    leaves exactly the pending events the dispatch did not take, in their
    order (the pending events after the first ten, when the dispatch got
    the rows in table order); it loses no pending event, and running it
    twice is running it once. *)
Theorem cleanup_deletes_all_delivered_events (now : time)
  (send : Notifications.notifier) (d : db) :
  wellKeyed d ->
  notifications
    (Notifications.cleanupOldNotifications
       (fst (Notifications.sendPendingNotifications now send (notifications d) d)))
  = skipn Notifications.batchSize (pending d)
  /\ (forall scan,
        notifications
          (Notifications.cleanupOldNotifications
             (fst (Notifications.sendPendingNotifications now send scan d)))
        = filter (fun m => negb (inBatch (Notifications.pendingBatch scan) m))
            (pending d))
  /\ pending (Notifications.cleanupOldNotifications d) = pending d
  /\ Notifications.cleanupOldNotifications (Notifications.cleanupOldNotifications d)
     = Notifications.cleanupOldNotifications d
  /\ wellKeyed (Notifications.cleanupOldNotifications d).
Proof.
  intros H. split; [|split; [|split; [|split]]].
  - rewrite <- (dispatch_drains now send d H). reflexivity.
  - intros scan. rewrite <- (pending_after_dispatch now send scan d). reflexivity.
  - unfold pending. cbn. apply filter_idem.
  - unfold Notifications.cleanupOldNotifications. cbn. now rewrite filter_idem.
  - destruct H as [Hnd Hlt]. split; cbn.
    + clear Hlt. induction (notifications d) as [|n l IH]; [constructor|].
      cbn in *. inversion Hnd as [|? ? Hx Hl]; subst.
      destruct (sent n); cbn; [now apply IH|].
      constructor; [|now apply IH].
      intros Hin. apply Hx. apply in_map_iff in Hin.
      destruct Hin as (m & Hm & Hf). apply filter_In in Hf.
      rewrite <- Hm. apply in_map. tauto.
    + intros e He. apply filter_In in He. apply Hlt. tauto.
Qed.

Lemma cleanup_deletes_all_delivered_events_witness :
  notifications
    (Notifications.cleanupOldNotifications
       (fst (Notifications.sendPendingNotifications 50%Z sampleSendFails
               (notifications sampleBacklog) sampleBacklog)))
  = skipn Notifications.batchSize (pending sampleBacklog)
  /\ (forall scan,
        notifications
          (Notifications.cleanupOldNotifications
             (fst (Notifications.sendPendingNotifications 50%Z sampleSendFails scan
                     sampleBacklog)))
        = filter (fun m => negb (inBatch (Notifications.pendingBatch scan) m))
            (pending sampleBacklog))
  /\ pending (Notifications.cleanupOldNotifications sampleBacklog) = pending sampleBacklog
  /\ Notifications.cleanupOldNotifications (Notifications.cleanupOldNotifications sampleBacklog)
     = Notifications.cleanupOldNotifications sampleBacklog
  /\ wellKeyed (Notifications.cleanupOldNotifications sampleBacklog).
Proof.
  apply (cleanup_deletes_all_delivered_events 50%Z sampleSendFails sampleBacklog).
  split.
  - cbn. repeat constructor; cbn; intuition discriminate.
  - intros e [<-|[<-|[<-|[]]]]; cbn; lia.
Defined.

(** * Further properties: the job registry and the product routes *)

(** ** The job registry *)

Lemma has_app (name : string) (a b : Jobs.registry) :
  Jobs.has name (a ++ b) = Jobs.has name a || Jobs.has name b.
Proof. apply existsb_app. Qed.

Lemma has_false (name : string) (jobs : Jobs.registry) :
  Jobs.has name jobs = false -> ~ In name (map fst jobs).
Proof.
  intros H Hin. apply in_map_iff in Hin. destruct Hin as (j & <- & Hj).
  assert (E : Jobs.has (fst j) jobs = true).
  { apply existsb_exists. exists j. split; [exact Hj|apply String.eqb_refl]. }
  congruence.
Qed.

Lemma scheduleJob_has (name schedule : string) (cb : Jobs.callback)
  (jobs : Jobs.registry) :
  Jobs.has name (Jobs.scheduleJob name schedule cb jobs) = true.
Proof.
  unfold Jobs.scheduleJob. destruct (Jobs.has name jobs) eqn:E; [exact E|].
  rewrite has_app. cbn. rewrite String.eqb_refl. apply orb_true_r.
Qed.

Lemma scheduleJob_keeps (name other schedule : string) (cb : Jobs.callback)
  (jobs : Jobs.registry) :
  Jobs.has other jobs = true ->
  Jobs.has other (Jobs.scheduleJob name schedule cb jobs) = true.
Proof.
  intros H. unfold Jobs.scheduleJob. destruct (Jobs.has name jobs); [exact H|].
  rewrite has_app, H. reflexivity.
Qed.

Lemma scheduleJob_again (name schedule : string) (cb : Jobs.callback)
  (jobs : Jobs.registry) :
  Jobs.has name jobs = true -> Jobs.scheduleJob name schedule cb jobs = jobs.
Proof. intros H. unfold Jobs.scheduleJob. now rewrite H. Qed.

Lemma scheduleJob_extends (name schedule : string) (cb : Jobs.callback)
  (jobs : Jobs.registry) :
  NoDup (map fst jobs) ->
  NoDup (map fst (Jobs.scheduleJob name schedule cb jobs)) /\
  exists new, Jobs.scheduleJob name schedule cb jobs = (jobs ++ new)%list.
Proof.
  intros H. unfold Jobs.scheduleJob. destruct (Jobs.has name jobs) eqn:E.
  - split; [exact H|]. exists []. now rewrite app_nil_r.
  - split; [|eexists; reflexivity]. rewrite map_app. cbn.
    apply NoDup_app; [exact H|repeat constructor; intros []|].
    intros x Hx [<-|[]]. now apply (has_false _ _ E).
Qed.

(** X21.  Starting the scheduler registers each of its three jobs under
    its name once: names already in the registry keep the task they have,
    nothing is replaced or registered twice, and starting again changes
    nothing. *)
Theorem startAllJobs_registers_each_job_once (jobs : Jobs.registry) :
  NoDup (map fst jobs) ->
  let jobs' := Jobs.startAllJobs jobs in
  NoDup (map fst jobs') /\
  (exists new, jobs' = (jobs ++ new)%list) /\
  Jobs.has "price-check" jobs' = true /\
  Jobs.has "cleanup" jobs' = true /\
  Jobs.has "notifications" jobs' = true /\
  Jobs.startAllJobs jobs' = jobs' /\
  length (Jobs.startAllJobs (Jobs.stopAllJobs jobs)) = 3.
Proof.
  intros H. cbn zeta. unfold Jobs.startAllJobs.
  set (j1 := Jobs.scheduleJob "price-check" "*/30 * * * *" Jobs.RunPriceCheck jobs).
  set (j2 := Jobs.scheduleJob "cleanup" "0 2 * * *" Jobs.RunCleanup j1).
  set (j3 := Jobs.scheduleJob "notifications" "*/5 * * * *" Jobs.RunNotifications j2).
  destruct (scheduleJob_extends "price-check" "*/30 * * * *" Jobs.RunPriceCheck jobs H)
    as [N1 [n1 E1]].
  destruct (scheduleJob_extends "cleanup" "0 2 * * *" Jobs.RunCleanup j1 N1)
    as [N2 [n2 E2]].
  destruct (scheduleJob_extends "notifications" "*/5 * * * *" Jobs.RunNotifications j2 N2)
    as [N3 [n3 E3]].
  fold j1 in E1. fold j2 in E2. fold j3 in E3.
  assert (H1 : Jobs.has "price-check" j3 = true).
  { unfold j3, j2. do 2 apply scheduleJob_keeps. apply scheduleJob_has. }
  assert (H2 : Jobs.has "cleanup" j3 = true).
  { unfold j3. apply scheduleJob_keeps. apply scheduleJob_has. }
  assert (H3 : Jobs.has "notifications" j3 = true) by apply scheduleJob_has.
  split; [exact N3|].
  split; [exists (n1 ++ n2 ++ n3)%list; rewrite E3, E2, E1; now rewrite <- !app_assoc|].
  split; [exact H1|]. split; [exact H2|]. split; [exact H3|].
  split; [|reflexivity].
  rewrite (scheduleJob_again "price-check" _ _ j3 H1).
  rewrite (scheduleJob_again "cleanup" _ _ j3 H2).
  apply (scheduleJob_again "notifications" _ _ j3 H3).
Qed.

Lemma startAllJobs_registers_each_job_once_witness :
  let jobs' :=
    Jobs.startAllJobs
      [("cleanup"%string,
        {| Jobs.cronExpr := "0 3 * * *"; Jobs.timezone := "UTC";
           Jobs.run := Jobs.RunCleanup |})] in
  NoDup (map fst jobs') /\
  (exists new,
     jobs' = ([("cleanup"%string,
                {| Jobs.cronExpr := "0 3 * * *"; Jobs.timezone := "UTC";
                   Jobs.run := Jobs.RunCleanup |})] ++ new)%list) /\
  Jobs.has "price-check" jobs' = true /\
  Jobs.has "cleanup" jobs' = true /\
  Jobs.has "notifications" jobs' = true /\
  Jobs.startAllJobs jobs' = jobs' /\
  length (Jobs.startAllJobs
            (Jobs.stopAllJobs
               [("cleanup"%string,
                 {| Jobs.cronExpr := "0 3 * * *"; Jobs.timezone := "UTC";
                    Jobs.run := Jobs.RunCleanup |})])) = 3.
Proof.
  apply (startAllJobs_registers_each_job_once
           [("cleanup"%string,
             {| Jobs.cronExpr := "0 3 * * *"; Jobs.timezone := "UTC";
                Jobs.run := Jobs.RunCleanup |})]).
  cbn. repeat constructor. intros [].
Defined.

(** ** What only the routes change *)

Lemma settings_check (now : time) (p : product)
  (scrape : outcome Scraper.ScrapeResult) (d : db) :
  map settings (products (Scheduler.checkProductPrice now p scrape d))
  = map settings (products d).
Proof. apply (check_frame now p scrape d). Qed.

Lemma settings_tick (now : time) (scrape : product -> outcome Scraper.ScrapeResult)
  (schedule : list nat) (d : db) :
  map settings (products (Scheduler.checkAllProductPrices now scrape schedule d))
  = map settings (products d).
Proof.
  apply (stepwise_tick
           (fun d1 d2 => map settings (products d2) = map settings (products d1)));
    [reflexivity|intros; congruence|].
  intros d1 d2 (p & _ & E). now apply (effect_settings now p).
Qed.

(** X22.  No operation of the scheduler or the notification service
    changes what a user set on a product: the ids, names, URLs, selectors,
    target prices and active flags of the products table are the same
    before and after, row by row. *)
Theorem core_leaves_product_settings (op : coreOp) (d : db) :
  map settings (products (runOp op d)) = map settings (products d).
Proof.
  destruct op as [now p scrape|now scrape schedule|now scrape i|cut|now send scan
                  |now send i k msg immediate]; cbn [runOp].
  - apply settings_check.
  - apply settings_tick.
  - unfold Scheduler.checkSingleProduct.
    destruct (filter (fun p => id p =? i) (products d)); [reflexivity|].
    apply settings_check.
  - reflexivity.
  - now destruct (dispatch_spec now send scan d) as (_ & -> & _).
  - unfold Notifications.createAndSendNotification.
    destruct immediate; [|reflexivity]. destruct (send msg _ _); reflexivity.
Qed.

(** ** Creating a product *)


(** The create route on a URL that parses and is not tracked yet: the
    insert of the product decides. *)
Lemma create_cases (now : time) (newId : nat)
  (parseURL : string -> outcome Scraper.ParsedProduct)
  (scrapePrice : string -> option string -> outcome (Scraper.ScrapeResult * option string))
  (body : Routes.createBody) (d : db) (parsed : Scraper.ParsedProduct) :
  parseURL (Routes.bUrl body) = Ok parsed ->
  filter (Routes.hasUrl (Scraper.cleanUrl parsed)) (products d) = [] ->
  let first := scrapePrice (Scraper.cleanUrl parsed) (Routes.bSelector body) in
  let out := Routes.createProduct now newId parseURL scrapePrice body d in
  (insertable body parsed first = false /\ out = (d, Routes.ServerError500)) \/
  (insertable body parsed first = true /\
   exists current target,
     Routes.decimalOrNull (firstPrice first) = Some current /\
     Routes.decimalOrNull (Routes.bTargetPrice body) = Some target /\
     let row :=
       {| id := newId; name := givenName body parsed first;
          url := Scraper.cleanUrl parsed; selector := Routes.bSelector body;
          currentPrice := current; targetPrice := target; isActive := true;
          lastChecked := match current with Some _ => Some now | None => None end;
          updatedAt := now |} in
     out =
     ({| products := products d ++ [row];
         priceHistory :=
           priceHistory d ++
           match current with
           | Some c =>
               [{| phProductId := newId; phPrice := c; phCurrency := Str "AUD";
                   scrapedAt := now; phIsAvailable := true |}]
           | None => []
           end;
         notifications := notifications d;
         nextId := nextId d;
         sends := sends d |}, Routes.Created201)).
Proof.
  intros Hparse Hurl. cbn zeta. unfold Routes.createProduct. rewrite Hparse, Hurl.
  unfold insertable, givenName, firstPrice.
  destruct (scrapePrice (Scraper.cleanUrl parsed) (Routes.bSelector body))
    as [[r scrapedName]|];
    unfold Routes.insertProduct, fits;
    match goal with
    | |- context [String.length ?s <=? 255] => destruct (String.length s <=? 255)
    end; try (left; split; reflexivity);
    match goal with
    | |- context [String.length ?s <=? 100] => destruct (String.length s <=? 100)
    end; try (left; split; reflexivity);
    cbn [andb].
  - destruct (match Scraper.price r with
              | Some n => if truthyNum n then Some n else None
              | None => None
              end) as [n|].
    + cbn [Routes.decimalOrNull]. destruct (decimal n) as [stored|] eqn:Dn;
        [|left; split; reflexivity].
      destruct (Routes.decimalOrNull (Routes.bTargetPrice body)) as [target|];
        [|left; split; reflexivity].
      right. split; [reflexivity|]. exists (Some stored), target.
      split; [reflexivity|]. split; [reflexivity|].
      cbn [id]. unfold insertPriceHistory. rewrite Dn. reflexivity.
    + cbn [Routes.decimalOrNull].
      destruct (Routes.decimalOrNull (Routes.bTargetPrice body)) as [target|];
        [|left; split; reflexivity].
      right. split; [reflexivity|]. exists None, target.
      split; [reflexivity|]. split; [reflexivity|].
      cbn. now rewrite app_nil_r.
  - cbn [Routes.decimalOrNull].
    destruct (Routes.decimalOrNull (Routes.bTargetPrice body)) as [target|];
      [|left; split; reflexivity].
    right. split; [reflexivity|]. exists None, target.
    split; [reflexivity|]. split; [reflexivity|].
    cbn. now rewrite app_nil_r.
Qed.





(** The route refuses a price that does not fit the column: nothing is
    written and the answer is 500. *)
Example create_with_a_target_too_large :
  Routes.createProduct 5000%Z 7 sampleParse sampleFirstScrape
    {| Routes.bName := None; Routes.bUrl := "https://shop.example/p/7";
       Routes.bTargetPrice := Some (ofZ 100000000); Routes.bSelector := None |}
    sampleDb
  = (sampleDb, Routes.ServerError500).
Proof. reflexivity. Qed.

(** ** Deleting a product, and references to products *)




Lemma ids_of_settings (l l' : list product) :
  map settings l = map settings l' -> map id l = map id l'.
Proof.
  intros H.
  assert (E : forall k : list product,
            map id k = map (fun s => fst (fst (fst (fst (fst s))))) (map settings k))
    by (intros k; rewrite map_map; reflexivity).
  now rewrite (E l), (E l'), H.
Qed.

Lemma referenced_ids (d : db) :
  referenced d <->
  (forall h, In h (priceHistory d) -> In (phProductId h) (map id (products d))) /\
  (forall e, In e (notifications d) -> In (nProductId e) (map id (products d))).
Proof.
  unfold referenced.
  split; intros [H1 H2]; (split; [intros h Hh; specialize (H1 h Hh)
                                 |intros e He; specialize (H2 e He)]).
  - destruct H1 as (q & Hq & <-). now apply in_map.
  - destruct H2 as (q & Hq & <-). now apply in_map.
  - apply in_map_iff in H1. destruct H1 as (q & E & Hq). now exists q.
  - apply in_map_iff in H2. destruct H2 as (q & E & Hq). now exists q.
Qed.

(** A statement of a check of a product of the table leaves no row
    without its product. *)
Lemma referenced_effect (now : time) (ps : list product) (p : product) (d d' : db) :
  In p ps -> effect now p d d' ->
  referenced d /\ (forall q, In q ps -> In (id q) (map id (products d))) ->
  referenced d' /\ (forall q, In q ps -> In (id q) (map id (products d'))).
Proof.
  intros Hp E [H Hps].
  rewrite (ids_of_settings _ _ (effect_settings now p d d' E)).
  split; [|exact Hps].
  apply referenced_ids in H. destruct H as [H1 H2]. apply referenced_ids.
  rewrite (ids_of_settings _ _ (effect_settings now p d d' E)).
  destruct E as [d0|d0 stored text available|d0 stored|d0 k msg]; cbn.
  - now split.
  - split; [|exact H2]. intros h Hh. apply in_app_or in Hh.
    destruct Hh as [Hh|[<-|[]]]; [now apply H1|]. cbn. now apply Hps.
  - now split.
  - split; [exact H1|]. intros e He. apply in_app_or in He.
    destruct He as [He|[<-|[]]]; [now apply H2|]. cbn. now apply Hps.
Qed.

Lemma referenced_check (now : time) (p : product)
  (scrape : outcome Scraper.ScrapeResult) (d : db) :
  referenced d -> In (id p) (map id (products d)) ->
  referenced (Scheduler.checkProductPrice now p scrape d).
Proof.
  intros H Hp.
  apply (stepwise_check
           (fun d1 d2 =>
              referenced d1 /\ (forall q, In q [p] -> In (id q) (map id (products d1))) ->
              referenced d2 /\ (forall q, In q [p] -> In (id q) (map id (products d2)))));
    [auto|auto| |].
  - intros d1 d2. apply referenced_effect. now left.
  - split; [exact H|]. now intros q [<-|[]].
Qed.

Lemma referenced_tick (now : time) (scrape : product -> outcome Scraper.ScrapeResult)
  (schedule : list nat) (d : db) :
  referenced d -> referenced (Scheduler.checkAllProductPrices now scrape schedule d).
Proof.
  intros H.
  apply (stepwise_tick
           (fun d1 d2 =>
              referenced d1 /\
              (forall q, In q (filter isActive (products d)) ->
                         In (id q) (map id (products d1))) ->
              referenced d2 /\
              (forall q, In q (filter isActive (products d)) ->
                         In (id q) (map id (products d2)))));
    [auto|auto| |].
  - intros d1 d2 (p & Hp & E). now apply (referenced_effect now _ p).
  - split; [exact H|]. intros q Hq. apply filter_In in Hq. apply in_map. tauto.
Qed.

Lemma referenced_single (now : time)
  (scrape : product -> outcome Scraper.ScrapeResult) (i : nat) (d d' : db) :
  referenced d -> Scheduler.checkSingleProduct now scrape i d = Ok d' ->
  referenced d'.
Proof.
  intros H. unfold Scheduler.checkSingleProduct.
  destruct (filter (fun p => id p =? i) (products d)) as [|p l] eqn:E; [discriminate|].
  intros [= <-]. apply referenced_check; [exact H|].
  assert (Hp : In p (filter (fun p => id p =? i) (products d)))
    by (rewrite E; now left).
  apply filter_In in Hp. apply in_map. tauto.
Qed.

(** X26.  Neither the routes that create, delete and check a product nor
    the three scheduled jobs leave a row without its product: if every
    observation and every event belongs to a product of the table, this is
    still so afterwards. *)
Theorem routes_and_jobs_leave_no_orphans (d : db) :
  referenced d ->
  (forall r, referenced (fst (Routes.serve r d))) /\
  (forall cb now ninetyDaysAgo scrape schedule send scan,
     referenced (Jobs.fire cb now ninetyDaysAgo scrape schedule send scan d)).
Proof.
  intros H. split.
  - intros [now newId parseURL scrapePrice body|param|now scrape param];
      cbn [Routes.serve].
    + destruct (parseURL (Routes.bUrl body)) as [parsed|] eqn:Hparse;
        [|unfold Routes.createProduct; now rewrite Hparse].
      destruct (filter (Routes.hasUrl (Scraper.cleanUrl parsed)) (products d))
        as [|q l] eqn:Hurl;
        [|unfold Routes.createProduct; now rewrite Hparse, Hurl].
      destruct (create_cases now newId parseURL scrapePrice body d parsed Hparse Hurl)
        as [[_ E]|(_ & current & target & _ & _ & E)]; cbn zeta in E; rewrite E;
        cbn [fst]; [exact H|].
      apply referenced_ids in H. destruct H as [H1 H2].
      apply referenced_ids. cbn. rewrite map_app. split.
      * intros h Hh. apply in_app_or in Hh. apply in_or_app.
        destruct Hh as [Hh|Hh]; [left; now apply H1|].
        destruct current as [c|]; [|destruct Hh].
        destruct Hh as [<-|[]]. right. now left.
      * intros e He. apply in_or_app. left. now apply H2.
    + unfold Routes.deleteProduct. destruct param as [|z]; [exact H|].
      destruct (negb (Routes.int4 z)); [exact H|].
      destruct (filter (Routes.hasId z) (products d)) as [|? ?]; [exact H|]. cbn [fst].
      destruct H as [H1 H2]. split; cbn.
      * intros h Hh. apply filter_In in Hh. destruct Hh as [Hh Hz].
        destruct (H1 h Hh) as (q & Hq & E). exists q. split; [|exact E].
        apply filter_In. split; [exact Hq|]. unfold Routes.hasId. now rewrite E.
      * intros e He. apply filter_In in He. destruct He as [He Hz].
        destruct (H2 e He) as (q & Hq & E). exists q. split; [|exact E].
        apply filter_In. split; [exact Hq|]. unfold Routes.hasId. now rewrite E.
    + unfold Routes.checkPrice. destruct param as [|z]; [exact H|].
      destruct (negb (Routes.int4 z)); [exact H|].
      destruct (filter (Routes.hasId z) (products d)) as [|p l]; [exact H|].
      destruct (isActive p); cbn [negb]; [|exact H].
      destruct (Scheduler.checkSingleProduct now scrape (id p) d) as [d'|] eqn:E;
        [|exact H].
      cbn [fst]. exact (referenced_single now scrape (id p) d d' H E).
  - intros [| |] now ninetyDaysAgo scrape schedule send scan; cbn [Jobs.fire].
    + now apply referenced_tick.
    + destruct H as [H1 H2]. split; cbn; [|exact H2].
      intros h Hh. apply filter_In in Hh. now apply H1.
    + destruct (dispatch_spec now send scan d) as (HN & HP & HH & _).
      cbn zeta in HN, HP, HH.
      destruct H as [H1 H2]. split; rewrite HP; [rewrite HH; exact H1|].
      rewrite HN. intros e He. apply in_map_iff in He.
      destruct He as (m & <- & Hm). destruct (H2 m Hm) as (q & Hq & E).
      exists q. split; [exact Hq|]. rewrite E.
      destruct (inBatch _ m); reflexivity.
Qed.

Lemma routes_and_jobs_leave_no_orphans_witness :
  (forall r, referenced (fst (Routes.serve r sampleDb))) /\
  (forall cb now ninetyDaysAgo scrape schedule send scan,
     referenced (Jobs.fire cb now ninetyDaysAgo scrape schedule send scan sampleDb)).
Proof.
  apply (routes_and_jobs_leave_no_orphans sampleDb). split.
  - intros h [<-|[]]. exists sampleProduct. split; [now left|reflexivity].
  - intros e [].
Defined.
